(** * Cloud cost analysis and alerting engine

    A shallow embedding of the analysis and alerting code of the cost
    dashboard ([lambda/alerting/handler.py],
    [lambda/alerting/notification_utils.py],
    [lambda/data_processing/handler.py] and
    [lambda/data_processing/analysis_utils.py]), followed by the properties
    the specification states about it.

    Conventions of the embedding.
    - A Python [float] is an exact rational ([Q]): rounding error of the
      binary format is not represented.  [round(x, n)] is the round-half-even
      rounding to [n] decimals, which is what Python computes on the exact
      value.
    - The one irrational operation of the code is the square root inside
      [statistics.stdev] and [math.sqrt].  Such a value is kept as the
      rational under the root ([Py.Root]); comparing, dividing and rounding
      it is exact.
    - A Python [dict] is an association list in insertion order with unique
      keys ([Py.dict]); the code iterates over [.items()] and [.values()],
      so the order is observable.
    - A point in time is an integer number of microseconds.  The code stores
      and compares ISO-8601 strings of fixed field width, whose
      lexicographic order is the order of the instants.
    - A raised exception is a value [Py.Raise e]; [try]/[except] is a match
      on it.
    - The tables and the topic are state that the functions pass along.  A
      call to them succeeds or raises as the environment of the call says;
      a scan that succeeds has examined the whole table. *)

From Stdlib Require Import Reals Qreals Lra.
From Stdlib Require Import QArith Qround Qabs ZArith List String Ascii Bool.
From Stdlib Require Import Lia Lqa PeanoNat Permutation Sorted.
Import ListNotations.

Open Scope Q_scope.
Open Scope string_scope.

(** ** Python values and library functions used by the code *)

Module Py.

Inductive exn : Set :=
| StatisticsError   (* statistics.mean / stdev on too few points *)
| TypeError         (* an operator applied to operands it does not accept *)
| ValueError        (* max() of an empty sequence *)
| KeyError          (* d[k] for a key that is not in d *)
| ClientError.      (* a failed call to the table or to the topic *)

Inductive result (A : Type) : Type :=
| Ok (a : A)
| Raise (e : exn).
Arguments Ok {A} a.
Arguments Raise {A} e.

Definition bind {A B} (r : result A) (k : A -> result B) : result B :=
  match r with
  | Ok a => k a
  | Raise e => Raise e
  end.

(** *** Numbers *)

Definition Qltb (x y : Q) : bool := negb (Qle_bool y x).
Definition Qgtb (x y : Q) : bool := Qltb y x.
Definition Qgeb (x y : Q) : bool := Qle_bool y x.

(** Nearest integer, ties to the even one. *)
Definition round_half_even (x : Q) : Z :=
  let f := Qfloor x in
  match Qcompare (x - inject_Z f) (1 # 2) with
  | Lt => f
  | Gt => (f + 1)%Z
  | Eq => if Z.even f then f else (f + 1)%Z
  end.

(** [10 ** n]. *)
Fixpoint scale (n : nat) : positive :=
  match n with
  | O => 1%positive
  | S n' => (10 * scale n')%positive
  end.

(** [round(x, n)]: the result keeps [n] decimals, as the [Decimal] built
    from it does. *)
Definition round (x : Q) (ndigits : nat) : Q :=
  round_half_even (x * inject_Z (Zpos (scale ndigits))) # scale ndigits.

(** [sum(xs)]: a left fold from [0]. *)
Definition sum (xs : list Q) : Q := fold_left Qplus xs 0.

Definition len {A} (xs : list A) : Q := inject_Z (Z.of_nat (List.length xs)).

(** [statistics.mean]. *)
Definition mean (xs : list Q) : result Q :=
  match xs with
  | [] => Raise StatisticsError
  | _ => Ok (sum xs / len xs)
  end.

(** *** Square roots *)

(** [root_of r] is the real number [sqrt r], for [0 <= r]. *)
Record Root : Set := root_of { radicand : Q }.

Definition root_val (s : Root) : R := sqrt (Q2R (radicand s)).

(** [s > 0]. *)
Definition root_pos (s : Root) : bool := Qltb 0 (radicand s).

(** [abs(a) / s], for [s > 0]. *)
Definition abs_div_root (a : Q) (s : Root) : Root :=
  root_of (a * a / radicand s).

(** [s > t]. *)
Definition root_gt (s : Root) (t : Q) : bool :=
  if Qltb t 0 then true else Qltb (t * t) (radicand s).

(** [round(s, n)]. *)
Definition root_round (s : Root) (ndigits : nat) : Q :=
  let p := scale ndigits in
  let n := radicand s * inject_Z (Zpos (p * p)) in
  let k := Z.sqrt (Qfloor n) in
  let h := inject_Z (2 * k + 1) in
  match Qcompare (4 * n) (h * h) with
  | Lt => k
  | Gt => (k + 1)%Z
  | Eq => if Z.even k then k else (k + 1)%Z
  end # p.

(** [statistics.stdev]: the sample standard deviation, the root of
    [sum((x - mean)^2) / (n - 1)]. *)
Definition sum_sq_dev (xs : list Q) (m : Q) : Q :=
  sum (map (fun x => (x - m) * (x - m)) xs).

Definition stdev (xs : list Q) : result Root :=
  match xs with
  | [] | [_] => Raise StatisticsError
  | _ => bind (mean xs) (fun m => Ok (root_of (sum_sq_dev xs m / (len xs - 1))))
  end.

(** *** Dictionaries *)

Definition dict (V : Type) : Type := list (string * V).

Fixpoint get {V} (k : string) (d : dict V) : option V :=
  match d with
  | [] => None
  | (k', v) :: d' => if String.eqb k k' then Some v else get k d'
  end.

(** [d[k] = v]: an existing key keeps its place, a new one goes last. *)
Fixpoint set {V} (k : string) (v : V) (d : dict V) : dict V :=
  match d with
  | [] => [(k, v)]
  | (k', v') :: d' =>
      if String.eqb k k' then (k', v) :: d' else (k', v') :: set k v d'
  end.

Definition get_default {V} (k : string) (d : dict V) (default : V) : V :=
  match get k d with Some v => v | None => default end.

Definition keys {V} (d : dict V) : list string := map fst d.
Definition values {V} (d : dict V) : list V := map snd d.

(** *** Strings *)

(** [max(keys)]: the first greatest element. *)
Fixpoint max_from (best : string) (ks : list string) : string :=
  match ks with
  | [] => best
  | k :: ks' => max_from (if String.ltb best k then k else best) ks'
  end.

Definition max (ks : list string) : option string :=
  match ks with
  | [] => None
  | k :: ks' => Some (max_from k ks')
  end.

(** [sorted(keys)]: a stable insertion sort. *)
Fixpoint insert_sorted (k : string) (ks : list string) : list string :=
  match ks with
  | [] => [k]
  | k' :: ks' =>
      if String.ltb k k' then k :: k' :: ks' else k' :: insert_sorted k ks'
  end.

Definition sorted (ks : list string) : list string :=
  fold_left (fun acc k => insert_sorted k acc) ks [].

(** *** Subscripts and slices *)

(** [d[k]] *)
Definition item {V} (d : dict V) (k : string) : result V :=
  match get k d with
  | Some v => Ok v
  | None => Raise KeyError
  end.

(** [[d[k] for k in ks]] *)
Fixpoint items_of {V} (d : dict V) (ks : list string) : result (list V) :=
  match ks with
  | [] => Ok []
  | k :: ks' =>
      bind (item d k) (fun v =>
      bind (items_of d ks') (fun vs => Ok (v :: vs)))
  end.

(** [xs[-n:]] *)
Definition last_n {A} (n : nat) (xs : list A) : list A :=
  skipn (List.length xs - n) xs.

(** [xs[:-n]], for [0 < n] *)
Definition drop_last_n {A} (n : nat) (xs : list A) : list A :=
  firstn (List.length xs - n) xs.

(** [xs[-m:-n]], for [0 < n] *)
Definition slice_from_end {A} (m n : nat) (xs : list A) : list A :=
  skipn (List.length xs - m) (drop_last_n n xs).

(** [min(a, b)] *)
Definition min (a b : Q) : Q := if Qltb b a then b else a.

(** *** Time *)

Definition Instant : Set := Z.          (* microseconds *)
Definition seconds (n : Z) : Z := (n * 1000000)%Z.
Definition hours (n : Z) : Z := seconds (n * 3600).
Definition days (n : Z) : Z := hours (n * 24).

(** [int(t.timestamp())] *)
Definition epoch_seconds (t : Instant) : Z := (t / 1000000)%Z.

Definition digit (n : Z) : string :=
  String (ascii_of_nat (48 + Z.to_nat (n mod 10))) EmptyString.

Fixpoint digits (width : nat) (n : Z) : string :=
  match width with
  | O => EmptyString
  | S w => digits w (n / 10) ++ digit n
  end.

(** Year, month and day of a day number counted from 1970-01-01
    (proleptic Gregorian calendar). *)
Definition civil (day : Z) : Z * Z * Z :=
  let z := (day + 719468)%Z in
  let era := (z / 146097)%Z in
  let doe := (z - era * 146097)%Z in
  let yoe := ((doe - doe / 1460 + doe / 36524 - doe / 146096) / 365)%Z in
  let doy := (doe - (365 * yoe + yoe / 4 - yoe / 100))%Z in
  let mp := ((5 * doy + 2) / 153)%Z in
  let d := (doy - (153 * mp + 2) / 5 + 1)%Z in
  let m := (if mp <? 10 then mp + 3 else mp - 9)%Z in
  let y := (yoe + era * 400 + (if m <=? 2 then 1 else 0))%Z in
  (y, m, d).

(** [t.strftime('%Y%m%d_%H%M%S')] *)
Definition strftime_compact (t : Instant) : string :=
  let secs := epoch_seconds t in
  let '(y, m, d) := civil (secs / 86400) in
  let sod := (secs mod 86400)%Z in
  digits 4 y ++ digits 2 m ++ digits 2 d ++ "_"
    ++ digits 2 (sod / 3600) ++ digits 2 (sod / 60 mod 60) ++ digits 2 (sod mod 60).

(** [t.strftime('%Y-%m-%d')] *)
Definition strftime_date (t : Instant) : string :=
  let '(y, m, d) := civil (epoch_seconds t / 86400) in
  digits 4 y ++ "-" ++ digits 2 m ++ "-" ++ digits 2 d.

(** [s.lower()], [s.upper()] and [s.replace(' ', '_')], on ASCII letters. *)
Definition lower_ascii (c : ascii) : ascii :=
  let n := nat_of_ascii c in
  if ((65 <=? n) && (n <=? 90))%nat then ascii_of_nat (n + 32) else c.

Fixpoint lower (s : string) : string :=
  match s with
  | EmptyString => EmptyString
  | String c s' => String (lower_ascii c) (lower s')
  end.

Definition upper_ascii (c : ascii) : ascii :=
  let n := nat_of_ascii c in
  if ((97 <=? n) && (n <=? 122))%nat then ascii_of_nat (n - 32) else c.

Fixpoint upper (s : string) : string :=
  match s with
  | EmptyString => EmptyString
  | String c s' => String (upper_ascii c) (upper s')
  end.

Fixpoint replace_space (s : string) : string :=
  match s with
  | EmptyString => EmptyString
  | String c s' =>
      String (if Ascii.eqb c " "%char then "_"%char else c) (replace_space s')
  end.

(** *** Numbers with their Python type

    The table library hands every number attribute over as a [Decimal];
    the code turns cost amounts into [float] before it computes with
    them.  [/] and [*] accept [int] with either, and refuse to mix [float]
    with [Decimal]. *)

Inductive Number : Set :=
| PyInt (n : Z)
| PyFloat (x : Q)
| PyDecimal (d : Q).

Definition value (n : Number) : Q :=
  match n with
  | PyInt z => inject_Z z
  | PyFloat x => x
  | PyDecimal d => d
  end.

(** [if n:] *)
Definition truthy (n : Number) : bool := negb (Qeq_bool (value n) 0).

(** [a / b], for [b] other than zero *)
Definition truediv (a b : Number) : result Number :=
  match a, b with
  | PyFloat _, PyDecimal _ | PyDecimal _, PyFloat _ => Raise TypeError
  | PyDecimal _, _ | _, PyDecimal _ => Ok (PyDecimal (value a / value b))
  | _, _ => Ok (PyFloat (value a / value b))
  end.

(** [a * b] *)
Definition mul (a b : Number) : result Number :=
  match a, b with
  | PyFloat _, PyDecimal _ | PyDecimal _, PyFloat _ => Raise TypeError
  | PyDecimal _, _ | _, PyDecimal _ => Ok (PyDecimal (value a * value b))
  | PyInt x, PyInt y => Ok (PyInt (x * y))
  | _, _ => Ok (PyFloat (value a * value b))
  end.

(** [sum(float(x) for x in xs)]: the [int] [0] for no element. *)
Definition sum_floats (xs : list Q) : Number :=
  match xs with
  | [] => PyInt 0
  | _ => PyFloat (sum xs)
  end.

(** [s.add(x)] on a set of strings; only the size of the set is observed. *)
Definition set_add (x : string) (s : list string) : list string :=
  if existsb (String.eqb x) s then s else (s ++ [x])%list.

(** [sorted(items, key=..., reverse=True)] for a numeric key: stable,
    greatest key first. *)
Fixpoint insert_desc {A : Type} (key : A -> Q) (x : A) (sorted : list A)
  : list A :=
  match sorted with
  | [] => [x]
  | y :: rest =>
      if Qltb (key y) (key x) then x :: y :: rest
      else y :: insert_desc key x rest
  end.

Definition sorted_desc {A : Type} (key : A -> Q) (xs : list A) : list A :=
  fold_left (fun acc x => insert_desc key x acc) xs [].

(** [max(a, b)] for two numbers: [a] unless [b] is greater. *)
Definition max_number (a b : Q) : Q := if Qgtb b a then b else a.

(** [xs[:n]] for an [int] [n]: a negative [n] counts from the end. *)
Definition slice_to {A : Type} (n : Z) (xs : list A) : list A :=
  if (0 <=? n)%Z then firstn (Z.to_nat n) xs
  else firstn (List.length xs - Z.to_nat (- n)) xs.

(** *** Order statistics *)

(** [sorted(xs)] for numbers: stable, smallest first. *)
Fixpoint insert_number (x : Q) (sorted : list Q) : list Q :=
  match sorted with
  | [] => [x]
  | y :: rest =>
      if Qltb x y then x :: y :: rest else y :: insert_number x rest
  end.

Definition sorted_numbers (xs : list Q) : list Q :=
  fold_left (fun acc x => insert_number x acc) xs [].

(** [statistics.median]: the middle element of the sorted data, or the
    mean of the two middle elements. *)
Definition median (xs : list Q) : result Q :=
  let data := sorted_numbers xs in
  let n := List.length data in
  if (n =? 0)%nat then Raise StatisticsError
  else if (n mod 2 =? 1)%nat then Ok (nth (n / 2) data 0)
  else
    let i := (n / 2)%nat in
    Ok ((nth (i - 1) data 0 + nth i data 0) / 2).

(** [min(xs)] and [max(xs)] of a list of numbers: the first least and the
    first greatest element. *)
Definition min_of (xs : list Q) : result Q :=
  match xs with
  | [] => Raise ValueError
  | x :: rest => Ok (fold_left (fun best y => if Qltb y best then y else best) rest x)
  end.

Definition max_of (xs : list Q) : result Q :=
  match xs with
  | [] => Raise ValueError
  | x :: rest => Ok (fold_left (fun best y => if Qgtb y best then y else best) rest x)
  end.

End Py.

Notation "x <- r ;; k" := (Py.bind r (fun x => k))
  (at level 61, r at next level, right associativity).

(** ** Cost records

    An item of the cost table as the code reads it.  [record.get(k, default)]
    is used for every attribute except [timestamp], which is read with
    [record['timestamp']]. *)

Record CostRecord : Set := mkCost {
  service_name : option string;
  region : option string;
  resource_id : option string;
  timestamp : string;
  cost_amount : option Q
}.

(** [float(record.get('cost_amount', 0))] *)
Definition cost_of (record : CostRecord) : Q :=
  match cost_amount record with Some c => c | None => 0 end.

(** [record.get('service_name', 'Unknown')] *)
Definition service_of (record : CostRecord) : string :=
  match service_name record with Some s => s | None => "Unknown" end.

(** [record.get('region', 'unknown')] *)
Definition region_of (record : CostRecord) : string :=
  match region record with Some r => r | None => "unknown" end.

(** [record['timestamp'][:10]] *)
Definition date_of (record : CostRecord) : string :=
  substring 0 10 (timestamp record).

(** The grouping loop shared by both anomaly detectors:
<<
    if service not in service_daily_costs: service_daily_costs[service] = {}
    if date not in service_daily_costs[service]:
        service_daily_costs[service][date] = 0
    service_daily_costs[service][date] += cost
>> *)
Definition add_daily (date : string) (cost : Q) (daily : Py.dict Q) : Py.dict Q :=
  let daily :=
    match Py.get date daily with
    | Some _ => daily
    | None => Py.set date 0 daily
    end in
  Py.set date (Py.get_default date daily 0 + cost) daily.

Definition add_service_daily (acc : Py.dict (Py.dict Q)) (record : CostRecord)
  : Py.dict (Py.dict Q) :=
  let service := service_of record in
  let acc :=
    match Py.get service acc with
    | Some _ => acc
    | None => Py.set service [] acc
    end in
  Py.set service
    (add_daily (date_of record) (cost_of record) (Py.get_default service acc []))
    acc.

Definition service_daily_costs (cost_data : list CostRecord)
  : Py.dict (Py.dict Q) :=
  fold_left add_service_daily cost_data [].

(** [sensitivity_thresholds.get(sensitivity, 2.5)] *)
Definition sensitivity_threshold (sensitivity : string) : Q :=
  if String.eqb sensitivity "low" then 3
  else if String.eqb sensitivity "medium" then 5 # 2
  else if String.eqb sensitivity "high" then 2
  else 5 # 2.

Inductive Direction : Set := spike | drop.

(** ['spike' if cost > cost_mean else 'drop'] *)
Definition direction_of (cost cost_mean : Q) : Direction :=
  if Py.Qgtb cost cost_mean then spike else drop.

(** [cost_std = stdev(costs) if len(costs) > 1 else 0] *)
Definition stdev_or_zero (costs : list Q) : Py.result Py.Root :=
  if (1 <? List.length costs)%nat then Py.stdev costs else Py.Ok (Py.root_of 0).

(** ** lambda/alerting/handler.py: [detect_service_anomalies] *)

Module ServiceAnomalies.

Record Anomaly : Set := mkAnomaly {
  service : string;
  date : string;
  current_cost : Q;          (* round(latest_cost, 2) *)
  expected_cost : Q;         (* round(cost_mean, 2) *)
  deviation : Q;             (* round(z_score, 2) *)
  severity : string;
  (* description: "Cost {spike|drop} detected (deviation: {z_score:.1f}σ)" *)
  description_direction : Direction;
  description_deviation : Q
}.

(** The body of the loop over the services; [None] when the service
    yields no anomaly. *)
Definition service_anomaly (threshold : Q) (service : string)
    (daily_costs : Py.dict Q) : Py.result (option Anomaly) :=
  let costs := Py.values daily_costs in
  if (List.length costs <? 7)%nat then Py.Ok None
  else
    cost_mean <- Py.mean costs ;;
    cost_std <- stdev_or_zero costs ;;
    match Py.max (Py.keys daily_costs) with
    | None => Py.Raise Py.ValueError
    | Some latest_date =>
        match Py.get latest_date daily_costs with
        | None => Py.Raise Py.KeyError
        | Some latest_cost =>
            if Py.root_pos cost_std then
              let z_score := Py.abs_div_root (latest_cost - cost_mean) cost_std in
              if Py.root_gt z_score threshold then
                Py.Ok (Some {|
                  service := service;
                  date := latest_date;
                  current_cost := Py.round latest_cost 2;
                  expected_cost := Py.round cost_mean 2;
                  deviation := Py.root_round z_score 2;
                  severity :=
                    if Py.root_gt z_score 3 then "critical"
                    else if Py.root_gt z_score 2 then "warning"
                    else "info";
                  description_direction := direction_of latest_cost cost_mean;
                  description_deviation := Py.root_round z_score 1
                |})
              else Py.Ok None
            else Py.Ok None
        end
    end.

Fixpoint detect_loop (threshold : Q) (items : Py.dict (Py.dict Q))
    (anomalies : list Anomaly) : Py.result (list Anomaly) :=
  match items with
  | [] => Py.Ok anomalies
  | (service, daily_costs) :: rest =>
      found <- service_anomaly threshold service daily_costs ;;
      detect_loop threshold rest
        (match found with
         | Some anomaly => anomalies ++ [anomaly]
         | None => anomalies
         end)
  end.

Definition detect_service_anomalies (cost_data : list CostRecord)
    (sensitivity : string) : Py.result (list Anomaly) :=
  detect_loop (sensitivity_threshold sensitivity)
    (service_daily_costs cost_data) [].

End ServiceAnomalies.

(** ** lambda/data_processing/analysis_utils.py: [detect_cost_anomalies] *)

Module AnalysisUtils.

Record Anomaly : Set := mkAnomaly {
  service : string;
  date : string;
  cost : Q;                  (* round(cost, 2) *)
  expected_cost : Q;         (* round(cost_mean, 2) *)
  deviation : Q;             (* round(z_score, 2) *)
  severity : string;
  type : Direction
}.

(** The loop over the days of one service. *)
Fixpoint day_anomalies (service : string) (threshold cost_mean : Q)
    (cost_std : Py.Root) (days : Py.dict Q) : list Anomaly :=
  match days with
  | [] => []
  | (date, cost) :: rest =>
      let tail := day_anomalies service threshold cost_mean cost_std rest in
      if Py.root_pos cost_std then
        let z_score := Py.abs_div_root (cost - cost_mean) cost_std in
        if Py.root_gt z_score threshold then
          {| service := service;
             date := date;
             cost := Py.round cost 2;
             expected_cost := Py.round cost_mean 2;
             deviation := Py.root_round z_score 2;
             severity :=
               if Py.root_gt z_score 3 then "high"
               else if Py.root_gt z_score 2 then "medium"
               else "low";
             type := direction_of cost cost_mean |} :: tail
        else tail
      else tail
  end.

Definition service_anomalies (threshold : Q) (service : string)
    (daily_costs : Py.dict Q) : Py.result (list Anomaly) :=
  let costs := Py.values daily_costs in
  if (List.length costs <? 7)%nat then Py.Ok []
  else
    cost_mean <- Py.mean costs ;;
    cost_std <- stdev_or_zero costs ;;
    Py.Ok (day_anomalies service threshold cost_mean cost_std daily_costs).

Fixpoint detect_loop (threshold : Q) (items : Py.dict (Py.dict Q))
    (anomalies : list Anomaly) : Py.result (list Anomaly) :=
  match items with
  | [] => Py.Ok anomalies
  | (service, daily_costs) :: rest =>
      found <- service_anomalies threshold service daily_costs ;;
      detect_loop threshold rest (anomalies ++ found)
  end.

(** [sorted(anomalies, key=lambda x: x['deviation'], reverse=True)]:
    stable, greatest deviation first. *)
Fixpoint insert_by_deviation (a : Anomaly) (sorted : list Anomaly)
  : list Anomaly :=
  match sorted with
  | [] => [a]
  | b :: rest =>
      if Py.Qltb (deviation b) (deviation a) then a :: b :: rest
      else b :: insert_by_deviation a rest
  end.

Definition sorted_by_deviation (anomalies : list Anomaly) : list Anomaly :=
  fold_left (fun acc a => insert_by_deviation a acc) anomalies [].

Definition detect_cost_anomalies (cost_data : list CostRecord)
    (sensitivity : string) : Py.result (list Anomaly) :=
  anomalies <- detect_loop (sensitivity_threshold sensitivity)
                 (service_daily_costs cost_data) [] ;;
  Py.Ok (sorted_by_deviation anomalies).

(** *** Forecast, cost drivers and insights *)

(** The exceptions of the three functions below. *)
Inductive Raised : Set :=
| StatisticsError
| KeyError
| ValueError          (* strptime on a string that is no date *)
| OverflowError       (* a date after 9999-12-31 *)
| ZeroDivisionError.

Inductive outcome (A : Type) : Type :=
| Returns (a : A)
| Raises (e : Raised).
Arguments Returns {A} a.
Arguments Raises {A} e.

(** Daily totals over all services:
    [if date not in daily_costs: daily_costs[date] = 0], then [+= cost]. *)
Definition daily_costs_of (cost_data : list CostRecord) : Py.dict Q :=
  fold_left (fun daily record => add_daily (date_of record) (cost_of record) daily)
    cost_data [].

Definition index (i : nat) : Q := inject_Z (Z.of_nat i).

(** [sum((x_values[i] - x_mean) * (costs[i] - y_mean) for i in range(n))] *)
Definition numerator (costs : list Q) (x_mean y_mean : Q) : Q :=
  Py.sum (map (fun ic => (index (fst ic) - x_mean) * (snd ic - y_mean))
              (combine (seq 0 (List.length costs)) costs)).

(** [sum((x_values[i] - x_mean) ** 2 for i in range(n))] *)
Definition denominator (n : nat) (x_mean : Q) : Q :=
  Py.sum (map (fun i => (index i - x_mean) * (index i - x_mean)) (seq 0 n)).

Inductive Trend : Set := increasing | decreasing | stable.

(** A day of the forecast.  A date is the number of its day; the last day
    a date can hold is 9999-12-31. *)
Record ForecastDay : Set := mkForecastDay {
  forecast_date : Z;           (* 'date' *)
  forecasted_cost : Q          (* max(0, round(forecast_cost, 2)) *)
}.

Definition max_day : Z := 2932896.

Record Forecast : Set := mkForecast {
  forecast : list ForecastDay;
  trend : Trend;
  daily_change : Q;            (* round(slope, 2) *)
  confidence : Q               (* min(100, max(0, 100 - abs(slope) * 10)) *)
}.

(** The loop [for i in range(1, forecast_days + 1)]; [steps] are the
    values of [i]. *)
Fixpoint forecast_loop (last_date : Z) (n : nat) (slope intercept : Q)
    (steps : list nat) : outcome (list ForecastDay) :=
  match steps with
  | [] => Returns []
  | i :: rest =>
      let forecast_date := (last_date + Z.of_nat i)%Z in
      if (max_day <? forecast_date)%Z then Raises OverflowError
      else
        let forecast_cost := slope * (index n + index i - 1) + intercept in
        match forecast_loop last_date n slope intercept rest with
        | Returns days =>
            Returns (mkForecastDay forecast_date
                       (Py.max_number 0 (Py.round forecast_cost 2)) :: days)
        | Raises e => Raises e
        end
  end.

(** [calculate_forecast]; [strptime date] is the day that
    [datetime.strptime(date, '%Y-%m-%d').date()] returns, or [None] where
    it raises [ValueError].  [Returns None] is the [None] returned for
    fewer than seven days. *)
Definition calculate_forecast (strptime : string -> option Z)
    (cost_data : list CostRecord) (forecast_days : Z)
  : outcome (option Forecast) :=
  let daily_costs := daily_costs_of cost_data in
  let sorted_dates := Py.sorted (Py.keys daily_costs) in
  if (List.length sorted_dates <? 7)%nat then Returns None
  else
    match Py.items_of daily_costs sorted_dates with
    | Py.Raise _ => Raises KeyError
    | Py.Ok costs =>
        let n := List.length costs in
        match Py.mean (map index (seq 0 n)), Py.mean costs with
        | Py.Ok x_mean, Py.Ok y_mean =>
            let num := numerator costs x_mean y_mean in
            let den := denominator n x_mean in
            if Qeq_bool den 0 then Returns None
            else
              let slope := num / den in
              let intercept := y_mean - slope * x_mean in
              match strptime (last sorted_dates "") with
              | None => Raises ValueError
              | Some last_date =>
                  match forecast_loop last_date n slope intercept
                          (seq 1 (Z.to_nat forecast_days)) with
                  | Raises e => Raises e
                  | Returns days =>
                      Returns (Some {|
                        forecast := days;
                        trend :=
                          if Py.Qgtb slope 0 then increasing
                          else if Py.Qltb slope 0 then decreasing
                          else stable;
                        daily_change := Py.round slope 2;
                        confidence :=
                          Py.min 100 (Py.max_number 0 (100 - Qabs slope * 10))
                      |})
                  end
              end
        | _, _ => Raises StatisticsError
        end
    end.

(** [d[key] = d.get(key, 0) + cost] *)
Definition add_cost (key : string) (cost : Q) (d : Py.dict Q) : Py.dict Q :=
  Py.set key (Py.get_default key d 0 + cost) d.

(** [a / b] on floats. *)
Definition true_div (a b : Q) : outcome Q :=
  if Qeq_bool b 0 then Raises ZeroDivisionError else Returns (a / b).

(** [max(items, key=lambda x: x[1])]: the first item of the greatest
    value. *)
Definition max_item (items : list (string * Q)) : option (string * Q) :=
  match items with
  | [] => None
  | first :: rest =>
      Some (fold_left (fun best item =>
                         if Py.Qgtb (snd item) (snd best) then item else best)
              rest first)
  end.

Inductive InsightType : Set := cost_increase | cost_concentration.

(** An insight.  Of its message, which is text around a percentage
    printed with one decimal, the record keeps the service named and the
    percentage. *)
Record Insight : Set := mkInsight {
  insight_type : InsightType;    (* 'type' *)
  insight_severity : string;    (* 'severity' *)
  about : option string;
  percent : Q
}.

(** The daily totals of [generate_cost_insights] and its first part, on the
    change from the week before the last to the last. *)
Definition insight_daily_costs (cost_data : list CostRecord) : Py.dict Q :=
  fold_left (fun daily record =>
               add_cost (date_of record) (cost_of record) daily)
    cost_data [].

Definition trend_insights (cost_data : list CostRecord)
  : outcome (list Insight) :=
  let daily_costs := insight_daily_costs cost_data in
  if (7 <=? List.length daily_costs)%nat then
    let costs := Py.values daily_costs in
    match Py.mean (Py.last_n 7 costs) with
    | Py.Raise _ => Raises StatisticsError
    | Py.Ok recent_avg =>
        if (14 <=? List.length costs)%nat then
          match Py.mean (Py.slice_from_end 14 7 costs) with
          | Py.Raise _ => Raises StatisticsError
          | Py.Ok previous_avg =>
              match true_div (recent_avg - previous_avg) previous_avg with
              | Raises e => Raises e
              | Returns quotient =>
                  let change := quotient * 100 in
                  if Py.Qgtb change 20 then
                    Returns [mkInsight cost_increase "high" None change]
                  else if Py.Qgtb change 10 then
                    Returns [mkInsight cost_increase "medium" None change]
                  else Returns []
              end
          end
        else Returns []
    end
  else Returns [].

(** The costs by service and the second part, on the share of the
    greatest service. *)
Definition insight_service_costs (cost_data : list CostRecord) : Py.dict Q :=
  fold_left (fun service_costs record =>
               add_cost (service_of record) (cost_of record) service_costs)
    cost_data [].

Definition concentration_insights (cost_data : list CostRecord)
  : outcome (list Insight) :=
  let service_costs := insight_service_costs cost_data in
  let total_cost := Py.sum (map cost_of cost_data) in
  match service_costs with
  | [] => Returns []
  | _ =>
      match Py.max_of (Py.values service_costs) with
      | Py.Raise _ => Raises ValueError
      | Py.Ok top_service_cost =>
          match true_div top_service_cost total_cost with
          | Raises e => Raises e
          | Returns share =>
              if Py.Qgtb share (7 # 10) then
                Returns [mkInsight cost_concentration "medium"
                           (option_map fst (max_item service_costs))
                           (share * 100)]
              else Returns []
          end
      end
  end.

(** [generate_cost_insights] *)
Definition generate_cost_insights (cost_data : list CostRecord)
  : outcome (list Insight) :=
  match trend_insights cost_data with
  | Raises e => Raises e
  | Returns on_trend =>
      match concentration_insights cost_data with
      | Raises e => Raises e
      | Returns on_concentration =>
          Returns (on_trend ++ on_concentration)%list
      end
  end.

(** The three dictionaries of [identify_cost_drivers] and its running
    total. *)
Record DriverCosts : Type := mkDriverCosts {
  services : Py.dict Q;
  regions : Py.dict Q;
  resources : Py.dict Q;
  running_total : Q            (* total_cost *)
}.

(** The body of its loop; [if resource:] skips a missing and an empty
    resource id. *)
Definition add_driver_costs (drivers : DriverCosts) (record : CostRecord)
  : DriverCosts :=
  let cost := cost_of record in
  {| services := add_cost (service_of record) cost (services drivers);
     regions := add_cost (region_of record) cost (regions drivers);
     resources :=
       match resource_id record with
       | None | Some "" => resources drivers
       | Some resource => add_cost resource cost (resources drivers)
       end;
     running_total := running_total drivers + cost |}.

Record Driver : Set := mkDriver {
  name : string;
  driver_cost : Q;             (* 'cost': round(cost, 2) *)
  percentage : Q
}.

(** [sorted(data.items(), key=lambda x: x[1], reverse=True)[:top_n]], each
    item with its share of the total. *)
Definition top_drivers (top_n : Z) (total_cost : Q) (data : Py.dict Q)
  : list Driver :=
  map (fun item =>
         mkDriver (fst item) (Py.round (snd item) 2)
           (Py.round (if Py.Qgtb total_cost 0
                      then snd item / total_cost * 100
                      else 0) 2))
    (Py.slice_to top_n (Py.sorted_desc snd data)).

Record Drivers : Set := mkDrivers {
  top_services : list Driver;    (* 'services' *)
  top_regions : list Driver;     (* 'regions' *)
  top_resources : list Driver    (* 'resources' *)
}.

(** [identify_cost_drivers] *)
Definition identify_cost_drivers (cost_data : list CostRecord) (top_n : Z)
  : Drivers :=
  let drivers :=
    fold_left add_driver_costs cost_data (mkDriverCosts [] [] [] 0) in
  let total_cost := running_total drivers in
  {| top_services := top_drivers top_n total_cost (services drivers);
     top_regions := top_drivers top_n total_cost (regions drivers);
     top_resources := top_drivers top_n total_cost (resources drivers) |}.

End AnalysisUtils.


(** ** lambda/data_processing/handler.py: trends and recommendations *)

Module ProcessingHandler.

(** Daily totals over all services. *)
Definition add_day (daily_costs : Py.dict Q) (record : CostRecord)
  : Py.dict Q :=
  add_daily (date_of record) (cost_of record) daily_costs.

Definition daily_costs_of (cost_data : list CostRecord) : Py.dict Q :=
  fold_left add_day cost_data [].

Inductive TrendDirection : Set := increasing | decreasing | stable.

Record Trend : Set := mkTrend {
  trend_direction : TrendDirection;
  daily_change_rate : Q;       (* round(slope, 4) *)
  percent_change_week : Q;     (* round(percent_change, 2) *)
  volatility : Q;              (* round(sqrt(sum((c - y_mean)^2) / n), 2) *)
  trend_strength : Q           (* min(abs(slope) * 10, 100) *)
}.

Definition index (i : nat) : Q := inject_Z (Z.of_nat i).

(** [sum((i - x_mean) * (costs[i] - y_mean) for i in range(n))] *)
Definition numerator (costs : list Q) (x_mean y_mean : Q) : Q :=
  Py.sum (map (fun ic => (index (fst ic) - x_mean) * (snd ic - y_mean))
              (combine (seq 0 (List.length costs)) costs)).

(** [sum((i - x_mean) ** 2 for i in range(n))] *)
Definition denominator (n : nat) (x_mean : Q) : Q :=
  Py.sum (map (fun i => (index i - x_mean) * (index i - x_mean)) (seq 0 n)).

(** [slope = numerator / denominator if denominator != 0 else 0] *)
Definition slope_of (costs : list Q) (y_mean : Q) : Q :=
  let n := List.length costs in
  let x_mean := (Py.len costs - 1) / 2 in
  let den := denominator n x_mean in
  if Qeq_bool den 0 then 0 else numerator costs x_mean y_mean / den.

(** The week-over-week change in percent. *)
Definition percent_change_of (costs : list Q) : Py.result Q :=
  if (7 <=? List.length costs)%nat then
    recent_avg <- Py.mean (Py.last_n 7 costs) ;;
    previous_avg <-
      (if (14 <=? List.length costs)%nat
       then Py.mean (Py.slice_from_end 14 7 costs)
       else Py.mean (Py.drop_last_n 7 costs)) ;;
    Py.Ok (if Py.Qgtb previous_avg 0
           then (recent_avg - previous_avg) / previous_avg * 100
           else 0)
  else Py.Ok 0.

(** ['increasing' if slope > 0 else 'decreasing' if slope < 0 else 'stable'] *)
Definition direction_of_slope (slope : Q) : TrendDirection :=
  if Py.Qgtb slope 0 then increasing
  else if Py.Qltb slope 0 then decreasing
  else stable.

(** [analyze_cost_trends]; [Ok None] is the empty dict it returns for
    fewer than two days. *)
Definition analyze_cost_trends (cost_data : list CostRecord)
  : Py.result (option Trend) :=
  let daily_costs := daily_costs_of cost_data in
  let sorted_dates := Py.sorted (Py.keys daily_costs) in
  if (List.length sorted_dates <? 2)%nat then Py.Ok None
  else
    costs <- Py.items_of daily_costs sorted_dates ;;
    y_mean <- Py.mean costs ;;
    let slope := slope_of costs y_mean in
    percent_change <- percent_change_of costs ;;
    Py.Ok (Some {|
      trend_direction := direction_of_slope slope;
      daily_change_rate := Py.round slope 4;
      percent_change_week := Py.round percent_change 2;
      volatility :=
        Py.root_round (Py.root_of (Py.sum_sq_dev costs y_mean / Py.len costs)) 2;
      trend_strength := Py.min (Qabs slope * 10) 100
    |}).

(** *** Daily costs *)

Record DailyAnalysis : Type := mkDailyAnalysis {
  total_days : nat;
  average_daily_cost : Q;      (* round(mean(costs), 2) *)
  median_daily_cost : Q;       (* round(median(costs), 2) *)
  min_daily_cost : Q;          (* round(min(costs), 2) *)
  max_daily_cost : Q;          (* round(max(costs), 2) *)
  daily_total_cost : Q;        (* 'total_cost': round(sum(costs), 2) *)
  daily_breakdown : Py.dict Q  (* date -> round(cost, 2) *)
}.

(** [analyze_daily_costs]; [Ok None] is the empty dict it returns for no
    data. *)
Definition analyze_daily_costs (cost_data : list CostRecord)
  : Py.result (option DailyAnalysis) :=
  let daily_costs := daily_costs_of cost_data in
  let costs := Py.values daily_costs in
  match costs with
  | [] => Py.Ok None
  | _ =>
      average <- Py.mean costs ;;
      middle <- Py.median costs ;;
      least <- Py.min_of costs ;;
      greatest <- Py.max_of costs ;;
      Py.Ok (Some {|
        total_days := List.length daily_costs;
        average_daily_cost := Py.round average 2;
        median_daily_cost := Py.round middle 2;
        min_daily_cost := Py.round least 2;
        max_daily_cost := Py.round greatest 2;
        daily_total_cost := Py.round (Py.sum costs) 2;
        daily_breakdown :=
          map (fun entry => (fst entry, Py.round (snd entry) 2)) daily_costs
      |})
  end.

(** *** Costs by service and by region *)

Record ServiceCosts : Set := mkServiceCosts {
  sc_total_cost : Q;           (* 'total_cost' *)
  record_count : nat;
  regions : list string        (* a set *)
}.

(** The grouping loop of [analyze_service_costs]. *)
Definition add_service (service_costs : Py.dict ServiceCosts)
    (record : CostRecord) : Py.dict ServiceCosts :=
  let service := service_of record in
  let cost := cost_of record in
  let service_costs :=
    match Py.get service service_costs with
    | Some _ => service_costs
    | None => Py.set service (mkServiceCosts 0 0 []) service_costs
    end in
  match Py.get service service_costs with
  | Some data =>
      Py.set service
        (mkServiceCosts (sc_total_cost data + cost) (record_count data + 1)
           (Py.set_add (region_of record) (regions data)))
        service_costs
  | None => service_costs
  end.

Record ServiceEntry : Set := mkServiceEntry {
  se_total_cost : Q;           (* 'total_cost': round(total, 2) *)
  percentage : Q;
  average_cost : Q;
  region_count : nat
}.

(** The entry of a service in the result.  Every service of the grouping
    has at least one record, so the division by its record count does not
    raise. *)
Definition service_entry (total_cost : Q) (data : ServiceCosts) : ServiceEntry :=
  {| se_total_cost := Py.round (sc_total_cost data) 2;
     percentage :=
       Py.round (if Py.Qgtb total_cost 0
                 then sc_total_cost data / total_cost * 100
                 else 0) 2;
     average_cost :=
       Py.round (sc_total_cost data / inject_Z (Z.of_nat (record_count data))) 2;
     region_count := List.length (regions data) |}.

Record ServiceAnalysis : Type := mkServiceAnalysis {
  service_breakdown : Py.dict ServiceEntry;
  top_service : option string;
  service_count : nat;
  sa_total_cost : Q            (* 'total_cost' *)
}.

(** [analyze_service_costs] *)
Definition analyze_service_costs (cost_data : list CostRecord)
  : ServiceAnalysis :=
  let service_costs := fold_left add_service cost_data [] in
  let total_cost := Py.sum (map sc_total_cost (Py.values service_costs)) in
  let result :=
    map (fun item => (fst item, service_entry total_cost (snd item)))
      service_costs in
  let sorted_services :=
    Py.sorted_desc (fun item => se_total_cost (snd item)) result in
  {| service_breakdown := sorted_services;
     top_service :=
       match sorted_services with
       | first :: _ => Some (fst first)
       | [] => None
       end;
     service_count := List.length service_costs;
     sa_total_cost := Py.round total_cost 2 |}.

Record RegionCosts : Set := mkRegionCosts {
  reg_total_cost : Q;          (* 'total_cost' *)
  services : list string       (* a set *)
}.

(** The grouping loop of [analyze_regional_costs]. *)
Definition add_region (regional_costs : Py.dict RegionCosts)
    (record : CostRecord) : Py.dict RegionCosts :=
  let region := region_of record in
  let cost := cost_of record in
  let regional_costs :=
    match Py.get region regional_costs with
    | Some _ => regional_costs
    | None => Py.set region (mkRegionCosts 0 []) regional_costs
    end in
  match Py.get region regional_costs with
  | Some data =>
      Py.set region
        (mkRegionCosts (reg_total_cost data + cost)
           (Py.set_add (service_of record) (services data)))
        regional_costs
  | None => regional_costs
  end.

Record RegionEntry : Set := mkRegionEntry {
  re_total_cost : Q;           (* 'total_cost': round(total, 2) *)
  re_percentage : Q;           (* 'percentage' *)
  re_service_count : nat       (* 'service_count' *)
}.

Definition region_entry (total_cost : Q) (data : RegionCosts) : RegionEntry :=
  {| re_total_cost := Py.round (reg_total_cost data) 2;
     re_percentage :=
       Py.round (if Py.Qgtb total_cost 0
                 then reg_total_cost data / total_cost * 100
                 else 0) 2;
     re_service_count := List.length (services data) |}.

Record RegionalAnalysis : Type := mkRegionalAnalysis {
  regional_breakdown : Py.dict RegionEntry;
  primary_region : option string;
  region_count_total : nat;    (* 'region_count' *)
  ra_total_cost : Q            (* 'total_cost' *)
}.

(** [analyze_regional_costs] *)
Definition analyze_regional_costs (cost_data : list CostRecord)
  : RegionalAnalysis :=
  let regional_costs := fold_left add_region cost_data [] in
  let total_cost := Py.sum (map reg_total_cost (Py.values regional_costs)) in
  let result :=
    map (fun item => (fst item, region_entry total_cost (snd item)))
      regional_costs in
  let sorted_regions :=
    Py.sorted_desc (fun item => re_total_cost (snd item)) result in
  {| regional_breakdown := sorted_regions;
     primary_region :=
       match sorted_regions with
       | first :: _ => Some (fst first)
       | [] => None
       end;
     region_count_total := List.length regional_costs;
     ra_total_cost := Py.round total_cost 2 |}.

(** *** Recommendations *)

Record ResourceCost : Set := mkResourceCost {
  total_cost : Q;
  rc_service : option string;      (* record.get('service_name') *)
  rc_region : option string        (* record.get('region') *)
}.

(** The grouping loop; a record without a resource id, or with an empty
    one, is skipped by [if resource_id:]. *)
Definition add_resource (resource_costs : Py.dict ResourceCost)
    (record : CostRecord) : Py.dict ResourceCost :=
  match resource_id record with
  | None => resource_costs
  | Some "" => resource_costs
  | Some rid =>
      let cost := cost_of record in
      let resource_costs :=
        match Py.get rid resource_costs with
        | Some _ => resource_costs
        | None =>
            Py.set rid (mkResourceCost 0 (service_name record) (region record))
              resource_costs
        end in
      match Py.get rid resource_costs with
      | Some data =>
          Py.set rid
            (mkResourceCost (total_cost data + cost) (rc_service data)
               (rc_region data))
            resource_costs
      | None => resource_costs
      end
  end.

Definition resource_costs_of (cost_data : list CostRecord)
  : Py.dict ResourceCost :=
  fold_left add_resource cost_data [].

(** [sorted(resource_costs.items(), key=total_cost, reverse=True)]:
    stable, greatest cost first. *)
Fixpoint insert_by_cost (x : string * ResourceCost)
    (sorted : list (string * ResourceCost)) : list (string * ResourceCost) :=
  match sorted with
  | [] => [x]
  | y :: rest =>
      if Py.Qltb (total_cost (snd y)) (total_cost (snd x)) then x :: y :: rest
      else y :: insert_by_cost x rest
  end.

Definition sorted_by_cost (resources : list (string * ResourceCost))
  : list (string * ResourceCost) :=
  fold_left (fun acc x => insert_by_cost x acc) resources [].

Record Recommendation : Set := mkRecommendation {
  rec_resource_id : string;
  recommendation_type : string;
  rec_service : option string;
  rec_region : option string;
  rec_current_cost : Q;          (* round(total_cost, 2) *)
  estimated_savings : Q;         (* round(total_cost * 0.2, 2) *)
  confidence : string;
  priority : string;
  implementation_effort : string;
  risk_level : string;
  created_at : Py.Instant;
  rec_status : string;
  implemented : bool;
  rec_ttl : Z
}.

Definition recommend (now : Py.Instant) (resource : string * ResourceCost)
  : Recommendation :=
  let data := snd resource in
  {| rec_resource_id := fst resource;
     recommendation_type := "cost_review";
     rec_service := rc_service data;
     rec_region := rc_region data;
     rec_current_cost := Py.round (total_cost data) 2;
     estimated_savings := Py.round (total_cost data * (2 # 10)) 2;
     confidence := "medium";
     priority := if Py.Qgtb (total_cost data) 500 then "high" else "medium";
     implementation_effort := "medium";
     risk_level := "low";
     created_at := now;
     rec_status := "open";
     implemented := false;
     rec_ttl := Py.epoch_seconds (now + Py.days 60)%Z |}.

(** The loop over [sorted_resources[:10]]. *)
Definition recommendations_for (now : Py.Instant)
    (sorted_resources : list (string * ResourceCost)) : list Recommendation :=
  map (recommend now)
    (filter (fun resource => Py.Qgtb (total_cost (snd resource)) 100)
       (firstn 10 sorted_resources)).

(** [put_item] on the recommendations table, whose key is
    [(resource_id, recommendation_type)]. *)
Fixpoint put_recommendation (r : Recommendation) (table : list Recommendation)
  : list Recommendation :=
  match table with
  | [] => [r]
  | r' :: rest =>
      if String.eqb (rec_resource_id r) (rec_resource_id r')
         && String.eqb (recommendation_type r) (recommendation_type r')
      then r :: rest
      else r' :: put_recommendation r rest
  end.

(** [generate_optimization_recommendations]: the recommendations returned
    and the table after the batch write.  The write is taken to succeed;
    the function has no handler for its failure. *)
Definition generate_optimization_recommendations (now : Py.Instant)
    (cost_data : list CostRecord) (table : list Recommendation)
  : list Recommendation * list Recommendation :=
  let sorted_resources := sorted_by_cost (resource_costs_of cost_data) in
  let recommendations := recommendations_for now sorted_resources in
  (recommendations,
   fold_left (fun t r => put_recommendation r t) recommendations table).

(** *** The analysis as a whole *)

(** What [process_cost_analysis] stores, and what it returns: the same
    analyses, with the number of the recommendations in place of them. *)
Record AnalysisResults : Type := mkAnalysisResults {
  stored_daily_analysis : option DailyAnalysis;
  stored_trend_analysis : option Trend;
  stored_service_analysis : ServiceAnalysis;
  stored_regional_analysis : RegionalAnalysis;
  recommendations : list Recommendation
}.

Record AnalysisReport : Type := mkAnalysisReport {
  daily_analysis : option DailyAnalysis;
  trend_analysis : option Trend;
  service_analysis : ServiceAnalysis;
  regional_analysis : RegionalAnalysis;
  recommendations_generated : nat
}.

(** An item of the analysis table, whose key is [(analysis_type, period)]. *)
Record AnalysisRecord : Type := mkAnalysisRecord {
  analysis_type : string;
  period : string;             (* utcnow().strftime('%Y-%m-%d') *)
  results : AnalysisResults;
  analysis_created_at : Py.Instant;
  analysis_ttl : Z
}.

Fixpoint put_analysis (record : AnalysisRecord) (table : list AnalysisRecord)
  : list AnalysisRecord :=
  match table with
  | [] => [record]
  | row :: rest =>
      if String.eqb (analysis_type record) (analysis_type row)
         && String.eqb (period record) (period row)
      then record :: rest
      else row :: put_analysis record rest
  end.

(** [store_analysis_results]: a write that raises is logged and
    swallowed. *)
Definition store_analysis_results (now : Py.Instant) (put_fails : bool)
    (analysis_type : string) (results : AnalysisResults)
    (table : list AnalysisRecord) : list AnalysisRecord :=
  if put_fails then table
  else
    put_analysis
      (mkAnalysisRecord analysis_type (Py.strftime_date now) results now
         (Py.epoch_seconds (now + Py.days 365)%Z))
      table.

(** The two tables the analysis writes. *)
Record Tables : Type := mkTables {
  recommendations_table : list Recommendation;
  cost_analysis_table : list AnalysisRecord
}.

(** [process_cost_analysis]; [cost_data] is what [get_recent_cost_data]
    returned.  The function has no handler: an exception of an analysis
    ends it there, before the steps that follow. *)
Definition process_cost_analysis (now : Py.Instant) (put_fails : bool)
    (cost_data : list CostRecord) (tables : Tables)
  : Py.result AnalysisReport * Tables :=
  match analyze_daily_costs cost_data with
  | Py.Raise e => (Py.Raise e, tables)
  | Py.Ok daily_analysis =>
      match analyze_cost_trends cost_data with
      | Py.Raise e => (Py.Raise e, tables)
      | Py.Ok trend_analysis =>
          let service_analysis := analyze_service_costs cost_data in
          let regional_analysis := analyze_regional_costs cost_data in
          let (recommendations, recommendations_table) :=
            generate_optimization_recommendations now cost_data
              (recommendations_table tables) in
          let cost_analysis_table :=
            store_analysis_results now put_fails "trend_analysis"
              (mkAnalysisResults daily_analysis trend_analysis
                 service_analysis regional_analysis recommendations)
              (cost_analysis_table tables) in
          (Py.Ok (mkAnalysisReport daily_analysis trend_analysis
                    service_analysis regional_analysis
                    (List.length recommendations)),
           mkTables recommendations_table cost_analysis_table)
      end
  end.

End ProcessingHandler.

(** ** lambda/alerting/handler.py: evaluators and alert processing *)

Module AlertingHandler.

Inductive Status : Set := Active | Acknowledged | Resolved.

(** The f-string each evaluator passes as [message], with the values it
    interpolates. *)
Inductive Message : Set :=
| DailyExceeded (total : Q) (severity : string) (threshold : Q)
| ServiceExceeded (service : string) (cost threshold : Q)
| AnomalyDetected (service : string) (direction : Direction) (deviation : Q)
| BudgetExceeded (total limit percentage : Q)
| Budget80Reached (total limit percentage : Q)
| Text (s : string).       (* any other message *)

Record Alert : Set := mkAlert {
  alert_id : string;
  timestamp : Py.Instant;
  alert_type : string;
  severity : string;
  service : string;
  region : string;
  current_cost : Q;
  threshold : Q;
  message : Message;
  status : Status;
  acknowledged : bool;
  acknowledged_by : option string;
  acknowledged_at : option Py.Instant;
  resolved : bool;
  resolved_at : option Py.Instant;
  resolved_by : option string;
  resolution_notes : option string;
  notification_sent : bool;
  notification_channels : list string;
  test_mode : bool;
  ttl : Z
}.

(** [create_alert]; [now] is [datetime.utcnow()]. *)
Definition create_alert (now : Py.Instant) (alert_type severity service region : string)
    (current_cost threshold : Q) (message : Message) (test_mode : bool) : Alert :=
  {| alert_id :=
       alert_type ++ "_" ++ Py.replace_space (Py.lower service) ++ "_" ++ region
         ++ "_" ++ Py.strftime_compact now;
     timestamp := now;
     alert_type := alert_type;
     severity := severity;
     service := service;
     region := region;
     current_cost := Py.round current_cost 2;
     threshold := Py.round threshold 2;
     message := message;
     status := Active;
     acknowledged := false;
     acknowledged_by := None;
     acknowledged_at := None;
     resolved := false;
     resolved_at := None;
     resolved_by := None;
     resolution_notes := None;
     notification_sent := false;
     notification_channels := [];
     test_mode := test_mode;
     ttl := Py.epoch_seconds (now + Py.days 30)%Z |}.

(** *** Configuration

    The limits of the threshold configuration are only compared with a
    [float] and rounded, which Python allows for every type of number, so
    they are kept as their value. *)

Record AnomalyConfig : Set := mkAnomalyConfig {
  enabled : option bool;
  sensitivity : option string
}.

Record Config : Type := mkConfig {
  cost_thresholds : option (Py.dict (Py.dict Q));     (* period -> severity -> limit *)
  service_thresholds : option (Py.dict (Py.dict Q));  (* service -> period -> limit *)
  anomaly_detection : option AnomalyConfig
}.

(** [config.get('cost_thresholds', {}).get('daily', {})] *)
Definition daily_thresholds_of (config : Config) : Py.dict Q :=
  Py.get_default "daily"
    (match cost_thresholds config with Some t => t | None => [] end) [].

(** *** Threshold evaluator *)

(** The loop over [daily_thresholds.items()]. *)
Fixpoint overall_alerts (now : Py.Instant) (test_mode : bool)
    (total_daily_cost : Q) (daily_thresholds : Py.dict Q) : list Alert :=
  match daily_thresholds with
  | [] => []
  | (severity, threshold) :: rest =>
      let tail := overall_alerts now test_mode total_daily_cost rest in
      if Py.Qgtb total_daily_cost threshold then
        create_alert now "threshold_breach" severity "Overall" "All"
          total_daily_cost threshold
          (DailyExceeded total_daily_cost severity threshold) test_mode
        :: tail
      else tail
  end.

(** [service_costs[service] = service_costs.get(service, 0) + cost] *)
Definition add_service_cost (service_costs : Py.dict Q) (record : CostRecord)
  : Py.dict Q :=
  let service := service_of record in
  Py.set service (Py.get_default service service_costs 0 + cost_of record)
    service_costs.

(** The loop over [service_costs.items()]; [daily_threshold and ...] skips
    a missing limit and a limit of zero. *)
Fixpoint service_alerts (now : Py.Instant) (test_mode : bool)
    (service_thresholds : Py.dict (Py.dict Q)) (service_costs : Py.dict Q)
  : list Alert :=
  match service_costs with
  | [] => []
  | (service, cost) :: rest =>
      let tail := service_alerts now test_mode service_thresholds rest in
      match Py.get service service_thresholds with
      | Some limits =>
          match Py.get "daily" limits with
          | Some daily_threshold =>
              if negb (Qeq_bool daily_threshold 0) && Py.Qgtb cost daily_threshold
              then
                create_alert now "service_threshold_breach" "warning" service
                  "All" cost daily_threshold
                  (ServiceExceeded service cost daily_threshold) test_mode
                :: tail
              else tail
          | None => tail
          end
      | None => tail
      end
  end.

(** [check_threshold_alerts]; [daily_costs] is what [get_daily_costs]
    returned for yesterday.  Nothing in the body raises on these types, so
    its [except] branch is not taken. *)
Definition check_threshold_alerts (now : Py.Instant) (config : Config)
    (daily_costs : list CostRecord) (test_mode : bool) : list Alert :=
  let daily_thresholds := daily_thresholds_of config in
  let total_daily_cost := Py.sum (map cost_of daily_costs) in
  let service_thresholds :=
    match service_thresholds config with Some t => t | None => [] end in
  let service_costs := fold_left add_service_cost daily_costs [] in
  overall_alerts now test_mode total_daily_cost daily_thresholds
    ++ service_alerts now test_mode service_thresholds service_costs.

(** *** Anomaly evaluator *)

Definition anomaly_alert (now : Py.Instant) (test_mode : bool)
    (anomaly : ServiceAnomalies.Anomaly) : Alert :=
  create_alert now "anomaly_detection" (ServiceAnomalies.severity anomaly)
    (ServiceAnomalies.service anomaly) "All"
    (ServiceAnomalies.current_cost anomaly)
    (ServiceAnomalies.expected_cost anomaly)
    (AnomalyDetected (ServiceAnomalies.service anomaly)
       (ServiceAnomalies.description_direction anomaly)
       (ServiceAnomalies.description_deviation anomaly))
    test_mode.

(** [check_cost_anomalies]; [cost_data] is what [get_cost_data_range]
    returned for the last 14 days. *)
Definition check_cost_anomalies (now : Py.Instant) (config : Config)
    (cost_data : list CostRecord) (test_mode : bool) : list Alert :=
  let anomaly_config :=
    match anomaly_detection config with
    | Some c => c
    | None => mkAnomalyConfig None None
    end in
  if negb (match enabled anomaly_config with Some b => b | None => true end)
  then []
  else
    match ServiceAnomalies.detect_service_anomalies cost_data
            (match sensitivity anomaly_config with
             | Some s => s
             | None => "medium"
             end) with
    | Py.Ok anomalies => map (anomaly_alert now test_mode) anomalies
    | Py.Raise _ => []           (* except Exception: return [] *)
    end.

(** *** Budget evaluator *)

Record OverallBudget : Set := mkOverallBudget {
  monthly_limit : option Py.Number
}.

Record BudgetConfig : Set := mkBudgetConfig {
  overall_budget : option OverallBudget
}.

(** The body of the [try] block, after the item was found. *)
Definition budget_alerts (now : Py.Instant) (budget_config : BudgetConfig)
    (monthly_costs : list CostRecord) (test_mode : bool)
  : Py.result (list Alert) :=
  let total_monthly_cost := Py.sum_floats (map cost_of monthly_costs) in
  let overall_budget :=
    match overall_budget budget_config with
    | Some b => b
    | None => mkOverallBudget None
    end in
  match monthly_limit overall_budget with
  | None => Py.Ok []
  | Some monthly_limit =>
      if Py.truthy monthly_limit then
        ratio <- Py.truediv total_monthly_cost monthly_limit ;;
        percentage_used <- Py.mul ratio (Py.PyInt 100) ;;
        if Py.Qgeb (Py.value percentage_used) 100 then
          Py.Ok [create_alert now "budget_exceeded" "critical" "Overall" "All"
                   (Py.value total_monthly_cost) (Py.value monthly_limit)
                   (BudgetExceeded (Py.value total_monthly_cost)
                      (Py.value monthly_limit) (Py.value percentage_used))
                   test_mode]
        else if Py.Qgeb (Py.value percentage_used) 80 then
          warning_level <- Py.mul monthly_limit (Py.PyFloat (8 # 10)) ;;
          Py.Ok [create_alert now "budget_warning" "warning" "Overall" "All"
                   (Py.value total_monthly_cost) (Py.value warning_level)
                   (Budget80Reached (Py.value total_monthly_cost)
                      (Py.value monthly_limit) (Py.value percentage_used))
                   test_mode]
        else Py.Ok []
      else Py.Ok []
  end.

(** [check_budget_alerts]; [budget_response] is the outcome of
    [config_table.get_item(Key={'config_type': 'budgets'})]: it raised, or
    it has no ['Item'], or it has one.  [monthly_costs] is what
    [get_cost_data_range] returned for the month to date. *)
Definition check_budget_alerts (now : Py.Instant)
    (budget_response : Py.result (option BudgetConfig))
    (monthly_costs : list CostRecord) (test_mode : bool) : list Alert :=
  match budget_response with
  | Py.Raise _ => []
  | Py.Ok None => []
  | Py.Ok (Some budget_config) =>
      match budget_alerts now budget_config monthly_costs test_mode with
      | Py.Ok alerts => alerts
      | Py.Raise _ => []         (* except Exception: return [] *)
      end
  end.

(** *** Alert processing

    The alerts table, the topic and the log are the state the functions
    below act on.  Each call to the table or to the topic either succeeds
    or raises; [Env] says which, for the calls made while one candidate is
    processed, and gives the clock. *)

Inductive LogRecord : Set :=
| StoredAlert (alert_id : string)              (* info *)
| SentNotification (alert_id : string)         (* info *)
| ProcessedAlert (alert_id : string)           (* info *)
| SkippedDuplicate (alert_id : string)         (* info *)
| NoTopicConfigured (alert_type : string)      (* warning *)
| ErrorCheckingDuplicates                      (* error *)
| ErrorStoring                                 (* error *)
| ErrorSending                                 (* error *)
| ErrorProcessing (alert_id : string).         (* error *)

Inductive Icon : Set := InfoIcon | WarningIcon | CriticalIcon.

(** [f"{emoji} Cost Alert: {alert['service']} - {alert['severity'].upper()}"] *)
Record Subject : Set := mkSubject {
  emoji : Icon;
  subject_service : string;
  subject_severity : string
}.

Record Notification : Set := mkNotification {
  topic_arn : string;
  subject : Subject;
  body : Alert                 (* the fields format_alert_message copies *)
}.

Record Topics : Set := mkTopics {
  ALERTS_TOPIC_ARN : string;
  ANOMALIES_TOPIC_ARN : string;
  BUDGET_TOPIC_ARN : string
}.

Record World : Set := mkWorld {
  alerts_table : list Alert;
  published : list Notification;
  log : list LogRecord
}.

Record Env : Set := mkEnv {
  now : Py.Instant;
  scan_fails : bool;           (* alerts_table.scan raises *)
  put_fails : bool;            (* alerts_table.put_item raises *)
  publish_fails : bool;        (* sns.publish raises *)
  update_fails : bool          (* alerts_table.update_item raises *)
}.

Definition logged (r : LogRecord) (w : World) : World :=
  mkWorld (alerts_table w) (published w) (log w ++ [r]).

(** The key of the alerts table is [(alert_id, timestamp)]. *)
Definition has_key (alert_id : string) (timestamp : Py.Instant) (row : Alert)
  : bool :=
  String.eqb alert_id (AlertingHandler.alert_id row)
  && Z.eqb timestamp (AlertingHandler.timestamp row).

(** [put_item]: replaces the row of the same key, or adds a row. *)
Fixpoint put_item (item : Alert) (table : list Alert) : list Alert :=
  match table with
  | [] => [item]
  | row :: rest =>
      if has_key (alert_id item) (timestamp item) row then item :: rest
      else row :: put_item item rest
  end.

(** [update_item] on the row of a key.  The callers below update the row
    they have just put, so the key is in the table. *)
Definition update_item (alert_id : string) (timestamp : Py.Instant)
    (update : Alert -> Alert) (table : list Alert) : list Alert :=
  map (fun row => if has_key alert_id timestamp row then update row else row)
    table.

(** The filter expression of the duplicate scan. *)
Definition duplicate_filter (alert : Alert) (recent_time : Py.Instant)
    (row : Alert) : bool :=
  String.eqb (alert_type row) (alert_type alert)
  && String.eqb (service row) (service alert)
  && String.eqb (region row) (region alert)
  && Z.ltb recent_time (timestamp row)
  && match status row with Active => true | _ => false end.

(** [is_duplicate_alert]: a scan that raises is logged and answered with
    [False]. *)
Definition is_duplicate_alert (env : Env) (alert : Alert) (w : World)
  : bool * World :=
  let recent_time := (now env - Py.hours 1)%Z in
  if scan_fails env then (false, logged ErrorCheckingDuplicates w)
  else
    ((0 <? List.length (filter (duplicate_filter alert recent_time)
                          (alerts_table w)))%nat,
     w).

(** [store_alert]: logs and re-raises. *)
Definition store_alert (env : Env) (alert : Alert) (w : World)
  : Py.result unit * World :=
  if put_fails env then (Py.Raise Py.ClientError, logged ErrorStoring w)
  else
    (Py.Ok tt,
     logged (StoredAlert (alert_id alert))
       (mkWorld (put_item alert (alerts_table w)) (published w) (log w))).

(** [get_topic_for_alert] *)
Definition get_topic_for_alert (topics : Topics) (alert : Alert) : string :=
  let alert_type := alert_type alert in
  if String.eqb alert_type "threshold_breach"
     || String.eqb alert_type "service_threshold_breach"
  then ALERTS_TOPIC_ARN topics
  else if String.eqb alert_type "anomaly_detection"
  then ANOMALIES_TOPIC_ARN topics
  else if String.eqb alert_type "budget_exceeded"
          || String.eqb alert_type "budget_warning"
  then BUDGET_TOPIC_ARN topics
  else ALERTS_TOPIC_ARN topics.

(** [format_alert_subject] *)
Definition format_alert_subject (alert : Alert) : Subject :=
  mkSubject
    (if String.eqb (severity alert) "info" then InfoIcon
     else if String.eqb (severity alert) "warning" then WarningIcon
     else if String.eqb (severity alert) "critical" then CriticalIcon
     else WarningIcon)
    (service alert) (Py.upper (severity alert)).

Definition mark_sent (row : Alert) : Alert :=
  mkAlert (alert_id row) (timestamp row) (alert_type row) (severity row)
    (service row) (region row) (current_cost row) (threshold row)
    (message row) (status row) (acknowledged row) (acknowledged_by row)
    (acknowledged_at row) (resolved row) (resolved_at row) (resolved_by row)
    (resolution_notes row) true ["email"; "slack"] (test_mode row) (ttl row).

(** [send_alert_notification]: every exception is logged and swallowed. *)
Definition send_alert_notification (topics : Topics) (env : Env)
    (alert : Alert) (w : World) : World :=
  let topic_arn := get_topic_for_alert topics alert in
  if String.eqb topic_arn "" then logged (NoTopicConfigured (alert_type alert)) w
  else if publish_fails env then logged ErrorSending w
  else
    let w :=
      mkWorld (alerts_table w)
        (published w
           ++ [mkNotification topic_arn (format_alert_subject alert) alert])
        (log w) in
    if update_fails env then logged ErrorSending w
    else
      logged (SentNotification (alert_id alert))
        (mkWorld
           (update_item (alert_id alert) (timestamp alert) mark_sent
              (alerts_table w))
           (published w) (log w)).

(** One turn of the loop of [process_alerts], with its [try]/[except]. *)
Definition process_alert (topics : Topics) (env : Env) (alert : Alert)
    (state : World * nat) : World * nat :=
  let (w, processed_count) := state in
  let (duplicate, w) := is_duplicate_alert env alert w in
  if negb duplicate then
    match store_alert env alert w with
    | (Py.Ok _, w) =>
        let w := send_alert_notification topics env alert w in
        (logged (ProcessedAlert (alert_id alert)) w, (processed_count + 1)%nat)
    | (Py.Raise _, w) =>
        (logged (ErrorProcessing (alert_id alert)) w, processed_count)
    end
  else (logged (SkippedDuplicate (alert_id alert)) w, processed_count).

(** The loop; [envs i] is the environment of the turn for [alerts[i]]. *)
Fixpoint process_loop (topics : Topics) (envs : nat -> Env)
    (alerts : list Alert) (state : World * nat) : World * nat :=
  match alerts with
  | [] => state
  | alert :: rest =>
      process_loop topics (fun i => envs (S i)) rest
        (process_alert topics (envs O) alert state)
  end.

(** [process_alerts]: the world it leaves and the count it returns. *)
Definition process_alerts (topics : Topics) (envs : nat -> Env)
    (alerts : list Alert) (w : World) : World * nat :=
  match alerts with
  | [] => (w, O)
  | _ => process_loop topics envs alerts (w, O)
  end.

(** *** The configuration in force and the handler *)

(** The configuration returned when the table has no thresholds item. *)
Definition default_config : Config :=
  mkConfig
    (Some [("daily", [("warning", 100); ("critical", 200)]);
           ("weekly", [("warning", 500); ("critical", 1000)]);
           ("monthly", [("warning", 2000); ("critical", 4000)])])
    (Some [("EC2", [("daily", 50); ("monthly", 1200)]);
           ("S3", [("daily", 20); ("monthly", 400)])])
    (Some (mkAnomalyConfig (Some true) (Some "medium"))).

(** The configuration returned when the lookup raises. *)
Definition fallback_config : Config :=
  mkConfig (Some [("daily", [("warning", 100); ("critical", 200)])]) None None.

(** [get_alerting_config]; [response] is the outcome of
    [config_table.get_item(Key={'config_type': 'thresholds'})]: it raised, or
    it has no ['Item'], or it has one. *)
Definition get_alerting_config (response : Py.result (option Config)) : Config :=
  match response with
  | Py.Ok (Some item) => item
  | Py.Ok None => default_config
  | Py.Raise _ => fallback_config
  end.

(** What the handler reads: the clock, the two configuration lookups and
    the three selections of cost records. *)
Record Inputs : Type := mkInputs {
  clock : Py.Instant;
  thresholds_response : Py.result (option Config);
  budget_response : Py.result (option BudgetConfig);
  yesterday_costs : list CostRecord;        (* get_daily_costs *)
  fortnight_costs : list CostRecord;        (* get_cost_data_range, 14 days *)
  month_costs : list CostRecord             (* get_cost_data_range, month to date *)
}.

(** The body of the response of the handler. *)
Record Response : Set := mkResponse {
  statusCode : Z;
  threshold_alerts : nat;
  anomaly_alerts : nat;
  budget_alerts_count : nat;
  total_alerts : nat
}.

(** [lambda_handler]: the evaluators and the lookups catch their own
    exceptions and [process_alerts] those of every turn, so the handler's
    own [except] branch, the response 500, is not taken. *)
Definition lambda_handler (topics : Topics) (inputs : Inputs)
    (envs : nat -> Env) (test_mode : bool) (w : World) : World * Response :=
  let config := get_alerting_config (thresholds_response inputs) in
  let threshold_alerts :=
    check_threshold_alerts (clock inputs) config (yesterday_costs inputs)
      test_mode in
  let anomaly_alerts :=
    check_cost_anomalies (clock inputs) config (fortnight_costs inputs)
      test_mode in
  let budget_alerts :=
    check_budget_alerts (clock inputs) (budget_response inputs)
      (month_costs inputs) test_mode in
  let (w, total_alerts) :=
    process_alerts topics envs
      (threshold_alerts ++ anomaly_alerts ++ budget_alerts) w in
  (w,
   mkResponse 200 (List.length threshold_alerts) (List.length anomaly_alerts)
     (List.length budget_alerts) total_alerts).

End AlertingHandler.

(** ** lambda/alerting/notification_utils.py: the alert lifecycle *)

Module NotificationUtils.

Import AlertingHandler.

(** [SET acknowledged = :ack, acknowledged_by = :by, acknowledged_at = :at,
     #status = :status] *)
Definition acknowledge_update (acknowledged_by : string) (at_ : Py.Instant)
    (row : Alert) : Alert :=
  mkAlert (alert_id row) (timestamp row) (alert_type row) (severity row)
    (service row) (region row) (current_cost row) (threshold row)
    (message row) Acknowledged true (Some acknowledged_by) (Some at_)
    (resolved row) (resolved_at row) (resolved_by row) (resolution_notes row)
    (notification_sent row) (notification_channels row) (test_mode row)
    (ttl row).

(** [SET resolved = :res, resolved_at = :at, #status = :status], then
    [resolved_by] and [resolution_notes] when they are given and not
    empty. *)
Definition resolve_update (resolved_by resolution_notes : option string)
    (at_ : Py.Instant) (row : Alert) : Alert :=
  let given (new old : option string) :=
    match new with
    | Some "" | None => old
    | Some s => Some s
    end in
  mkAlert (alert_id row) (timestamp row) (alert_type row) (severity row)
    (service row) (region row) (current_cost row) (threshold row)
    (message row) Resolved (acknowledged row) (acknowledged_by row)
    (acknowledged_at row) true (Some at_)
    (given resolved_by (AlertingHandler.resolved_by row))
    (given resolution_notes (AlertingHandler.resolution_notes row))
    (notification_sent row) (notification_channels row) (test_mode row)
    (ttl row).

(** [update_item(Key={'alert_id': alert_id}, ...)]: the update has no
    condition expression.  An id that is in no row would make the table
    create an item holding only the attributes set; such an item is no
    alert of the engine and the table of this model stays as it is.  A
    table that rejects the call (its key has more attributes than the id,
    or it is out of reach) is an update that fails. *)
Definition update_by_id (alert_id : string) (update : Alert -> Alert)
    (table : list Alert) : list Alert :=
  map (fun row =>
         if String.eqb alert_id (AlertingHandler.alert_id row)
         then update row else row)
    table.

(** [acknowledge_alert]: the table after the call and the value returned. *)
Definition acknowledge_alert (env : Env) (alert_id acknowledged_by : string)
    (table : list Alert) : list Alert * bool :=
  if update_fails env then (table, false)
  else (update_by_id alert_id (acknowledge_update acknowledged_by (now env)) table,
        true).

(** [resolve_alert] *)
Definition resolve_alert (env : Env) (alert_id : string)
    (resolved_by resolution_notes : option string) (table : list Alert)
  : list Alert * bool :=
  if update_fails env then (table, false)
  else (update_by_id alert_id
          (resolve_update resolved_by resolution_notes (now env)) table,
        true).

(** The operator's operations on one alert. *)
Inductive Operation : Set :=
| Acknowledge (acknowledged_by : string)
| Resolve (resolved_by resolution_notes : option string).

Definition apply_operation (env : Env) (alert_id : string) (op : Operation)
    (table : list Alert) : list Alert * bool :=
  match op with
  | Acknowledge by_ => acknowledge_alert env alert_id by_ table
  | Resolve by_ notes => resolve_alert env alert_id by_ notes table
  end.

(** A sequence of operations on the alert [alert_id], each in its own
    environment. *)
Fixpoint apply_operations (alert_id : string)
    (ops : list (Env * Operation)) (table : list Alert) : list Alert :=
  match ops with
  | [] => table
  | (env, op) :: rest =>
      apply_operations alert_id rest
        (fst (apply_operation env alert_id op table))
  end.

(** The status of the first row with the id. *)
Definition status_of (alert_id : string) (table : list Alert)
  : option Status :=
  option_map status
    (find (fun row => String.eqb alert_id (AlertingHandler.alert_id row)) table).

(** [create_alert_summary]: the entry kept for the alert of the highest
    cost. *)
Record HighestCostAlert : Set := mkHighestCostAlert {
  highest_alert_id : string;
  highest_service : string;
  cost : Q;
  highest_message : Message
}.

Record Summary : Type := mkSummary {
  total_alerts : nat;
  by_severity : Py.dict Z;
  by_service : Py.dict Z;
  by_type : Py.dict Z;
  highest_cost_alert : option HighestCostAlert;
  summary_timestamp : Py.Instant
}.

(** [counts[key] = counts.get(key, 0) + 1] *)
Definition count_one (key : string) (counts : Py.dict Z) : Py.dict Z :=
  Py.set key (Py.get_default key counts 0 + 1)%Z counts.

(** The body of the loop over the alerts; the state is the summary and the
    local [highest_cost]. *)
Definition summary_step (state : Summary * Q) (alert : Alert) : Summary * Q :=
  let (summary, highest_cost) := state in
  let summary :=
    mkSummary (total_alerts summary)
      (count_one (severity alert) (by_severity summary))
      (count_one (service alert) (by_service summary))
      (count_one (alert_type alert) (by_type summary))
      (highest_cost_alert summary) (summary_timestamp summary) in
  if Py.Qgtb (current_cost alert) highest_cost then
    (mkSummary (total_alerts summary) (by_severity summary)
       (by_service summary) (by_type summary)
       (Some (mkHighestCostAlert (alert_id alert) (service alert)
                (current_cost alert) (message alert)))
       (summary_timestamp summary),
     current_cost alert)
  else (summary, highest_cost).

(** [create_alert_summary]; [None] for no alerts. *)
Definition create_alert_summary (now : Py.Instant) (alerts : list Alert)
  : option Summary :=
  match alerts with
  | [] => None
  | _ =>
      Some (fst (fold_left summary_step alerts
                   (mkSummary (List.length alerts) [] [] [] None now, 0)))
  end.

End NotificationUtils.

(** ** Scenarios of the specification *)

Definition ec2_day (date : string) (cost : Q) : CostRecord :=
  mkCost (Some "Amazon EC2") (Some "us-east-1") None date (Some cost).

(** Seven days at 100. *)
Definition flat_week : list CostRecord :=
  [ec2_day "2024-01-01T00:00:00" 100; ec2_day "2024-01-02T00:00:00" 100;
   ec2_day "2024-01-03T00:00:00" 100; ec2_day "2024-01-04T00:00:00" 100;
   ec2_day "2024-01-05T00:00:00" 100; ec2_day "2024-01-06T00:00:00" 100;
   ec2_day "2024-01-07T00:00:00" 100].

(** Eight days at 100. *)
Definition flat_eight_days : list CostRecord :=
  (flat_week ++ [ec2_day "2024-01-08T00:00:00" 100])%list.

(** Six days at 100 and a seventh at 300. *)
Definition spike_week : list CostRecord :=
  [ec2_day "2024-01-01T00:00:00" 100; ec2_day "2024-01-02T00:00:00" 100;
   ec2_day "2024-01-03T00:00:00" 100; ec2_day "2024-01-04T00:00:00" 100;
   ec2_day "2024-01-05T00:00:00" 100; ec2_day "2024-01-06T00:00:00" 100;
   ec2_day "2024-01-07T00:00:00" 300].

(** Daily thresholds [{warning: 100, critical: 200}] and one day that cost
    150. *)
Definition scenario_config : AlertingHandler.Config :=
  AlertingHandler.mkConfig
    (Some [("daily", [("warning", 100); ("critical", 200)])]) None None.

Definition day_of_150 : list CostRecord :=
  [ec2_day "2024-01-14T00:00:00" 150].

(** A budget item whose monthly limit is the number [limit]. *)
Definition budget_of (limit : Py.Number)
  : Py.result (option AlertingHandler.BudgetConfig) :=
  Py.Ok (Some (AlertingHandler.mkBudgetConfig
                 (Some (AlertingHandler.mkOverallBudget (Some limit))))).

(** Month-to-date costs of one record. *)
Definition month_of (cost : Q) : list CostRecord :=
  [ec2_day "2024-01-14T00:00:00" cost].

(** 2024-01-15 10:30:00 UTC. *)
Definition scenario_now : Py.Instant := 1705314600000000%Z.

(** The alerts of the overall daily threshold among the alerts of a run. *)
Definition is_threshold_breach (alert : AlertingHandler.Alert) : bool :=
  String.eqb (AlertingHandler.alert_type alert) "threshold_breach".

(** One cost record of a resource. *)
Definition resource_record (resource_id : string) (cost : Q) : CostRecord :=
  mkCost (Some "Amazon EC2") (Some "us-east-1") (Some resource_id)
    "2024-01-14T00:00:00" (Some cost).

(** The recommendations for a resource among those returned. *)
Definition recommendations_of (resource_id : string)
    (recommendations : list ProcessingHandler.Recommendation)
  : list ProcessingHandler.Recommendation :=
  filter (fun r => String.eqb (ProcessingHandler.rec_resource_id r) resource_id)
    recommendations.

(** Topics, a clock and an environment in which no call fails. *)
Definition scenario_topics : AlertingHandler.Topics :=
  AlertingHandler.mkTopics "arn:aws:sns:us-east-1:123456789012:cost-alerts"
    "arn:aws:sns:us-east-1:123456789012:cost-anomalies"
    "arn:aws:sns:us-east-1:123456789012:budget-alerts".

Definition quiet (now : Py.Instant) : AlertingHandler.Env :=
  AlertingHandler.mkEnv now false false false false.

Definition empty_world : AlertingHandler.World :=
  AlertingHandler.mkWorld [] [] [].

(** The candidate of the overall daily warning threshold, created at [now]. *)
Definition daily_warning (now : Py.Instant) : AlertingHandler.Alert :=
  AlertingHandler.create_alert now "threshold_breach" "warning" "Overall" "All"
    150 100 (AlertingHandler.DailyExceeded 150 "warning" 100) false.

(** A quarter of an hour after [scenario_now]. *)
Definition scenario_later : Py.Instant :=
  (scenario_now + Py.seconds 900)%Z.

(** The first candidate is processed at [scenario_now], the second a quarter
    of an hour later. *)
Definition scenario_envs (i : nat) : AlertingHandler.Env :=
  match i with
  | O => quiet scenario_now
  | S _ => quiet scenario_later
  end.

(** At [now], every call succeeds except the duplicate scan. *)
Definition scan_down (now : Py.Instant) : AlertingHandler.Env :=
  AlertingHandler.mkEnv now true false false false.

(** At [now], every call succeeds except the write of the alert. *)
Definition put_down (now : Py.Instant) : AlertingHandler.Env :=
  AlertingHandler.mkEnv now false true false false.

(** A world whose table holds [rows]. *)
Definition world_of (rows : list AlertingHandler.Alert) : AlertingHandler.World :=
  AlertingHandler.mkWorld rows [] [].

(** The status an operation writes. *)
Definition target (op : NotificationUtils.Operation) : AlertingHandler.Status :=
  match op with
  | NotificationUtils.Acknowledge _ => AlertingHandler.Acknowledged
  | NotificationUtils.Resolve _ _ => AlertingHandler.Resolved
  end.

(** Two alerts are about the same thing: the key of the deduplication. *)
Definition same_subject (a b : AlertingHandler.Alert) : Prop :=
  AlertingHandler.alert_type a = AlertingHandler.alert_type b
  /\ AlertingHandler.service a = AlertingHandler.service b
  /\ AlertingHandler.region a = AlertingHandler.region b.

(** [row] is an active alert about the same thing as [alert], created
    within the hour before [now]. *)
Definition recent_active_duplicate (alert : AlertingHandler.Alert)
    (now : Py.Instant) (row : AlertingHandler.Alert) : Prop :=
  same_subject row alert
  /\ AlertingHandler.status row = AlertingHandler.Active
  /\ (now - Py.hours 1 < AlertingHandler.timestamp row)%Z.

(** The row a stored candidate has become: as it was put, or marked as
    notified. *)
Definition stored_as (alert row : AlertingHandler.Alert) : Prop :=
  row = alert \/ row = AlertingHandler.mark_sent alert.

(** The number of alerts the log reports as stored. *)
Definition stored_records (log : list AlertingHandler.LogRecord) : nat :=
  List.length
    (filter (fun r => match r with
                      | AlertingHandler.StoredAlert _ => true
                      | _ => false
                      end) log).

(** The order of the sorted resources: the cost does not rise. *)
Definition costs_at_least (x y : string * ProcessingHandler.ResourceCost)
  : Prop :=
  ProcessingHandler.total_cost (snd y) <= ProcessingHandler.total_cost (snd x).

(** What the budget evaluator emits for a total and a limit whose
    percentage it could compute. *)
Definition checkpoint_alerts (now : Py.Instant) (test_mode : bool)
    (total limit : Q) : list AlertingHandler.Alert :=
  let percentage := total / limit * 100 in
  if Py.Qgeb percentage 100 then
    [AlertingHandler.create_alert now "budget_exceeded" "critical" "Overall"
       "All" total limit
       (AlertingHandler.BudgetExceeded total limit percentage) test_mode]
  else if Py.Qgeb percentage 80 then
    [AlertingHandler.create_alert now "budget_warning" "warning" "Overall"
       "All" total (limit * (8 # 10))
       (AlertingHandler.Budget80Reached total limit percentage) test_mode]
  else [].

(** ** Notions used by the further properties *)

(** [config.get('service_thresholds', {})] *)
Definition service_thresholds_of (config : AlertingHandler.Config)
  : Py.dict (Py.dict Q) :=
  match AlertingHandler.service_thresholds config with
  | Some t => t
  | None => []
  end.

(** The cost of yesterday per service, as the threshold evaluator sums it. *)
Definition service_costs_of (daily_costs : list CostRecord) : Py.dict Q :=
  fold_left AlertingHandler.add_service_cost daily_costs [].

(** The records of a service. *)
Definition records_of_service (service : string) (cost_data : list CostRecord)
  : list CostRecord :=
  filter (fun record => String.eqb (service_of record) service) cost_data.

(** A candidate as [create_alert] makes it at [now]: active, not
    acknowledged, not resolved, not notified. *)
Definition fresh_candidate (now : Py.Instant) (a : AlertingHandler.Alert)
  : Prop :=
  AlertingHandler.status a = AlertingHandler.Active
  /\ AlertingHandler.timestamp a = now
  /\ AlertingHandler.acknowledged a = false
  /\ AlertingHandler.resolved a = false
  /\ AlertingHandler.notification_sent a = false
  /\ AlertingHandler.notification_channels a = []
  /\ AlertingHandler.region a = "All".

(** The records whose attribute [key] is [value], and the sum of their
    costs. *)
Definition records_with (key : CostRecord -> string) (value : string)
    (cost_data : list CostRecord) : list CostRecord :=
  filter (fun record => String.eqb (key record) value) cost_data.

Definition cost_with (key : CostRecord -> string) (value : string)
    (cost_data : list CostRecord) : Q :=
  Py.sum (map cost_of (records_with key value cost_data)).

(** The daily totals of the week before the last seven days, as
    [generate_cost_insights] takes them: in the order in which the days
    first appear in the data. *)
Definition previous_week (cost_data : list CostRecord) : list Q :=
  Py.slice_from_end 14 7
    (Py.values (AnalysisUtils.insight_daily_costs cost_data)).

(** What an insight says, by its type. *)
Definition insight_holds (cost_data : list CostRecord)
    (insight : AnalysisUtils.Insight) : Prop :=
  match AnalysisUtils.insight_type insight with
  | AnalysisUtils.cost_increase =>
      (14 <= List.length (AnalysisUtils.insight_daily_costs cost_data))%nat
      /\ AnalysisUtils.about insight = None
      /\ 10 < AnalysisUtils.percent insight
      /\ AnalysisUtils.insight_severity insight
         = (if Py.Qgtb (AnalysisUtils.percent insight) 20 then "high"
            else "medium")
  | AnalysisUtils.cost_concentration =>
      AnalysisUtils.insight_severity insight = "medium"
      /\ 70 < AnalysisUtils.percent insight
      /\ exists service,
           AnalysisUtils.about insight = Some service
           /\ In service (map service_of cost_data)
           /\ AnalysisUtils.percent insight
              == cost_with service_of service cost_data
                 / Py.sum (map cost_of cost_data) * 100
           /\ forall other,
                In other (map service_of cost_data) ->
                cost_with service_of other cost_data
                <= cost_with service_of service cost_data
  end.

(** [record.get('resource_id')] of a record that has one. *)
Definition resource_of (record : CostRecord) : string :=
  match resource_id record with Some resource => resource | None => "" end.

(** The records that [if resource:] lets through. *)
Definition with_resource (cost_data : list CostRecord) : list CostRecord :=
  filter (fun record => negb (String.eqb (resource_of record) "")) cost_data.

(** The order of a list of cost drivers: the rounded cost does not rise. *)
Definition driver_cost_at_least (a b : AnalysisUtils.Driver) : Prop :=
  AnalysisUtils.driver_cost b <= AnalysisUtils.driver_cost a.

(** [drivers] are the values of [key] with the greatest costs among
    [records], at most [top_n] of them, with their shares of [total]. *)
Definition drivers_of (key : CostRecord -> string)
    (records : list CostRecord) (total : Q) (top_n : Z)
    (drivers : list AnalysisUtils.Driver) : Prop :=
  NoDup (map AnalysisUtils.name drivers)
  /\ ((0 <= top_n)%Z -> (List.length drivers <= Z.to_nat top_n)%nat)
  /\ StronglySorted driver_cost_at_least drivers
  /\ Forall
       (fun driver =>
          let cost := cost_with key (AnalysisUtils.name driver) records in
          In (AnalysisUtils.name driver) (map key records)
          /\ AnalysisUtils.driver_cost driver = Py.round cost 2
          /\ AnalysisUtils.percentage driver
             = Py.round (if Py.Qgtb total 0 then cost / total * 100 else 0) 2)
       drivers
  /\ (forall other,
        In other (map key records) ->
        ~ In other (map AnalysisUtils.name drivers) ->
        ~ (0 <= top_n /\ Z.of_nat (List.length drivers) < top_n)%Z
        /\ Forall
             (fun driver =>
                cost_with key other records
                <= cost_with key (AnalysisUtils.name driver) records)
             drivers).

(** The forecast from one day to a later one: the cost does not fall, and
    does not rise. *)
Definition forecast_rising (a b : AnalysisUtils.ForecastDay) : Prop :=
  AnalysisUtils.forecasted_cost a <= AnalysisUtils.forecasted_cost b.

Definition forecast_falling (a b : AnalysisUtils.ForecastDay) : Prop :=
  AnalysisUtils.forecasted_cost b <= AnalysisUtils.forecasted_cost a.

(** The day of the forecast for the step [i] after [last_date]. *)
Definition forecast_day (last_date : Z) (n : nat) (slope intercept : Q)
    (i : nat) : AnalysisUtils.ForecastDay :=
  AnalysisUtils.mkForecastDay (last_date + Z.of_nat i)%Z
    (Py.max_number 0
       (Py.round
          (slope * (AnalysisUtils.index n + AnalysisUtils.index i - 1)
           + intercept) 2)).

(** The order of the service breakdown: the rounded total does not rise. *)
Definition entry_total_at_least
    (x y : string * ProcessingHandler.ServiceEntry) : Prop :=
  ProcessingHandler.se_total_cost (snd y)
  <= ProcessingHandler.se_total_cost (snd x).

(** What the grouping loop of [analyze_service_costs] holds for a service
    after the records [seen]. *)
Definition service_grouped (data : ProcessingHandler.ServiceCosts)
    (records : list CostRecord) : Prop :=
  ProcessingHandler.sc_total_cost data == Py.sum (map cost_of records)
  /\ ProcessingHandler.record_count data = List.length records
  /\ NoDup (ProcessingHandler.regions data)
  /\ (forall region,
        In region (ProcessingHandler.regions data)
        <-> In region (map region_of records)).

(** The state of that grouping after the records [seen]: one entry for
    each service of the records, and nothing of the total lost. *)
Definition services_grouped (d : Py.dict ProcessingHandler.ServiceCosts)
    (seen : list CostRecord) : Prop :=
  NoDup (Py.keys d)
  /\ (forall service, In service (Py.keys d)
                      <-> In service (map service_of seen))
  /\ (forall service data,
        Py.get service d = Some data ->
        service_grouped data (records_of_service service seen))
  /\ Py.sum (map ProcessingHandler.sc_total_cost (Py.values d))
     == Py.sum (map cost_of seen).

(** The records of a day. *)
Definition records_of_day (date : string) (cost_data : list CostRecord)
  : list CostRecord :=
  filter (fun record => String.eqb (date_of record) date) cost_data.

(** The records of a resource. *)
Definition records_of_resource (resource : string)
    (cost_data : list CostRecord) : list CostRecord :=
  filter (fun record =>
            match resource_id record with
            | Some rid => String.eqb rid resource
            | None => false
            end)
    cost_data.

(** The order of the recommendations returned: the cost does not rise. *)
Definition current_cost_at_least (r1 r2 : ProcessingHandler.Recommendation)
  : Prop :=
  ProcessingHandler.rec_current_cost r2 <= ProcessingHandler.rec_current_cost r1.

(** The total kept for a resource, [0] when it has none. *)
Definition resource_total (resource : string)
    (resource_costs : Py.dict ProcessingHandler.ResourceCost) : Q :=
  match Py.get resource resource_costs with
  | Some data => ProcessingHandler.total_cost data
  | None => 0
  end.

(** What an operation on the alert [alert_id] may change of a row: nothing
    of a row of another id; of a row of that id only the lifecycle
    attributes, where a flag that is set stays set and a status that agrees
    with its flag keeps agreeing. *)
Definition lifecycle_consistent (row : AlertingHandler.Alert) : Prop :=
  (AlertingHandler.status row = AlertingHandler.Acknowledged ->
   AlertingHandler.acknowledged row = true)
  /\ (AlertingHandler.status row = AlertingHandler.Resolved ->
      AlertingHandler.resolved row = true).

Definition lifecycle_change (alert_id : string)
    (old new : AlertingHandler.Alert) : Prop :=
  (AlertingHandler.alert_id old <> alert_id -> new = old)
  /\ new
     = AlertingHandler.mkAlert (AlertingHandler.alert_id old)
         (AlertingHandler.timestamp old) (AlertingHandler.alert_type old)
         (AlertingHandler.severity old) (AlertingHandler.service old)
         (AlertingHandler.region old) (AlertingHandler.current_cost old)
         (AlertingHandler.threshold old) (AlertingHandler.message old)
         (AlertingHandler.status new) (AlertingHandler.acknowledged new)
         (AlertingHandler.acknowledged_by new)
         (AlertingHandler.acknowledged_at new) (AlertingHandler.resolved new)
         (AlertingHandler.resolved_at new) (AlertingHandler.resolved_by new)
         (AlertingHandler.resolution_notes new)
         (AlertingHandler.notification_sent old)
         (AlertingHandler.notification_channels old)
         (AlertingHandler.test_mode old) (AlertingHandler.ttl old)
  /\ (AlertingHandler.acknowledged old = true ->
      AlertingHandler.acknowledged new = true)
  /\ (AlertingHandler.resolved old = true ->
      AlertingHandler.resolved new = true)
  /\ (lifecycle_consistent old -> lifecycle_consistent new).

(** The number of the alerts whose attribute [key] is [value]. *)
Definition occurrences (key : AlertingHandler.Alert -> string) (value : string)
    (alerts : list AlertingHandler.Alert) : Z :=
  Z.of_nat (List.length (filter (fun a => String.eqb (key a) value) alerts)).

(** The sum of the counts of a dictionary. *)
Definition total_count (counts : Py.dict Z) : Z :=
  fold_right Z.add 0%Z (Py.values counts).

(** [counts] counts the alerts by their attribute [key]: one entry for each
    value that occurs, holding the number of its alerts. *)
Definition counts_by (key : AlertingHandler.Alert -> string)
    (counts : Py.dict Z) (alerts : list AlertingHandler.Alert) : Prop :=
  NoDup (Py.keys counts)
  /\ (forall value, In value (Py.keys counts) <-> In value (map key alerts))
  /\ (forall value,
        Py.get_default value counts 0%Z = occurrences key value alerts)
  /\ total_count counts = Z.of_nat (List.length alerts).

(** [alert] is the first alert of [alerts] with the greatest cost. *)
Definition first_of_highest_cost (alert : AlertingHandler.Alert)
    (alerts : list AlertingHandler.Alert) : Prop :=
  exists before after,
    alerts = (before ++ alert :: after)%list
    /\ Forall (fun a => AlertingHandler.current_cost a
                        < AlertingHandler.current_cost alert) before
    /\ Forall (fun a => AlertingHandler.current_cost a
                        <= AlertingHandler.current_cost alert) after.

(** One day that cost 250, above both limits of [scenario_config]. *)
Definition day_of_250 : list CostRecord :=
  [ec2_day "2024-01-14T00:00:00" 250].

(** The keys of the rows of the alerts table. *)
Definition row_keys (table : list AlertingHandler.Alert)
  : list (string * Py.Instant) :=
  map (fun row => (AlertingHandler.alert_id row, AlertingHandler.timestamp row))
    table.

(** What a run of [process_alerts] over [alerts], counting [count], may
    have done to the world [w], leaving [w']: it published at most [count]
    notifications, each for one of the alerts on the topic of its type, and
    added at most [count] rows, removing the key of none. *)
Definition run_effects (topics : AlertingHandler.Topics)
    (alerts : list AlertingHandler.Alert) (w w' : AlertingHandler.World)
    (count : nat) : Prop :=
  (exists sent,
      AlertingHandler.published w'
      = (AlertingHandler.published w ++ sent)%list
      /\ (List.length sent <= count)%nat
      /\ Forall (fun note =>
                   In (AlertingHandler.body note) alerts
                   /\ AlertingHandler.topic_arn note
                      = AlertingHandler.get_topic_for_alert topics
                          (AlertingHandler.body note)
                   /\ AlertingHandler.topic_arn note <> "")
           sent)
  /\ (List.length (AlertingHandler.alerts_table w)
      <= List.length (AlertingHandler.alerts_table w'))%nat
  /\ (List.length (AlertingHandler.alerts_table w')
      <= List.length (AlertingHandler.alerts_table w) + count)%nat
  /\ incl (row_keys (AlertingHandler.alerts_table w))
        (row_keys (AlertingHandler.alerts_table w')).

(** The order of the anomalies returned by [detect_cost_anomalies]: the
    deviation does not rise. *)
Definition deviation_at_least (a b : AnalysisUtils.Anomaly) : Prop :=
  AnalysisUtils.deviation b <= AnalysisUtils.deviation a.

(** * Properties *)

(** ** Comparisons, sums and dictionaries *)

Lemma Qltb_lt (x y : Q) : Py.Qltb x y = true <-> x < y.
Proof.
  unfold Py.Qltb. rewrite negb_true_iff, <- not_true_iff_false, Qle_bool_iff.
  split; [apply Qnot_le_lt | apply Qlt_not_le].
Qed.

Lemma Qltb_ge (x y : Q) : Py.Qltb x y = false <-> y <= x.
Proof.
  unfold Py.Qltb. rewrite negb_false_iff. apply Qle_bool_iff.
Qed.

Lemma Qgtb_gt (x y : Q) : Py.Qgtb x y = true <-> y < x.
Proof. apply Qltb_lt. Qed.

Lemma Qgtb_le (x y : Q) : Py.Qgtb x y = false <-> x <= y.
Proof. apply Qltb_ge. Qed.

Lemma Qgeb_ge (x y : Q) : Py.Qgeb x y = true <-> y <= x.
Proof. apply Qle_bool_iff. Qed.

Lemma Qgeb_lt (x y : Q) : Py.Qgeb x y = false <-> x < y.
Proof.
  unfold Py.Qgeb. rewrite <- not_true_iff_false, Qle_bool_iff.
  split; [apply Qnot_le_lt | apply Qlt_not_le].
Qed.

Lemma len_cons {A} (x : A) (xs : list A) : Py.len (x :: xs) == 1 + Py.len xs.
Proof.
  unfold Py.len. cbn [List.length]. rewrite Nat2Z.inj_succ, <- Z.add_1_l.
  rewrite inject_Z_plus. reflexivity.
Qed.

Lemma len_nonneg {A} (xs : list A) : 0 <= Py.len xs.
Proof.
  unfold Py.len. change 0 with (inject_Z 0). rewrite <- Zle_Qle. lia.
Qed.

Lemma fold_sum_shift (xs : list Q) (a : Q) :
  fold_left Qplus xs a == a + Py.sum xs.
Proof.
  unfold Py.sum. revert a.
  induction xs as [|x xs IH]; intro a; cbn [fold_left].
  - ring.
  - rewrite (IH (a + x)), (IH (0 + x)). ring.
Qed.

Lemma sum_cons (x : Q) (xs : list Q) : Py.sum (x :: xs) == x + Py.sum xs.
Proof.
  unfold Py.sum at 1. cbn [fold_left]. rewrite fold_sum_shift. ring.
Qed.

(** The sum of a constant list. *)
Lemma sum_constant (c : Q) (xs : list Q) :
  Forall (fun x => x == c) xs -> Py.sum xs == c * Py.len xs.
Proof.
  induction 1 as [|x xs Hx _ IH].
  - unfold Py.sum, Py.len. cbn. ring.
  - rewrite sum_cons, len_cons, IH, Hx. ring.
Qed.

Lemma sum_zero (xs : list Q) : Forall (fun x => x == 0) xs -> Py.sum xs == 0.
Proof.
  intro H. rewrite (sum_constant 0 xs H). ring.
Qed.

(** The mean of a constant list is the constant. *)
Lemma mean_constant (c : Q) (xs : list Q) (m : Q) :
  Forall (fun x => x == c) xs -> Py.mean xs = Py.Ok m -> m == c.
Proof.
  intros Hc Hm. destruct xs as [|x xs]; [discriminate|].
  cbn [Py.mean] in Hm. injection Hm as <-.
  rewrite (sum_constant c _ Hc).
  assert (Hpos : 0 < Py.len (x :: xs)).
  { rewrite len_cons. pose proof (len_nonneg xs). lra. }
  field. lra.
Qed.

Lemma sum_sq_dev_constant (c m : Q) (xs : list Q) :
  Forall (fun x => x == c) xs -> m == c -> Py.sum_sq_dev xs m == 0.
Proof.
  intros Hc Hm. unfold Py.sum_sq_dev. apply sum_zero.
  rewrite Forall_map. eapply Forall_impl; [|exact Hc].
  cbn. intros x Hx. rewrite Hx, Hm. ring.
Qed.

(** A constant series has no positive standard deviation. *)
Lemma stdev_constant (c : Q) (xs : list Q) (sd : Py.Root) :
  Forall (fun x => x == c) xs ->
  stdev_or_zero xs = Py.Ok sd -> Py.root_pos sd = false.
Proof.
  intros Hc Hsd. unfold stdev_or_zero in Hsd.
  destruct (1 <? List.length xs)%nat.
  - unfold Py.stdev in Hsd. destruct xs as [|x [|y xs]]; try discriminate.
    destruct (Py.mean (x :: y :: xs)) as [m|] eqn:Hm; [|discriminate].
    cbn [Py.bind] in Hsd. injection Hsd as <-.
    unfold Py.root_pos. cbn [Py.radicand]. apply Qltb_ge.
    rewrite (sum_sq_dev_constant c m _ Hc (mean_constant c _ m Hc Hm)).
    unfold Qdiv. rewrite Qmult_0_l. apply Qle_refl.
  - injection Hsd as <-. reflexivity.
Qed.

Section Dictionaries.

Context {V : Type}.

Lemma get_In (k : string) (v : V) (d : Py.dict V) :
  Py.get k d = Some v -> In (k, v) d.
Proof.
  induction d as [|[k' v'] d IH]; cbn [Py.get]; [discriminate|].
  destruct (String.eqb_spec k k') as [->|Hne].
  - intros [= ->]. now left.
  - intro H. right. now apply IH.
Qed.

Lemma get_keys (k : string) (d : Py.dict V) :
  In k (Py.keys d) -> exists v, Py.get k d = Some v.
Proof.
  induction d as [|[k' v'] d IH]; cbn [Py.keys map Py.get fst]; [intros []|].
  destruct (String.eqb_spec k k') as [->|Hne]; [eauto|].
  intros [Heq|Hin]; [congruence|]. now apply IH.
Qed.

Lemma get_None_keys (k : string) (d : Py.dict V) :
  Py.get k d = None -> ~ In k (Py.keys d).
Proof.
  intros Hnone Hin. destruct (get_keys k d Hin) as [v Hv]. congruence.
Qed.

(** With unique keys, an entry of the dictionary is the one [get] finds. *)
Lemma In_get (k : string) (v : V) (d : Py.dict V) :
  NoDup (Py.keys d) -> In (k, v) d -> Py.get k d = Some v.
Proof.
  induction d as [|[k' v'] d IH]; cbn [Py.keys map Py.get fst]; [intros _ []|].
  intros Hnd [Heq|Hin].
  - injection Heq as -> ->. now rewrite String.eqb_refl.
  - inversion Hnd as [|? ? Hnotin Hnd']; subst.
    destruct (String.eqb_spec k k') as [->|Hne].
    + exfalso. apply Hnotin. change (In (fst (k', v)) (map fst d)).
      now apply in_map.
    + now apply IH.
Qed.

Lemma keys_set_present (k : string) (v : V) (d : Py.dict V) :
  In k (Py.keys d) -> Py.keys (Py.set k v d) = Py.keys d.
Proof.
  induction d as [|[k' v'] d IH]; cbn [Py.keys map Py.set fst]; [intros []|].
  destruct (String.eqb_spec k k') as [->|Hne]; [reflexivity|].
  intros [Heq|Hin]; [congruence|].
  cbn [map fst]. f_equal. now apply IH.
Qed.

Lemma keys_set_absent (k : string) (v : V) (d : Py.dict V) :
  ~ In k (Py.keys d) -> Py.keys (Py.set k v d) = (Py.keys d ++ [k])%list.
Proof.
  induction d as [|[k' v'] d IH]; cbn [Py.keys map Py.set fst]; [reflexivity|].
  intro Hnotin.
  destruct (String.eqb_spec k k') as [->|Hne]; [exfalso; apply Hnotin; now left|].
  cbn [map fst app]. f_equal. apply IH. intro Hin. apply Hnotin. now right.
Qed.

(** Assignment keeps the keys unique. *)
Lemma NoDup_keys_set (k : string) (v : V) (d : Py.dict V) :
  NoDup (Py.keys d) -> NoDup (Py.keys (Py.set k v d)).
Proof.
  intro Hnd. destruct (in_dec string_dec k (Py.keys d)) as [Hin|Hnotin].
  - now rewrite keys_set_present.
  - rewrite keys_set_absent by assumption.
    apply NoDup_app; [assumption | repeat constructor; intros [] |].
    intros x Hx [<-|[]]. contradiction.
Qed.

Lemma get_set_same (k : string) (v : V) (d : Py.dict V) :
  Py.get k (Py.set k v d) = Some v.
Proof.
  induction d as [|[k' v'] d IH]; cbn [Py.set Py.get].
  - now rewrite String.eqb_refl.
  - destruct (String.eqb_spec k k') as [->|Hne]; cbn [Py.get].
    + now rewrite String.eqb_refl.
    + destruct (String.eqb_spec k k'); [contradiction|assumption].
Qed.

Lemma get_set_other (k k' : string) (v : V) (d : Py.dict V) :
  k <> k' -> Py.get k (Py.set k' v d) = Py.get k d.
Proof.
  intro Hne. induction d as [|[k'' v''] d IH]; cbn [Py.set Py.get].
  - destruct (String.eqb_spec k k'); [contradiction|reflexivity].
  - destruct (String.eqb_spec k' k'') as [->|Hne']; cbn [Py.get].
    + destruct (String.eqb_spec k k''); [contradiction|reflexivity].
    + destruct (String.eqb_spec k k''); [reflexivity|assumption].
Qed.

End Dictionaries.

Lemma max_from_In (best : string) (ks : list string) :
  In (Py.max_from best ks) (best :: ks).
Proof.
  revert best. induction ks as [|k ks IH]; intro best; cbn [Py.max_from].
  - now left.
  - destruct (IH (if String.ltb best k then k else best)) as [Heq|Hin].
    + rewrite <- Heq. destruct (String.ltb best k); [right; now left | now left].
    + right. now right.
Qed.

Lemma max_In (ks : list string) (k : string) : Py.max ks = Some k -> In k ks.
Proof.
  destruct ks as [|k0 ks]; cbn [Py.max]; [discriminate|].
  intros [= <-]. apply max_from_In.
Qed.

(** The grouping by service keeps the service names unique. *)
Lemma NoDup_service_daily_costs (cost_data : list CostRecord) :
  NoDup (Py.keys (service_daily_costs cost_data)).
Proof.
  unfold service_daily_costs.
  assert (H : forall acc, NoDup (Py.keys acc) ->
                NoDup (Py.keys (fold_left add_service_daily cost_data acc))).
  { induction cost_data as [|r rs IH]; intros acc Hacc; cbn [fold_left].
    - assumption.
    - apply IH. unfold add_service_daily.
      apply NoDup_keys_set.
      destruct (Py.get (service_of r) acc); [assumption|].
      now apply NoDup_keys_set. }
  apply H. constructor.
Qed.

(** ** The anomaly detectors *)

Lemma mean_total (xs : list Q) :
  xs <> [] -> exists m, Py.mean xs = Py.Ok m.
Proof.
  destruct xs; [congruence|]. intros _. cbn [Py.mean]. eauto.
Qed.

Lemma stdev_or_zero_total (xs : list Q) :
  exists sd, stdev_or_zero xs = Py.Ok sd.
Proof.
  unfold stdev_or_zero. destruct (Nat.ltb_spec 1 (List.length xs)) as [Hlen|_].
  - destruct xs as [|x [|y xs]]; cbn [List.length] in Hlen; try lia.
    unfold Py.stdev. cbn [Py.mean Py.bind]. eauto.
  - eauto.
Qed.

Lemma latest_cost_total (daily_costs : Py.dict Q) :
  daily_costs <> [] ->
  exists latest_date latest_cost,
    Py.max (Py.keys daily_costs) = Some latest_date
    /\ Py.get latest_date daily_costs = Some latest_cost.
Proof.
  intro Hne. destruct daily_costs as [|[k v] d]; [congruence|].
  cbn [Py.keys map fst Py.max].
  pose proof (max_from_In k (map fst d)) as Hin.
  destruct (get_keys (Py.max_from k (map fst d)) ((k, v) :: d) Hin) as [c Hc].
  eauto.
Qed.

(** The loop body of [detect_service_anomalies] never raises, and an
    anomaly it yields is for the service at hand, whose standard deviation is
    positive. *)
Lemma service_anomaly_cases (threshold : Q) (service : string)
    (daily_costs : Py.dict Q) :
  ServiceAnomalies.service_anomaly threshold service daily_costs = Py.Ok None
  \/ exists anomaly sd,
       ServiceAnomalies.service_anomaly threshold service daily_costs
       = Py.Ok (Some anomaly)
       /\ ServiceAnomalies.service anomaly = service
       /\ stdev_or_zero (Py.values daily_costs) = Py.Ok sd
       /\ Py.root_pos sd = true.
Proof.
  unfold ServiceAnomalies.service_anomaly.
  destruct (Nat.ltb_spec (List.length (Py.values daily_costs)) 7) as [|Hlen];
    [now left|].
  assert (Hne : daily_costs <> []).
  { intros ->. cbn in Hlen. lia. }
  destruct (mean_total (Py.values daily_costs)) as [m ->].
  { destruct daily_costs; [congruence|discriminate]. }
  destruct (stdev_or_zero_total (Py.values daily_costs)) as [sd Hsd].
  rewrite Hsd. cbn [Py.bind].
  destruct (latest_cost_total daily_costs Hne) as (ld & lc & -> & ->).
  destruct (Py.root_pos sd) eqn:Hpos; [|now left].
  destruct (Py.root_gt _ threshold); [|now left].
  right. eexists _, sd. repeat split; assumption.
Qed.

Lemma detect_loop_spec (threshold : Q) (items : Py.dict (Py.dict Q))
    (anomalies : list ServiceAnomalies.Anomaly) :
  exists found,
    ServiceAnomalies.detect_loop threshold items anomalies
    = Py.Ok (anomalies ++ found)%list
    /\ forall anomaly, In anomaly found ->
         exists daily_costs,
           In (ServiceAnomalies.service anomaly, daily_costs) items
           /\ ServiceAnomalies.service_anomaly threshold
                (ServiceAnomalies.service anomaly) daily_costs
              = Py.Ok (Some anomaly).
Proof.
  revert anomalies.
  induction items as [|[service daily_costs] rest IH]; intro anomalies;
    cbn [ServiceAnomalies.detect_loop].
  - exists []. rewrite app_nil_r. split; [reflexivity|intros ? []].
  - destruct (service_anomaly_cases threshold service daily_costs)
      as [Hnone|(anomaly & sd & Hsome & Hservice & _)].
    + rewrite Hnone. cbn [Py.bind].
      destruct (IH anomalies) as (found & Heq & Hfound).
      exists found. split; [assumption|].
      intros a Ha. destruct (Hfound a Ha) as (d & Hin & Hd).
      exists d. split; [now right|assumption].
    + rewrite Hsome. cbn [Py.bind].
      destruct (IH (anomalies ++ [anomaly])%list) as (found & Heq & Hfound).
      exists (anomaly :: found). split.
      * rewrite Heq, <- app_assoc. reflexivity.
      * intros a [<-|Ha].
        -- exists daily_costs. rewrite Hservice. split; [now left|assumption].
        -- destruct (Hfound a Ha) as (d & Hin & Hd).
           exists d. split; [now right|assumption].
Qed.

(** The same for [detect_cost_anomalies]. *)
Lemma day_anomalies_spec (service : string) (threshold cost_mean : Q)
    (cost_std : Py.Root) (days : Py.dict Q) (anomaly : AnalysisUtils.Anomaly) :
  In anomaly (AnalysisUtils.day_anomalies service threshold cost_mean cost_std days) ->
  AnalysisUtils.service anomaly = service /\ Py.root_pos cost_std = true.
Proof.
  induction days as [|[date cost] rest IH]; cbn [AnalysisUtils.day_anomalies];
    [intros []|].
  destruct (Py.root_pos cost_std) eqn:Hpos; [|assumption].
  destruct (Py.root_gt _ threshold); [|assumption].
  intros [<-|Hin]; [split; reflexivity | apply IH, Hin].
Qed.

Lemma service_anomalies_spec (threshold : Q) (service : string)
    (daily_costs : Py.dict Q) :
  exists found,
    AnalysisUtils.service_anomalies threshold service daily_costs = Py.Ok found
    /\ forall anomaly, In anomaly found ->
         AnalysisUtils.service anomaly = service
         /\ exists sd, stdev_or_zero (Py.values daily_costs) = Py.Ok sd
                       /\ Py.root_pos sd = true.
Proof.
  unfold AnalysisUtils.service_anomalies.
  destruct (Nat.ltb_spec (List.length (Py.values daily_costs)) 7) as [|Hlen].
  - exists []. split; [reflexivity|intros ? []].
  - destruct (mean_total (Py.values daily_costs)) as [m ->].
    { destruct daily_costs; [cbn in Hlen; lia|discriminate]. }
    destruct (stdev_or_zero_total (Py.values daily_costs)) as [sd Hsd].
    rewrite Hsd. cbn [Py.bind]. eexists. split; [reflexivity|].
    intros a Ha. destruct (day_anomalies_spec _ _ _ _ _ _ Ha) as [Hs Hpos].
    split; [assumption|]. now exists sd.
Qed.

Lemma analysis_detect_loop_spec (threshold : Q) (items : Py.dict (Py.dict Q))
    (anomalies : list AnalysisUtils.Anomaly) :
  exists found,
    AnalysisUtils.detect_loop threshold items anomalies
    = Py.Ok (anomalies ++ found)%list
    /\ forall anomaly, In anomaly found ->
         exists daily_costs sd,
           In (AnalysisUtils.service anomaly, daily_costs) items
           /\ stdev_or_zero (Py.values daily_costs) = Py.Ok sd
           /\ Py.root_pos sd = true.
Proof.
  revert anomalies.
  induction items as [|[service daily_costs] rest IH]; intro anomalies;
    cbn [AnalysisUtils.detect_loop].
  - exists []. rewrite app_nil_r. split; [reflexivity|intros ? []].
  - destruct (service_anomalies_spec threshold service daily_costs)
      as (here & -> & Hhere).
    cbn [Py.bind].
    destruct (IH (anomalies ++ here)%list) as (found & Heq & Hfound).
    exists (here ++ found)%list. split.
    + rewrite Heq, <- app_assoc. reflexivity.
    + intros a Ha. apply in_app_or in Ha as [Ha|Ha].
      * destruct (Hhere a Ha) as (Hs & sd & Hsd & Hpos).
        exists daily_costs, sd. rewrite Hs. repeat split; [now left|assumption..].
      * destruct (Hfound a Ha) as (d & sd & Hin & Hsd & Hpos).
        exists d, sd. repeat split; [now right|assumption..].
Qed.

Lemma insert_by_deviation_In (a b : AnalysisUtils.Anomaly)
    (sorted : list AnalysisUtils.Anomaly) :
  In b (AnalysisUtils.insert_by_deviation a sorted) -> b = a \/ In b sorted.
Proof.
  induction sorted as [|c rest IH]; cbn [AnalysisUtils.insert_by_deviation].
  - intros [<-|[]]. now left.
  - destruct (Py.Qltb _ _).
    + intros [<-|Hin]; [now left|now right].
    + intros [<-|Hin]; [right; now left|].
      destruct (IH Hin) as [->|Hr]; [now left|right; now right].
Qed.

Lemma sorted_by_deviation_In (b : AnalysisUtils.Anomaly)
    (anomalies : list AnalysisUtils.Anomaly) :
  In b (AnalysisUtils.sorted_by_deviation anomalies) -> In b anomalies.
Proof.
  unfold AnalysisUtils.sorted_by_deviation.
  assert (H : forall acc,
             In b (fold_left (fun acc a => AnalysisUtils.insert_by_deviation a acc)
                     anomalies acc) -> In b acc \/ In b anomalies).
  { induction anomalies as [|a rest IH]; intro acc; cbn [fold_left].
    - now left.
    - intro Hin. destruct (IH _ Hin) as [Hacc|Hrest].
      + destruct (insert_by_deviation_In _ _ _ Hacc) as [->|Hacc'].
        * right. now left.
        * now left.
      + right. now right. }
  intro Hin. destruct (H [] Hin) as [[]|Hres]. assumption.
Qed.

(** [Py.Root] against the real numbers: the tests on a root are the tests
    on the real square root they stand for. *)

Lemma root_pos_real (s : Py.Root) :
  0 <= Py.radicand s -> (Py.root_pos s = true <-> (0 < Py.root_val s)%R).
Proof.
  intro Hnn. unfold Py.root_pos, Py.root_val. rewrite Qltb_lt.
  apply Qle_Rle in Hnn. rewrite RMicromega.Q2R_0 in Hnn. split.
  - intro H. apply Qlt_Rlt in H. rewrite RMicromega.Q2R_0 in H.
    now apply sqrt_lt_R0.
  - intro H. apply Rlt_Qlt. rewrite RMicromega.Q2R_0.
    destruct Hnn as [Hlt|Heq]; [assumption|].
    rewrite <- Heq, sqrt_0 in H. Lra.lra.
Qed.

Lemma root_gt_real (s : Py.Root) (t : Q) :
  0 <= Py.radicand s -> (Py.root_gt s t = true <-> (Q2R t < Py.root_val s)%R).
Proof.
  intro Hnn. unfold Py.root_gt, Py.root_val.
  apply Qle_Rle in Hnn. rewrite RMicromega.Q2R_0 in Hnn.
  pose proof (sqrt_pos (Q2R (Py.radicand s))) as Hsq.
  destruct (Py.Qltb t 0) eqn:Ht.
  - apply Qltb_lt, Qlt_Rlt in Ht. rewrite RMicromega.Q2R_0 in Ht.
    split; [intros _; Lra.lra | reflexivity].
  - apply Qltb_ge, Qle_Rle in Ht. rewrite RMicromega.Q2R_0 in Ht.
    rewrite Qltb_lt.
    rewrite <- (sqrt_square (Q2R t)) by assumption.
    rewrite <- Q2R_mult. split.
    + intro H. apply Qlt_Rlt in H. apply sqrt_lt_1_alt. split; [|assumption].
      rewrite Q2R_mult. now apply Rmult_le_pos.
    + intro H. apply Rlt_Qlt. apply sqrt_lt_0_alt. assumption.
Qed.

Lemma abs_div_root_real (a : Q) (s : Py.Root) :
  0 < Py.radicand s ->
  Py.root_val (Py.abs_div_root a s) = (Rabs (Q2R a) / Py.root_val s)%R.
Proof.
  intro Hpos. unfold Py.root_val, Py.abs_div_root. cbn [Py.radicand].
  rewrite Q2R_div by (intro H; rewrite H in Hpos; discriminate).
  rewrite Q2R_mult.
  apply Qlt_Rlt in Hpos. rewrite RMicromega.Q2R_0 in Hpos.
  rewrite sqrt_div_alt by assumption.
  f_equal. apply sqrt_Rsqr_abs.
Qed.



(** C5, as the code has it: for the seven daily costs
    [100,100,100,100,100,100,300] the z-score of the seventh day is
    [6 / sqrt 7], about 2.27.  It does not exceed the threshold 2.5 of
    sensitivity "medium", for which no anomaly is emitted; it exceeds the
    threshold 2.0 of sensitivity "high", for which exactly one anomaly is
    emitted, for the seventh day, a spike of severity "warning". *)
Theorem spike_week_anomaly :
  ServiceAnomalies.detect_service_anomalies spike_week "medium" = Py.Ok []
  /\ exists a,
       ServiceAnomalies.detect_service_anomalies spike_week "high" = Py.Ok [a]
       /\ ServiceAnomalies.date a = "2024-01-07"
       /\ ServiceAnomalies.description_direction a = spike
       /\ ServiceAnomalies.severity a = "warning"
       /\ ServiceAnomalies.deviation a == 2.27.
Proof.
  split; [vm_compute; reflexivity|].
  eexists. split; [vm_compute; reflexivity|].
  cbn. repeat split.
Qed.

(** C5 as stated fails: with sensitivity "medium" the detector does not
    emit one anomaly for the seventh day. *)
Lemma spike_week_medium_not_flagged :
  ~ (exists a,
       ServiceAnomalies.detect_service_anomalies spike_week "medium" = Py.Ok [a]
       /\ ServiceAnomalies.date a = "2024-01-07"
       /\ ServiceAnomalies.description_direction a = spike).
Proof.
  intros (a & H & _). vm_compute in H. discriminate.
Qed.

(** ** The threshold evaluator *)

Section ThresholdEvaluator.

Import AlertingHandler.

Variables (now : Py.Instant) (test_mode : bool).

Lemma overall_alerts_breaches (total : Q) (daily_thresholds : Py.dict Q) :
  filter is_threshold_breach (overall_alerts now test_mode total daily_thresholds)
  = overall_alerts now test_mode total daily_thresholds.
Proof.
  induction daily_thresholds as [|[severity limit] rest IH];
    cbn [overall_alerts]; [reflexivity|].
  destruct (Py.Qgtb total limit); [|assumption].
  cbn [filter]. unfold is_threshold_breach at 1. cbn [alert_type create_alert].
  rewrite String.eqb_refl. now f_equal.
Qed.

Lemma service_alerts_no_breach (service_thresholds : Py.dict (Py.dict Q))
    (service_costs : Py.dict Q) :
  filter is_threshold_breach
    (service_alerts now test_mode service_thresholds service_costs) = [].
Proof.
  induction service_costs as [|[service cost] rest IH];
    cbn [service_alerts]; [reflexivity|].
  destruct (Py.get service service_thresholds) as [limits|]; [|assumption].
  destruct (Py.get "daily" limits) as [limit|]; [|assumption].
  destruct (negb (Qeq_bool limit 0) && Py.Qgtb cost limit); assumption.
Qed.

Lemma overall_alerts_severities (total : Q) (daily_thresholds : Py.dict Q) :
  map (fun a => (severity a, threshold a))
    (overall_alerts now test_mode total daily_thresholds)
  = map (fun entry => (fst entry, Py.round (snd entry) 2))
      (filter (fun entry => Py.Qgtb total (snd entry)) daily_thresholds).
Proof.
  induction daily_thresholds as [|[severity limit] rest IH];
    cbn [overall_alerts filter snd]; [reflexivity|].
  destruct (Py.Qgtb total limit); [|assumption].
  cbn [map fst snd]. now f_equal.
Qed.

Lemma overall_alerts_In (total : Q) (daily_thresholds : Py.dict Q) (a : Alert) :
  In a (overall_alerts now test_mode total daily_thresholds) <->
  exists severity limit,
    In (severity, limit) daily_thresholds /\ limit < total
    /\ a = create_alert now "threshold_breach" severity "Overall" "All" total
             limit (DailyExceeded total severity limit) test_mode.
Proof.
  induction daily_thresholds as [|[severity limit] rest IH];
    cbn [overall_alerts].
  - split; [intros []|intros (? & ? & [] & _)].
  - destruct (Py.Qgtb total limit) eqn:Hgt.
    + cbn [In]. rewrite IH. split.
      * intros [<-|(s & l & Hin & Hlt & ->)].
        -- exists severity, limit. apply Qgtb_gt in Hgt. auto.
        -- exists s, l. auto.
      * intros (s & l & [[= <- <-]|Hin] & Hlt & ->); [now left|].
        right. exists s, l. auto.
    + rewrite IH. split.
      * intros (s & l & Hin & Hlt & ->). exists s, l. cbn [In]. auto.
      * intros (s & l & [[= <- <-]|Hin] & Hlt & ->).
        -- apply Qgtb_le in Hgt. exfalso. apply (Qlt_not_le _ _ Hlt Hgt).
        -- exists s, l. auto.
Qed.

End ThresholdEvaluator.


(** ** The budget evaluator *)

Section BudgetEvaluator.

Import AlertingHandler.

Variables (now : Py.Instant) (test_mode : bool).

(** With a limit that is an [int] or a [float], the evaluator emits the
    alert of the checkpoint reached: one alert from 80 percent on, none
    below, never the two together. *)
Lemma budget_checkpoints (limit : Py.Number) (monthly_costs : list CostRecord) :
  (forall d, limit <> Py.PyDecimal d) ->
  ~ Py.value limit == 0 ->
  check_budget_alerts now (budget_of limit) monthly_costs test_mode
  = checkpoint_alerts now test_mode
      (Py.value (Py.sum_floats (map cost_of monthly_costs))) (Py.value limit).
Proof.
  intros Hkind Hnz.
  unfold check_budget_alerts, budget_of, budget_alerts, checkpoint_alerts.
  cbn [overall_budget monthly_limit].
  unfold Py.truthy.
  destruct (Qeq_bool (Py.value limit) 0) eqn:Hz;
    [apply Qeq_bool_iff in Hz; contradiction|].
  cbn [negb].
  destruct limit as [l|l|l]; [| |now destruct (Hkind l)];
    unfold Py.sum_floats; destruct (map cost_of monthly_costs) as [|t ts];
    cbn [Py.truediv Py.mul Py.bind Py.value];
    change (inject_Z 100) with 100;
    repeat match goal with |- context [if ?b then _ else _] => destruct b end;
    reflexivity.
Qed.

(** With a limit that is a [Decimal] and at least one cost record, the
    division of the [float] total by the limit raises, and the evaluator
    returns no alert. *)
Lemma budget_decimal_limit_silent (limit : Q) (monthly_costs : list CostRecord) :
  monthly_costs <> [] ->
  check_budget_alerts now (budget_of (Py.PyDecimal limit)) monthly_costs test_mode
  = [].
Proof.
  intro Hne. destruct monthly_costs as [|r rs]; [congruence|].
  unfold check_budget_alerts, budget_of, budget_alerts.
  cbn [overall_budget monthly_limit map Py.sum_floats].
  destruct (Py.truthy (Py.PyDecimal limit)); reflexivity.
Qed.

End BudgetEvaluator.

(** C2 on a limit as the configuration table returns it: the limit is the
    [Decimal] 1000 and the month to date has one record of cost 1000, so
    100 percent of the budget is used.  The division raises [TypeError] and
    the evaluator returns no alert; with the limit as the [int] 1000 it
    returns the one budget_exceeded alert, and the one budget_warning alert
    for a cost of 800, and none for a cost of 790. *)
Theorem budget_decimal_limit_no_alert :
  AlertingHandler.budget_alerts scenario_now
    (AlertingHandler.mkBudgetConfig
       (Some (AlertingHandler.mkOverallBudget (Some (Py.PyDecimal 1000)))))
    (month_of 1000) false = Py.Raise Py.TypeError
  /\ AlertingHandler.check_budget_alerts scenario_now
       (budget_of (Py.PyDecimal 1000)) (month_of 1000) false = []
  /\ map (fun a => (AlertingHandler.alert_type a, AlertingHandler.severity a))
       (AlertingHandler.check_budget_alerts scenario_now
          (budget_of (Py.PyInt 1000)) (month_of 1000) false)
     = [("budget_exceeded", "critical")]
  /\ map (fun a => (AlertingHandler.alert_type a, AlertingHandler.severity a))
       (AlertingHandler.check_budget_alerts scenario_now
          (budget_of (Py.PyInt 1000)) (month_of 800) false)
     = [("budget_warning", "warning")]
  /\ AlertingHandler.check_budget_alerts scenario_now
       (budget_of (Py.PyInt 1000)) (month_of 790) false = [].
Proof.
  repeat split; vm_compute; reflexivity.
Qed.

(** ** The trend analyzer *)

Section TrendAnalyzer.

Import ProcessingHandler.

(** The direction is the sign of the slope. *)
Lemma direction_of_slope_sign (slope : Q) :
  (direction_of_slope slope = increasing <-> 0 < slope)
  /\ (direction_of_slope slope = decreasing <-> slope < 0)
  /\ (direction_of_slope slope = stable <-> slope == 0).
Proof.
  unfold direction_of_slope.
  destruct (Py.Qgtb slope 0) eqn:Hgt.
  - apply Qgtb_gt in Hgt. repeat split; try discriminate; try reflexivity;
      intro H; try assumption; exfalso; lra.
  - apply Qgtb_le in Hgt. destruct (Py.Qltb slope 0) eqn:Hlt.
    + apply Qltb_lt in Hlt. repeat split; try discriminate; try reflexivity;
        intro H; try assumption; exfalso; lra.
    + apply Qltb_ge in Hlt. repeat split; try discriminate; try reflexivity;
        intro H; try (exfalso; lra). lra.
Qed.

Lemma numerator_constant (c x_mean y_mean : Q) (costs : list Q) :
  Forall (fun cost => cost == c) costs -> y_mean == c ->
  numerator costs x_mean y_mean == 0.
Proof.
  intros Hc Hm. unfold numerator. apply sum_zero.
  rewrite Forall_map, Forall_forall. intros [i cost] Hin. cbn [fst snd].
  apply in_combine_r in Hin. rewrite Forall_forall in Hc.
  rewrite (Hc cost Hin), Hm. ring.
Qed.

(** A constant series has slope zero. *)
Lemma slope_constant (c y_mean : Q) (costs : list Q) :
  Forall (fun cost => cost == c) costs -> y_mean == c ->
  slope_of costs y_mean == 0.
Proof.
  intros Hc Hm. unfold slope_of.
  destruct (Qeq_bool _ 0); [reflexivity|].
  rewrite (numerator_constant c _ _ _ Hc Hm). unfold Qdiv. ring.
Qed.

Lemma round_half_even_zero (x : Q) : x == 0 -> Py.round_half_even x = 0%Z.
Proof.
  intro Hx. unfold Py.round_half_even.
  assert (Hf : Qfloor x = 0%Z) by (rewrite Hx; reflexivity).
  rewrite Hf.
  assert (Hlt : x - inject_Z 0 < 1 # 2) by (rewrite Hx; reflexivity).
  rewrite Qlt_alt in Hlt. now rewrite Hlt.
Qed.

Lemma round_zero (x : Q) (ndigits : nat) : x == 0 -> Py.round x ndigits == 0.
Proof.
  intro Hx. unfold Py.round. rewrite round_half_even_zero.
  - reflexivity.
  - rewrite Hx. ring.
Qed.

Lemma insert_sorted_In (k k' : string) (ks : list string) :
  In k' (Py.insert_sorted k ks) -> k' = k \/ In k' ks.
Proof.
  induction ks as [|k0 ks IH]; cbn [Py.insert_sorted].
  - intros [<-|[]]. now left.
  - destruct (String.ltb k k0).
    + intros [<-|Hin]; [now left|now right].
    + intros [<-|Hin]; [right; now left|].
      destruct (IH Hin) as [->|H]; [now left|right; now right].
Qed.

Lemma insert_sorted_length (k : string) (ks : list string) :
  List.length (Py.insert_sorted k ks) = S (List.length ks).
Proof.
  induction ks as [|k0 ks IH]; cbn [Py.insert_sorted]; [reflexivity|].
  destruct (String.ltb k k0); cbn [List.length]; [reflexivity|now rewrite IH].
Qed.

Lemma sorted_spec (ks : list string) :
  List.length (Py.sorted ks) = List.length ks
  /\ forall k, In k (Py.sorted ks) -> In k ks.
Proof.
  unfold Py.sorted.
  assert (H : forall acc,
             List.length (fold_left (fun acc k => Py.insert_sorted k acc) ks acc)
             = (List.length acc + List.length ks)%nat
             /\ forall k,
                  In k (fold_left (fun acc k => Py.insert_sorted k acc) ks acc) ->
                  In k acc \/ In k ks).
  { induction ks as [|k0 ks IH]; intro acc; cbn [fold_left List.length].
    - split; [lia|now left].
    - destruct (IH (Py.insert_sorted k0 acc)) as [Hlen Hin].
      rewrite Hlen, insert_sorted_length. split; [lia|].
      intros k Hk. destruct (Hin k Hk) as [Hacc|Hks].
      + destruct (insert_sorted_In _ _ _ Hacc) as [->|Hacc'].
        * right. now left.
        * now left.
      + right. now right. }
  destruct (H []) as [Hlen Hin]. split; [exact Hlen|].
  intros k Hk. destruct (Hin k Hk) as [[]|Hks]. assumption.
Qed.

(** Subscripting by keys of the dictionary does not raise and yields values
    of the dictionary. *)
Lemma items_of_keys (d : Py.dict Q) (ks : list string) :
  (forall k, In k ks -> In k (Py.keys d)) ->
  exists vs, Py.items_of d ks = Py.Ok vs
             /\ List.length vs = List.length ks
             /\ forall v, In v vs -> In v (Py.values d).
Proof.
  induction ks as [|k ks IH]; intro Hks; cbn [Py.items_of].
  - exists []. repeat split. intros ? [].
  - destruct (get_keys k d (Hks k (or_introl eq_refl))) as [v Hv].
    destruct IH as (vs & -> & Hlen & Hvs).
    { intros k' Hk'. apply Hks. now right. }
    unfold Py.item. rewrite Hv. cbn [Py.bind].
    exists (v :: vs). repeat split.
    + cbn [List.length]. now rewrite Hlen.
    + intros v' [<-|Hin]; [|now apply Hvs].
      apply get_In in Hv. change (In (snd (k, v)) (map snd d)).
      now apply in_map.
Qed.

(** The week-over-week change is computed except for a series of exactly
    seven days, where the days before the last seven are none and their mean
    raises. *)
Lemma percent_change_of_total (costs : list Q) :
  List.length costs <> 7%nat -> exists p, percent_change_of costs = Py.Ok p.
Proof.
  intro Hlen. unfold percent_change_of.
  destruct (Nat.leb_spec 7 (List.length costs)) as [H7|_]; [|eauto].
  destruct (mean_total (Py.last_n 7 costs)) as [recent ->].
  { intro Hnil. apply (f_equal (@List.length Q)) in Hnil.
    unfold Py.last_n in Hnil. rewrite length_skipn in Hnil. cbn in Hnil. lia. }
  cbn [Py.bind].
  destruct (Nat.leb_spec 14 (List.length costs)) as [H14|H14].
  - destruct (mean_total (Py.slice_from_end 14 7 costs)) as [previous ->];
      [|cbn [Py.bind]; eauto].
    intro Hnil. apply (f_equal (@List.length Q)) in Hnil.
    unfold Py.slice_from_end, Py.drop_last_n in Hnil.
    rewrite length_skipn, length_firstn in Hnil. cbn in Hnil. lia.
  - destruct (mean_total (Py.drop_last_n 7 costs)) as [previous ->];
      [|cbn [Py.bind]; eauto].
    intro Hnil. apply (f_equal (@List.length Q)) in Hnil.
    unfold Py.drop_last_n in Hnil. rewrite length_firstn in Hnil.
    cbn in Hnil. lia.
Qed.

(** For a constant daily series of at least two days, other than seven, the
    analyzer returns slope zero (to four decimals) and direction stable. *)
Lemma constant_series_trend (cost_data : list CostRecord) (c : Q) :
  let daily_costs := daily_costs_of cost_data in
  Forall (fun cost => cost == c) (Py.values daily_costs) ->
  (2 <= List.length daily_costs)%nat ->
  List.length daily_costs <> 7%nat ->
  exists trend,
    analyze_cost_trends cost_data = Py.Ok (Some trend)
    /\ trend_direction trend = stable
    /\ daily_change_rate trend == 0.
Proof.
  intros daily_costs Hc H2 H7. unfold analyze_cost_trends.
  fold daily_costs.
  destruct (sorted_spec (Py.keys daily_costs)) as [Hlen Hin].
  unfold Py.keys in Hlen at 2. rewrite length_map in Hlen.
  rewrite Hlen.
  destruct (Nat.ltb_spec (List.length daily_costs) 2) as [|_]; [lia|].
  destruct (items_of_keys daily_costs _ Hin) as (costs & -> & Hcl & Hcv).
  cbn [Py.bind]. rewrite Hlen in Hcl.
  assert (Hcc : Forall (fun cost => cost == c) costs).
  { rewrite Forall_forall in Hc |- *. intros v Hv. apply Hc, Hcv, Hv. }
  destruct (mean_total costs) as [y_mean Hm].
  { intros ->. cbn in Hcl. lia. }
  rewrite Hm. cbn [Py.bind].
  destruct (percent_change_of_total costs) as [p ->]; [lia|].
  cbn [Py.bind]. eexists. split; [reflexivity|].
  pose proof (slope_constant c y_mean costs Hcc (mean_constant c _ _ Hcc Hm))
    as Hslope.
  cbn [trend_direction daily_change_rate]. split.
  - now apply direction_of_slope_sign.
  - now apply round_zero.
Qed.

Example flat_eight_days_stable :
  exists trend,
    analyze_cost_trends flat_eight_days = Py.Ok (Some trend)
    /\ trend_direction trend = stable
    /\ daily_change_rate trend == 0.
Proof.
  apply (constant_series_trend flat_eight_days 100).
  - repeat (constructor; [reflexivity|]). constructor.
  - cbn. lia.
  - cbn. lia.
Qed.

End TrendAnalyzer.

(** C6 on a constant series of exactly seven days: the analyzer raises
    [StatisticsError] instead of returning slope zero and direction stable.
    The guard [len(costs) >= 7] lets the series through to
    [mean(costs[:-7])], the mean of an empty list. *)
Theorem flat_week_trend_raises :
  List.length (ProcessingHandler.daily_costs_of flat_week) = 7%nat
  /\ Forall (fun cost => cost == 100)
       (Py.values (ProcessingHandler.daily_costs_of flat_week))
  /\ ProcessingHandler.analyze_cost_trends flat_week
     = Py.Raise Py.StatisticsError.
Proof.
  split; [reflexivity|]. split; [|vm_compute; reflexivity].
  repeat (constructor; [reflexivity|]). constructor.
Qed.

(** ** The recommendation engine *)

Lemma round_half_even_near (x : Q) :
  Qabs (inject_Z (Py.round_half_even x) - x) <= 1 # 2.
Proof.
  unfold Py.round_half_even.
  pose proof (Qfloor_le x) as Hlo. pose proof (Qlt_floor x) as Hhi.
  rewrite inject_Z_plus in Hhi. change (inject_Z 1) with 1 in Hhi.
  set (f := Qfloor x) in *.
  destruct (Qcompare (x - inject_Z f) (1 # 2)) eqn:Hcmp.
  - apply Qeq_alt in Hcmp.
    destruct (Z.even f); [|rewrite inject_Z_plus; change (inject_Z 1) with 1];
      apply Qabs_case; intros _; lra.
  - apply Qlt_alt in Hcmp. apply Qabs_case; intros _; lra.
  - apply Qgt_alt in Hcmp. rewrite inject_Z_plus. change (inject_Z 1) with 1.
    apply Qabs_case; intros _; lra.
Qed.

Lemma round_comp (x y : Q) (ndigits : nat) :
  x == y -> Py.round x ndigits = Py.round y ndigits.
Proof.
  intro H. unfold Py.round. f_equal. unfold Py.round_half_even.
  assert (Hs : x * inject_Z (Z.pos (Py.scale ndigits))
               == y * inject_Z (Z.pos (Py.scale ndigits)))
    by (rewrite H; reflexivity).
  rewrite (Qfloor_comp _ _ Hs).
  set (f := inject_Z (Qfloor (y * inject_Z (Z.pos (Py.scale ndigits))))).
  assert (Hc : Qcompare (x * inject_Z (Z.pos (Py.scale ndigits)) - f) (1 # 2)
               = Qcompare (y * inject_Z (Z.pos (Py.scale ndigits)) - f) (1 # 2)).
  { apply Qcompare_comp; [|reflexivity]. rewrite Hs. reflexivity. }
  rewrite Hc. reflexivity.
Qed.

(** [round(x, 2)] is within half a cent of [x]. *)
Lemma round_2_near (x : Q) : Qabs (Py.round x 2 - x) <= 1 # 200.
Proof.
  unfold Py.round. cbn [Py.scale].
  change (10 * (10 * 1))%positive with 100%positive.
  pose proof (round_half_even_near (x * inject_Z 100)) as H.
  set (n := Py.round_half_even (x * inject_Z 100)) in *.
  change (inject_Z 100) with 100 in H.
  assert (Hn : n # 100 == inject_Z n / 100) by apply Qmake_Qdiv.
  rewrite Hn.
  apply Qabs_case; intro Hs; revert H; apply Qabs_case; intros Hs' H;
    apply Qmult_le_r with (z := 100); try reflexivity; field_simplify; lra.
Qed.

Section RecommendationEngine.

Import ProcessingHandler.

Lemma NoDup_resource_costs_of (cost_data : list CostRecord) :
  NoDup (Py.keys (resource_costs_of cost_data)).
Proof.
  unfold resource_costs_of.
  assert (H : forall acc, NoDup (Py.keys acc) ->
                NoDup (Py.keys (fold_left add_resource cost_data acc))).
  { induction cost_data as [|r rs IH]; intros acc Hacc; cbn [fold_left];
      [assumption|].
    apply IH. unfold add_resource.
    destruct (resource_id r) as [[|ch rid]|]; try assumption.
    set (acc' := match Py.get (String ch rid) acc with
                 | Some _ => acc
                 | None => _
                 end).
    assert (Hacc' : NoDup (Py.keys acc')).
    { unfold acc'. destruct (Py.get (String ch rid) acc); [assumption|].
      now apply NoDup_keys_set. }
    destruct (Py.get (String ch rid) acc'); [|assumption].
    now apply NoDup_keys_set. }
  apply H. constructor.
Qed.

Lemma insert_by_cost_perm (x : string * ResourceCost)
    (sorted : list (string * ResourceCost)) :
  Permutation (insert_by_cost x sorted) (x :: sorted).
Proof.
  induction sorted as [|y rest IH]; cbn [insert_by_cost]; [reflexivity|].
  destruct (Py.Qltb _ _); [reflexivity|].
  rewrite IH. apply perm_swap.
Qed.

(** Sorting rearranges the resources. *)
Lemma sorted_by_cost_perm (resources : list (string * ResourceCost)) :
  Permutation (sorted_by_cost resources) resources.
Proof.
  unfold sorted_by_cost.
  assert (H : forall acc,
             Permutation (fold_left (fun acc x => insert_by_cost x acc) resources acc)
               (acc ++ resources)).
  { induction resources as [|x rest IH]; intro acc; cbn [fold_left].
    - now rewrite app_nil_r.
    - rewrite IH, insert_by_cost_perm. apply Permutation_middle. }
  apply (H []).
Qed.

Lemma insert_by_cost_sorted (x : string * ResourceCost)
    (sorted : list (string * ResourceCost)) :
  StronglySorted costs_at_least sorted ->
  StronglySorted costs_at_least (insert_by_cost x sorted).
Proof.
  induction 1 as [|y rest Hrest IH Hy]; cbn [insert_by_cost].
  - repeat constructor.
  - destruct (Py.Qltb (total_cost (snd y)) (total_cost (snd x))) eqn:Hlt.
    + apply Qltb_lt in Hlt. constructor; [now constructor|].
      constructor; [unfold costs_at_least; lra|].
      rewrite Forall_forall in Hy |- *. intros z Hz.
      specialize (Hy z Hz). unfold costs_at_least in *. lra.
    + apply Qltb_ge in Hlt. constructor; [assumption|].
      rewrite Forall_forall in Hy |- *. intros z Hz.
      apply (Permutation_in _ (insert_by_cost_perm x rest)) in Hz.
      destruct Hz as [<-|Hz]; [exact Hlt|now apply Hy].
Qed.

(** The sorted list is in order of falling cost, so its first ten entries
    are ten resources of greatest cost. *)
Lemma sorted_by_cost_sorted (resources : list (string * ResourceCost)) :
  StronglySorted costs_at_least (sorted_by_cost resources).
Proof.
  unfold sorted_by_cost.
  assert (H : forall acc, StronglySorted costs_at_least acc ->
             StronglySorted costs_at_least
               (fold_left (fun acc x => insert_by_cost x acc) resources acc)).
  { induction resources as [|x rest IH]; intros acc Hacc; cbn [fold_left];
      [assumption|].
    apply IH. now apply insert_by_cost_sorted. }
  apply H. constructor.
Qed.

Lemma NoDup_sorted_keys (cost_data : list CostRecord) (n : nat) :
  NoDup (map fst (firstn n (sorted_by_cost (resource_costs_of cost_data)))).
Proof.
  rewrite <- firstn_map.
  assert (Hnd : NoDup (map fst (sorted_by_cost (resource_costs_of cost_data)))).
  { eapply Permutation_NoDup; [|apply (NoDup_resource_costs_of cost_data)].
    symmetry. apply Permutation_map, sorted_by_cost_perm. }
  rewrite <- (firstn_skipn n (map fst _)) in Hnd.
  now apply NoDup_app_remove_r in Hnd.
Qed.

(** Among resources of distinct ids, the recommendations for one that passes
    the threshold are exactly its own. *)
Lemma recommendations_of_one (now : Py.Instant)
    (resources : list (string * ResourceCost)) (resource : string * ResourceCost) :
  NoDup (map fst resources) ->
  In resource resources ->
  Py.Qgtb (total_cost (snd resource)) 100 = true ->
  recommendations_of (fst resource)
    (map (recommend now)
       (filter (fun r => Py.Qgtb (total_cost (snd r)) 100) resources))
  = [recommend now resource].
Proof.
  intros Hnd Hin Hgt. unfold recommendations_of.
  induction resources as [|y rest IH]; [destruct Hin|].
  cbn [map fst] in Hnd. inversion Hnd as [|? ? Hnotin Hnd']; subst.
  assert (Hrest : forall z, In z rest -> fst z <> fst y).
  { intros z Hz Heq. apply Hnotin. rewrite <- Heq. now apply in_map. }
  assert (Hnone : forall l, (forall z, In z l -> fst z <> fst resource) ->
            filter (fun r => String.eqb (rec_resource_id r) (fst resource))
              (map (recommend now)
                 (filter (fun r => Py.Qgtb (total_cost (snd r)) 100) l)) = []).
  { induction l as [|z l IHl]; intro Hl; [reflexivity|]. cbn [filter].
    assert (Htail := IHl (fun w Hw => Hl w (or_intror Hw))).
    destruct (Py.Qgtb (total_cost (snd z)) 100); [|exact Htail].
    cbn [map filter rec_resource_id recommend].
    destruct (String.eqb_spec (fst z) (fst resource)) as [Heq|_];
      [|exact Htail].
    exfalso. exact (Hl z (or_introl eq_refl) Heq). }
  destruct Hin as [->|Hin].
  - cbn [filter]. rewrite Hgt. cbn [map filter rec_resource_id recommend].
    rewrite String.eqb_refl. f_equal. apply Hnone.
    intros z Hz. now apply Hrest.
  - cbn [filter]. specialize (IH Hnd' Hin).
    destruct (Py.Qgtb (total_cost (snd y)) 100); [|exact IH].
    cbn [map filter rec_resource_id recommend].
    destruct (String.eqb_spec (fst y) (fst resource)) as [Heq|_]; [|exact IH].
    exfalso. exact (Hrest resource Hin (eq_sym Heq)).
Qed.

End RecommendationEngine.




(** ** Alert processing *)

Section AlertProcessing.

Import AlertingHandler.

Variable topics : Topics.

Lemma duplicate_filter_spec (alert : Alert) (now : Py.Instant) (row : Alert) :
  duplicate_filter alert (now - Py.hours 1)%Z row = true
  <-> recent_active_duplicate alert now row.
Proof.
  unfold duplicate_filter, recent_active_duplicate, same_subject.
  rewrite !andb_true_iff, !String.eqb_eq, Z.ltb_lt.
  destruct (status row); intuition discriminate.
Qed.

(** The scan finds a duplicate exactly when the table has one. *)
Lemma is_duplicate_alert_spec (env : Env) (alert : Alert) (w : World) :
  scan_fails env = false ->
  snd (is_duplicate_alert env alert w) = w
  /\ (fst (is_duplicate_alert env alert w) = true
      <-> exists row, In row (alerts_table w)
                      /\ recent_active_duplicate alert (now env) row).
Proof.
  intro Hscan. unfold is_duplicate_alert. rewrite Hscan. cbn [fst snd].
  split; [reflexivity|]. rewrite Nat.ltb_lt. split.
  - intro Hlen.
    destruct (filter _ (alerts_table w)) as [|row rest] eqn:Hf;
      [cbn in Hlen; lia|].
    assert (Hin : In row (filter (duplicate_filter alert (now env - Py.hours 1)%Z)
                            (alerts_table w))) by (rewrite Hf; now left).
    apply filter_In in Hin. destruct Hin as [Hin Hdup].
    exists row. split; [assumption|]. now apply duplicate_filter_spec.
  - intros (row & Hin & Hdup). apply duplicate_filter_spec in Hdup.
    assert (Hf : In row (filter (duplicate_filter alert (now env - Py.hours 1)%Z)
                           (alerts_table w))) by (apply filter_In; auto).
    destruct (filter _ (alerts_table w)); [destruct Hf|cbn; lia].
Qed.

Lemma put_item_In (item : Alert) (table : list Alert) :
  In item (put_item item table).
Proof.
  induction table as [|row rest IH]; cbn [put_item]; [now left|].
  destruct (has_key _ _ row); [now left|now right].
Qed.

(** Rows that pass a filter the old rows do not pass: only the new one. *)
Lemma filter_put_item (P : Alert -> bool) (item : Alert) (table : list Alert) :
  P item = true -> (forall row, In row table -> P row = false) ->
  filter P (put_item item table) = [item].
Proof.
  intros Hitem Hrows.
  induction table as [|row rest IH]; cbn [put_item filter].
  - now rewrite Hitem.
  - assert (Hrest : filter P rest = []).
    { clear IH. induction rest as [|r rs IHr]; [reflexivity|]. cbn [filter].
      rewrite (Hrows r (or_intror (or_introl eq_refl))).
      apply IHr. intros r' [<-|Hr']; apply Hrows; [now left|right; now right]. }
    destruct (has_key _ _ row).
    + cbn [filter]. now rewrite Hitem, Hrest.
    + cbn [filter]. rewrite (Hrows row (or_introl eq_refl)).
      apply IH. intros r Hr. apply Hrows. now right.
Qed.

Lemma duplicate_filter_mark_sent (alert : Alert) (recent : Py.Instant)
    (row : Alert) :
  duplicate_filter alert recent (mark_sent row) = duplicate_filter alert recent row.
Proof. reflexivity. Qed.

Lemma filter_update_item (alert : Alert) (recent : Py.Instant)
    (alert_id : string) (timestamp : Py.Instant) (table : list Alert) :
  filter (duplicate_filter alert recent)
    (update_item alert_id timestamp mark_sent table)
  = update_item alert_id timestamp mark_sent
      (filter (duplicate_filter alert recent) table).
Proof.
  unfold update_item.
  induction table as [|row rest IH]; [reflexivity|]. cbn [map filter].
  destruct (has_key alert_id timestamp row) eqn:Hk.
  - rewrite duplicate_filter_mark_sent.
    destruct (duplicate_filter alert recent row); cbn [map]; [|assumption].
    rewrite Hk. now f_equal.
  - destruct (duplicate_filter alert recent row); cbn [map]; [|assumption].
    rewrite Hk. now f_equal.
Qed.

Lemma has_key_refl (alert : Alert) :
  has_key (alert_id alert) (timestamp alert) alert = true.
Proof.
  unfold has_key. now rewrite String.eqb_refl, Z.eqb_refl.
Qed.

(** What the notification leaves in the table and on the topic. *)
Lemma send_alert_notification_table (env : Env) (alert : Alert) (w : World) :
  alerts_table (send_alert_notification topics env alert w) = alerts_table w
  \/ (publish_fails env = false
      /\ alerts_table (send_alert_notification topics env alert w)
         = update_item (alert_id alert) (timestamp alert) mark_sent
             (alerts_table w)).
Proof.
  unfold send_alert_notification.
  destruct (String.eqb _ ""); [now left|].
  destruct (publish_fails env); [now left|].
  destruct (update_fails env); [now left|]. right. split; reflexivity.
Qed.

Lemma stored_records_logged (r : LogRecord) (w : World) :
  stored_records (log (logged r w))
  = (stored_records (log w)
     + match r with StoredAlert _ => 1 | _ => 0 end)%nat.
Proof.
  unfold stored_records, logged. cbn [log].
  rewrite filter_app, length_app. destruct r; reflexivity.
Qed.

Lemma send_alert_notification_log (env : Env) (alert : Alert) (w : World) :
  stored_records (log (send_alert_notification topics env alert w))
  = stored_records (log w).
Proof.
  unfold send_alert_notification.
  destruct (String.eqb _ ""); [|destruct (publish_fails env);
    [|destruct (update_fails env)]];
    rewrite stored_records_logged; cbn [log]; lia.
Qed.

Lemma is_duplicate_alert_log (env : Env) (alert : Alert) (w : World) :
  stored_records (log (snd (is_duplicate_alert env alert w)))
  = stored_records (log w).
Proof.
  unfold is_duplicate_alert. destruct (scan_fails env); cbn [snd];
    [rewrite stored_records_logged; lia | reflexivity].
Qed.

(** One turn of the loop: the count grows by the number of alerts the turn
    stored. *)
Lemma process_alert_count (env : Env) (alert : Alert) (state : World * nat) :
  let state' := process_alert topics env alert state in
  (snd state' + stored_records (log (fst state)))%nat
  = (snd state + stored_records (log (fst state')))%nat.
Proof.
  destruct state as [w count]. cbn zeta. unfold process_alert.
  pose proof (is_duplicate_alert_log env alert w) as Hdup.
  destruct (is_duplicate_alert env alert w) as [duplicate w1].
  cbn [snd] in Hdup. cbn [fst snd].
  destruct duplicate; cbn [negb].
  - cbn [fst snd]. rewrite stored_records_logged. lia.
  - unfold store_alert. destruct (put_fails env); cbn [fst snd].
    + rewrite !stored_records_logged. lia.
    + rewrite stored_records_logged, send_alert_notification_log,
        stored_records_logged.
      cbn [log]. lia.
Qed.

Lemma process_alerts_loop (envs : nat -> Env) (alerts : list Alert) (w : World) :
  process_alerts topics envs alerts w = process_loop topics envs alerts (w, O).
Proof. destruct alerts; reflexivity. Qed.

Lemma process_loop_count (envs : nat -> Env) (alerts : list Alert)
    (state : World * nat) :
  let state' := process_loop topics envs alerts state in
  (snd state' + stored_records (log (fst state)))%nat
  = (snd state + stored_records (log (fst state')))%nat.
Proof.
  revert envs state.
  induction alerts as [|alert rest IH]; intros envs state; cbn [process_loop].
  - reflexivity.
  - pose proof (process_alert_count (envs O) alert state) as H1.
    pose proof (IH (fun i => envs (S i)) (process_alert topics (envs O) alert state))
      as H2.
    cbn zeta in *. lia.
Qed.

End AlertProcessing.

Section Deduplication.

Import AlertingHandler.

Variable topics : Topics.

Lemma is_duplicate_alert_found (env : Env) (alert : Alert) (w : World) :
  scan_fails env = false ->
  (exists row, In row (alerts_table w)
               /\ recent_active_duplicate alert (now env) row) ->
  is_duplicate_alert env alert w = (true, w).
Proof.
  intros Hscan Hrow.
  destruct (is_duplicate_alert_spec env alert w Hscan) as [Hw Hiff].
  rewrite (surjective_pairing (is_duplicate_alert env alert w)), Hw.
  f_equal. now apply Hiff.
Qed.

Lemma is_duplicate_alert_none (env : Env) (alert : Alert) (w : World) :
  scan_fails env = false ->
  (forall row, In row (alerts_table w) ->
               ~ recent_active_duplicate alert (now env) row) ->
  is_duplicate_alert env alert w = (false, w).
Proof.
  intros Hscan Hnone.
  destruct (is_duplicate_alert_spec env alert w Hscan) as [Hw Hiff].
  rewrite (surjective_pairing (is_duplicate_alert env alert w)), Hw.
  f_equal. destruct (fst (is_duplicate_alert env alert w)); [|reflexivity].
  destruct (proj1 Hiff eq_refl) as (row & Hin & Hdup).
  destruct (Hnone row Hin Hdup).
Qed.

(** A candidate that has a recent active duplicate is skipped: the table
    and the topic stay as they are. *)
Lemma process_alert_duplicate (env : Env) (alert : Alert) (w : World)
    (count : nat) :
  scan_fails env = false ->
  (exists row, In row (alerts_table w)
               /\ recent_active_duplicate alert (now env) row) ->
  process_alert topics env alert (w, count)
  = (logged (SkippedDuplicate (alert_id alert)) w, count).
Proof.
  intros Hscan Hrow. unfold process_alert.
  now rewrite (is_duplicate_alert_found env alert w Hscan Hrow).
Qed.

(** A candidate without one is stored when the write succeeds; afterwards
    it is the only row a later scan for the same subject finds. *)
Lemma process_alert_fresh (env : Env) (alert again : Alert)
    (later : Py.Instant) (w : World) (count : nat) :
  scan_fails env = false -> put_fails env = false ->
  (forall row, In row (alerts_table w) ->
               ~ recent_active_duplicate alert (now env) row) ->
  status alert = Active -> same_subject again alert ->
  (now env <= later)%Z -> (later - Py.hours 1 < timestamp alert)%Z ->
  let state := process_alert topics env alert (w, count) in
  snd state = (count + 1)%nat
  /\ exists row,
       stored_as alert row
       /\ filter (duplicate_filter again (later - Py.hours 1)%Z)
            (alerts_table (fst state)) = [row].
Proof.
  intros Hscan Hput Hnone Hactive Hsame Hclock Hrecent. cbn zeta.
  unfold process_alert.
  rewrite (is_duplicate_alert_none env alert w Hscan Hnone). cbn [negb].
  unfold store_alert. rewrite Hput. cbn [fst snd alerts_table logged].
  split; [reflexivity|].
  set (stored := logged (StoredAlert (alert_id alert))
                   (mkWorld (put_item alert (alerts_table w)) (published w)
                      (log w))).
  assert (Hfilter : filter (duplicate_filter again (later - Py.hours 1)%Z)
                      (alerts_table stored) = [alert]).
  { unfold stored. cbn [alerts_table logged]. apply filter_put_item.
    - apply duplicate_filter_spec. destruct Hsame as (Ht & Hs & Hr).
      repeat split; congruence.
    - intros row Hin.
      destruct (duplicate_filter again (later - Py.hours 1)%Z row) eqn:Hd;
        [|reflexivity].
      apply duplicate_filter_spec in Hd.
      destruct Hd as ((Ht & Hs & Hr) & Hst & Hts).
      destruct Hsame as (Ht' & Hs' & Hr').
      exfalso. apply (Hnone row Hin). repeat split; try congruence. lia. }
  destruct (send_alert_notification_table topics env alert stored)
    as [Hsame_table|[_ Hupdated]].
  - exists alert. split; [now left|]. now rewrite Hsame_table.
  - exists (mark_sent alert). split; [now right|].
    rewrite Hupdated, filter_update_item, Hfilter.
    unfold update_item. cbn [map]. now rewrite has_key_refl.
Qed.

End Deduplication.

(** C1, for a duplicate check that succeeds: a candidate for which the
    table holds an active alert of the same (alert_type, service, region)
    created within the last hour is discarded, with no new row and no
    notification.  Hence a candidate that is stored and issued again within
    the hour yields one persisted alert: the run counts one alert, a scan for
    the subject finds the one row, and nothing more is published. *)
Theorem duplicate_candidate_discarded (topics : AlertingHandler.Topics)
    (envs : nat -> AlertingHandler.Env) (alert again : AlertingHandler.Alert)
    (w : AlertingHandler.World) (count : nat) :
  AlertingHandler.scan_fails (envs 0%nat) = false ->
  ((exists row, In row (AlertingHandler.alerts_table w)
                /\ recent_active_duplicate alert
                     (AlertingHandler.now (envs 0%nat)) row) ->
   AlertingHandler.process_alert topics (envs 0%nat) alert (w, count)
   = (AlertingHandler.logged
        (AlertingHandler.SkippedDuplicate (AlertingHandler.alert_id alert)) w,
      count))
  /\ ((forall row, In row (AlertingHandler.alerts_table w) ->
                   ~ recent_active_duplicate alert
                       (AlertingHandler.now (envs 0%nat)) row) ->
      AlertingHandler.put_fails (envs 0%nat) = false ->
      AlertingHandler.scan_fails (envs 1%nat) = false ->
      AlertingHandler.status alert = AlertingHandler.Active ->
      same_subject again alert ->
      (AlertingHandler.now (envs 0%nat) <= AlertingHandler.now (envs 1%nat))%Z ->
      (AlertingHandler.now (envs 1%nat) - Py.hours 1
       < AlertingHandler.timestamp alert)%Z ->
      let once := AlertingHandler.process_alerts topics envs [alert] w in
      let twice := AlertingHandler.process_alerts topics envs [alert; again] w in
      snd twice = 1%nat
      /\ AlertingHandler.alerts_table (fst twice)
         = AlertingHandler.alerts_table (fst once)
      /\ AlertingHandler.published (fst twice)
         = AlertingHandler.published (fst once)
      /\ exists row,
           stored_as alert row
           /\ filter (AlertingHandler.duplicate_filter again
                        (AlertingHandler.now (envs 1%nat) - Py.hours 1)%Z)
                (AlertingHandler.alerts_table (fst twice)) = [row]).
Proof.
  intro Hscan0. split.
  - intro Hrow. now apply process_alert_duplicate.
  - intros Hnone Hput0 Hscan1 Hactive Hsame Hclock Hrecent once twice.
    destruct (process_alert_fresh topics (envs 0%nat) alert again
                (AlertingHandler.now (envs 1%nat)) w 0
                Hscan0 Hput0 Hnone Hactive Hsame Hclock Hrecent)
      as (Hcount & row & Hstored & Hfilter).
    unfold once, twice, AlertingHandler.process_alerts.
    cbn [AlertingHandler.process_loop].
    destruct (AlertingHandler.process_alert topics (envs 0%nat) alert (w, 0%nat))
      as [w1 n1] eqn:Hfirst.
    cbn [fst snd] in Hcount, Hfilter. subst n1.
    rewrite (process_alert_duplicate topics (envs 1%nat) again w1 (0 + 1)).
    + cbn [fst snd AlertingHandler.alerts_table AlertingHandler.published
           AlertingHandler.logged].
      repeat split. exists row. split; assumption.
    + assumption.
    + exists row. split.
      * assert (Hin : In row (filter (AlertingHandler.duplicate_filter again
                                 (AlertingHandler.now (envs 1%nat) - Py.hours 1)%Z)
                               (AlertingHandler.alerts_table w1)))
          by (rewrite Hfilter; now left).
        now apply filter_In in Hin.
      * apply duplicate_filter_spec.
        assert (Hin : In row (filter (AlertingHandler.duplicate_filter again
                                 (AlertingHandler.now (envs 1%nat) - Py.hours 1)%Z)
                               (AlertingHandler.alerts_table w1)))
          by (rewrite Hfilter; now left).
        now apply filter_In in Hin.
Qed.

Lemma duplicate_candidate_discarded_witness :
  AlertingHandler.process_alert scenario_topics (quiet scenario_later)
    (daily_warning scenario_later) (world_of [daily_warning scenario_now], 0%nat)
  = (AlertingHandler.logged
       (AlertingHandler.SkippedDuplicate
          (AlertingHandler.alert_id (daily_warning scenario_later)))
       (world_of [daily_warning scenario_now]),
     0%nat)
  /\ let once :=
       AlertingHandler.process_alerts scenario_topics scenario_envs
         [daily_warning scenario_now] empty_world in
     let twice :=
       AlertingHandler.process_alerts scenario_topics scenario_envs
         [daily_warning scenario_now; daily_warning scenario_later] empty_world in
     snd twice = 1%nat
     /\ AlertingHandler.alerts_table (fst twice)
        = AlertingHandler.alerts_table (fst once)
     /\ AlertingHandler.published (fst twice)
        = AlertingHandler.published (fst once)
     /\ exists row,
          stored_as (daily_warning scenario_now) row
          /\ filter (AlertingHandler.duplicate_filter
                       (daily_warning scenario_later)
                       (AlertingHandler.now (scenario_envs 1%nat) - Py.hours 1)%Z)
               (AlertingHandler.alerts_table (fst twice)) = [row].
Proof.
  split.
  - apply (proj1 (duplicate_candidate_discarded scenario_topics
                    (fun _ => quiet scenario_later)
                    (daily_warning scenario_later) (daily_warning scenario_later)
                    (world_of [daily_warning scenario_now]) 0%nat eq_refl)).
    exists (daily_warning scenario_now).
    split; [now left|]. repeat split.
  - apply (proj2 (duplicate_candidate_discarded scenario_topics scenario_envs
                    (daily_warning scenario_now) (daily_warning scenario_later)
                    empty_world 0%nat eq_refl)).
    + intros row [].
    + reflexivity.
    + reflexivity.
    + reflexivity.
    + repeat split.
    + vm_compute. discriminate.
    + reflexivity.
Defined.

(** C1 as stated fails when the duplicate scan raises: the table holds an
    active alert of the same subject created a quarter of an hour before, and
    the candidate is stored next to it, published and counted. *)
Lemma duplicate_stored_when_scan_fails :
  let env := scan_down scenario_later in
  let state :=
    AlertingHandler.process_alert scenario_topics env
      (daily_warning scenario_later)
      (world_of [daily_warning scenario_now], 0%nat) in
  recent_active_duplicate (daily_warning scenario_later)
    (AlertingHandler.now env) (daily_warning scenario_now)
  /\ AlertingHandler.alerts_table (fst state)
     = [daily_warning scenario_now;
        AlertingHandler.mark_sent (daily_warning scenario_later)]
  /\ List.length (AlertingHandler.published (fst state)) = 1%nat
  /\ snd state = 1%nat.
Proof.
  cbn zeta. split; [repeat split|].
  split; [vm_compute; reflexivity|]. split; reflexivity.
Qed.

Section Isolation.

Import AlertingHandler.

Variable topics : Topics.

Lemma put_item_other (item old : Alert) (table : list Alert) :
  In old table -> has_key (alert_id item) (timestamp item) old = false ->
  In old (put_item item table).
Proof.
  intros Hin Hkey. induction table as [|row rest IH]; [destruct Hin|].
  cbn [put_item]. destruct Hin as [->|Hin].
  - rewrite Hkey. now left.
  - destruct (has_key _ _ row); right; [assumption|now apply IH].
Qed.

Lemma update_item_other (alert_id : string) (timestamp : Py.Instant)
    (update : Alert -> Alert) (old : Alert) (table : list Alert) :
  In old table -> has_key alert_id timestamp old = false ->
  In old (update_item alert_id timestamp update table).
Proof.
  intros Hin Hkey. unfold update_item. apply in_map_iff.
  exists old. now rewrite Hkey.
Qed.

Lemma update_item_mark_sent (alert : Alert) (table : list Alert) :
  In alert table ->
  In (mark_sent alert)
    (update_item (alert_id alert) (timestamp alert) mark_sent table).
Proof.
  intro Hin. unfold update_item. apply in_map_iff.
  exists alert. now rewrite has_key_refl.
Qed.

(** The turn of a candidate that is taken as new and whose write succeeds:
    the candidate is in the table, rows of other keys stay, the count grows
    by one. *)
Lemma process_alert_stores (env : Env) (alert : Alert) (w : World)
    (count : nat) :
  fst (is_duplicate_alert env alert w) = false -> put_fails env = false ->
  let state := process_alert topics env alert (w, count) in
  snd state = (count + 1)%nat
  /\ (exists row, stored_as alert row /\ In row (alerts_table (fst state)))
  /\ forall old, In old (alerts_table w) ->
       has_key (alert_id alert) (timestamp alert) old = false ->
       In old (alerts_table (fst state)).
Proof.
  intros Hdup Hput. cbn zeta. unfold process_alert.
  assert (Htable : alerts_table (snd (is_duplicate_alert env alert w))
                   = alerts_table w).
  { unfold is_duplicate_alert. destruct (scan_fails env); reflexivity. }
  destruct (is_duplicate_alert env alert w) as [duplicate w1].
  cbn [fst snd] in Hdup, Htable. subst duplicate. cbn [negb].
  unfold store_alert. rewrite Hput. cbn [fst snd alerts_table logged].
  split; [reflexivity|].
  set (stored := logged (StoredAlert (alert_id alert))
                   (mkWorld (put_item alert (alerts_table w1)) (published w1)
                      (log w1))).
  assert (Hnew : In alert (alerts_table stored)) by apply put_item_In.
  assert (Hold : forall old, In old (alerts_table w) ->
                   has_key (alert_id alert) (timestamp alert) old = false ->
                   In old (alerts_table stored)).
  { intros old Hin Hkey. unfold stored. cbn [alerts_table logged].
    rewrite Htable. now apply put_item_other. }
  destruct (send_alert_notification_table topics env alert stored)
    as [Hsame|[_ Hupdated]].
  - rewrite Hsame. split; [exists alert; split; [now left|assumption]|exact Hold].
  - rewrite Hupdated. split.
    + exists (mark_sent alert). split; [now right|].
      now apply update_item_mark_sent.
    + intros old Hin Hkey. apply update_item_other; [now apply Hold|assumption].
Qed.

(** The turn of a candidate whose write raises: only the log changes. *)
Lemma process_alert_store_fails (env : Env) (alert : Alert) (w : World)
    (count : nat) :
  fst (is_duplicate_alert env alert w) = false -> put_fails env = true ->
  let state := process_alert topics env alert (w, count) in
  alerts_table (fst state) = alerts_table w
  /\ published (fst state) = published w
  /\ snd state = count
  /\ exists earlier,
       log (fst state) = (earlier ++ [ErrorProcessing (alert_id alert)])%list.
Proof.
  intros Hdup Hput. cbn zeta. unfold process_alert.
  assert (Hsame : alerts_table (snd (is_duplicate_alert env alert w))
                  = alerts_table w
                  /\ published (snd (is_duplicate_alert env alert w))
                     = published w).
  { unfold is_duplicate_alert. destruct (scan_fails env); split; reflexivity. }
  destruct (is_duplicate_alert env alert w) as [duplicate w1].
  cbn [fst snd] in Hdup, Hsame. subst duplicate. cbn [negb].
  unfold store_alert. rewrite Hput.
  cbn [fst snd alerts_table published log logged].
  destruct Hsame as [-> ->]. repeat split. eexists. reflexivity.
Qed.

(** The turn of a candidate whose notification raises: the alert stays
    stored and counted, nothing is published. *)
Lemma process_alert_publish_fails (env : Env) (alert : Alert) (w : World)
    (count : nat) :
  fst (is_duplicate_alert env alert w) = false -> put_fails env = false ->
  publish_fails env = true ->
  let state := process_alert topics env alert (w, count) in
  In alert (alerts_table (fst state))
  /\ published (fst state) = published w
  /\ snd state = (count + 1)%nat.
Proof.
  intros Hdup Hput Hpublish. cbn zeta. unfold process_alert.
  assert (Hsame : published (snd (is_duplicate_alert env alert w)) = published w).
  { unfold is_duplicate_alert. destruct (scan_fails env); reflexivity. }
  destruct (is_duplicate_alert env alert w) as [duplicate w1].
  cbn [fst snd] in Hdup, Hsame. subst duplicate. cbn [negb].
  unfold store_alert, send_alert_notification. rewrite Hput, Hpublish.
  destruct (String.eqb _ "");
    cbn [fst snd alerts_table published log logged];
    (split; [apply put_item_In|split; [assumption|reflexivity]]).
Qed.

Lemma process_loop_split (envs : nat -> Env) (before after : list Alert)
    (alert : Alert) (state : World * nat) :
  process_loop topics envs (before ++ alert :: after) state
  = process_loop topics (fun i => envs (S (List.length before + i))) after
      (process_alert topics (envs (List.length before)) alert
         (process_loop topics envs before state)).
Proof.
  revert envs state.
  induction before as [|b bs IH]; intros envs state;
    cbn [app process_loop List.length].
  - reflexivity.
  - rewrite IH. reflexivity.
Qed.

End Isolation.

(** C9: whatever happens to one candidate, the candidates after it are
    processed, each in its turn, from the state that candidate left.  A
    write that raises leaves the table, the topic and the count as they were
    and is logged; a notification that raises leaves the alert stored and
    counted.  The count returned is the number of alerts the run stored. *)
Theorem process_alerts_isolated (topics : AlertingHandler.Topics)
    (envs : nat -> AlertingHandler.Env)
    (before after : list AlertingHandler.Alert) (alert : AlertingHandler.Alert)
    (w : AlertingHandler.World) :
  let env := envs (List.length before) in
  let reached := AlertingHandler.process_loop topics envs before (w, 0%nat) in
  let left := AlertingHandler.process_alert topics env alert reached in
  let result :=
    AlertingHandler.process_alerts topics envs (before ++ alert :: after) w in
  result
  = AlertingHandler.process_loop topics
      (fun i => envs (S (List.length before + i))) after left
  /\ (snd result + stored_records (AlertingHandler.log w))%nat
     = stored_records (AlertingHandler.log (fst result))
  /\ (fst (AlertingHandler.is_duplicate_alert env alert (fst reached)) = false ->
      AlertingHandler.put_fails env = true ->
      AlertingHandler.alerts_table (fst left)
      = AlertingHandler.alerts_table (fst reached)
      /\ AlertingHandler.published (fst left)
         = AlertingHandler.published (fst reached)
      /\ snd left = snd reached
      /\ exists earlier,
           AlertingHandler.log (fst left)
           = (earlier
              ++ [AlertingHandler.ErrorProcessing
                    (AlertingHandler.alert_id alert)])%list)
  /\ (fst (AlertingHandler.is_duplicate_alert env alert (fst reached)) = false ->
      AlertingHandler.put_fails env = false ->
      AlertingHandler.publish_fails env = true ->
      In alert (AlertingHandler.alerts_table (fst left))
      /\ AlertingHandler.published (fst left)
         = AlertingHandler.published (fst reached)
      /\ snd left = (snd reached + 1)%nat).
Proof.
  intros env reached left result. split; [|split; [|split]].
  - unfold result. rewrite process_alerts_loop. apply process_loop_split.
  - unfold result. rewrite process_alerts_loop.
    pose proof (process_loop_count topics envs (before ++ alert :: after)
                  (w, 0%nat)) as H.
    cbn zeta in H. cbn [fst snd] in H. lia.
  - intros Hdup Hput. unfold left. destruct reached as [w1 n1].
    apply process_alert_store_fails; assumption.
  - intros Hdup Hput Hpublish. unfold left. destruct reached as [w1 n1].
    apply process_alert_publish_fails; assumption.
Qed.

Lemma process_alerts_isolated_witness :
  let broken (i : nat) :=
    match i with
    | O => put_down scenario_now
    | S _ => quiet scenario_later
    end in
  let first :=
    AlertingHandler.create_alert scenario_now "budget_exceeded" "critical"
      "Overall" "All" 1000 1000 (AlertingHandler.BudgetExceeded 1000 1000 100)
      false in
  let result :=
    AlertingHandler.process_alerts scenario_topics broken
      [first; daily_warning scenario_later] empty_world in
  snd result = 1%nat
  /\ AlertingHandler.alerts_table (fst result)
     = [AlertingHandler.mark_sent (daily_warning scenario_later)].
Proof.
  cbn zeta.
  destruct (process_alerts_isolated scenario_topics
              (fun i => match i with
                        | O => put_down scenario_now
                        | S _ => quiet scenario_later
                        end)
              [] [daily_warning scenario_later]
              (AlertingHandler.create_alert scenario_now "budget_exceeded"
                 "critical" "Overall" "All" 1000 1000
                 (AlertingHandler.BudgetExceeded 1000 1000 100) false)
              empty_world)
    as (Hresult & _ & Hfails & _).
  cbn [app List.length] in Hresult.
  destruct (Hfails eq_refl eq_refl) as (Htable & _ & Hcount & _).
  rewrite Hresult. split; vm_compute; reflexivity.
Defined.

(** C10: when the duplicate scan raises, [is_duplicate_alert] answers
    [False] and logs the error; the candidate is then processed as a new one:
    with a write that succeeds it is stored and counted, it is published on
    its topic when the publication succeeds, and the rows of other keys stay,
    a recent active alert of the same subject among them. *)
Theorem failed_scan_is_not_duplicate (topics : AlertingHandler.Topics)
    (env : AlertingHandler.Env) (alert : AlertingHandler.Alert)
    (w : AlertingHandler.World) (count : nat) :
  AlertingHandler.scan_fails env = true ->
  AlertingHandler.is_duplicate_alert env alert w
  = (false, AlertingHandler.logged AlertingHandler.ErrorCheckingDuplicates w)
  /\ (AlertingHandler.put_fails env = false ->
      let state := AlertingHandler.process_alert topics env alert (w, count) in
      snd state = (count + 1)%nat
      /\ (exists row,
            stored_as alert row
            /\ In row (AlertingHandler.alerts_table (fst state)))
      /\ (forall old,
            In old (AlertingHandler.alerts_table w) ->
            AlertingHandler.has_key (AlertingHandler.alert_id alert)
              (AlertingHandler.timestamp alert) old = false ->
            In old (AlertingHandler.alerts_table (fst state)))
      /\ (AlertingHandler.publish_fails env = false ->
          AlertingHandler.get_topic_for_alert topics alert <> "" ->
          AlertingHandler.published (fst state)
          = (AlertingHandler.published w
             ++ [AlertingHandler.mkNotification
                   (AlertingHandler.get_topic_for_alert topics alert)
                   (AlertingHandler.format_alert_subject alert) alert])%list)).
Proof.
  intro Hscan.
  assert (Hdup : AlertingHandler.is_duplicate_alert env alert w
                 = (false,
                    AlertingHandler.logged
                      AlertingHandler.ErrorCheckingDuplicates w)).
  { unfold AlertingHandler.is_duplicate_alert. now rewrite Hscan. }
  split; [exact Hdup|]. intros Hput state.
  destruct (process_alert_stores topics env alert w count) as (Hc & Hnew & Hold);
    [now rewrite Hdup | assumption |].
  fold state in Hc, Hnew, Hold. repeat split; try assumption.
  intros Hpublish Htopic. unfold state, AlertingHandler.process_alert.
  rewrite Hdup. cbn [negb].
  unfold AlertingHandler.store_alert, AlertingHandler.send_alert_notification.
  rewrite Hput, Hpublish.
  destruct (String.eqb_spec (AlertingHandler.get_topic_for_alert topics alert) "")
    as [Hempty|_]; [contradiction|].
  destruct (AlertingHandler.update_fails env); reflexivity.
Qed.

Lemma failed_scan_is_not_duplicate_witness :
  let state :=
    AlertingHandler.process_alert scenario_topics (scan_down scenario_later)
      (daily_warning scenario_later)
      (world_of [daily_warning scenario_now], 0%nat) in
  snd state = 1%nat
  /\ In (daily_warning scenario_now) (AlertingHandler.alerts_table (fst state))
  /\ exists row,
       stored_as (daily_warning scenario_later) row
       /\ In row (AlertingHandler.alerts_table (fst state)).
Proof.
  cbn zeta.
  destruct (failed_scan_is_not_duplicate scenario_topics
              (scan_down scenario_later) (daily_warning scenario_later)
              (world_of [daily_warning scenario_now]) 0%nat eq_refl)
    as [_ Hstored].
  destruct (Hstored eq_refl) as (Hcount & Hnew & Hold & _).
  split; [exact Hcount|]. split; [|exact Hnew].
  apply Hold; [now left|vm_compute; reflexivity].
Defined.

(** ** The alert lifecycle *)

Section Lifecycle.

Import AlertingHandler NotificationUtils.

Lemma find_update_by_id (alert_id : string) (update : Alert -> Alert)
    (table : list Alert) :
  (forall row, AlertingHandler.alert_id (update row)
               = AlertingHandler.alert_id row) ->
  find (fun row => String.eqb alert_id (AlertingHandler.alert_id row))
    (update_by_id alert_id update table)
  = option_map update
      (find (fun row => String.eqb alert_id (AlertingHandler.alert_id row))
         table).
Proof.
  intro Hid. unfold update_by_id.
  induction table as [|row rest IH]; [reflexivity|]. cbn [map find].
  destruct (String.eqb alert_id (AlertingHandler.alert_id row)) eqn:Hrow.
  - rewrite Hid, Hrow. reflexivity.
  - rewrite Hrow. exact IH.
Qed.

(** An operation whose update succeeds writes its status on the alert. *)
Lemma status_of_apply_operation (env : Env) (alert_id : string)
    (op : Operation) (table : list Alert) :
  update_fails env = false ->
  status_of alert_id (fst (apply_operation env alert_id op table))
  = option_map (fun _ => target op) (status_of alert_id table).
Proof.
  intro Hok. unfold status_of, apply_operation, acknowledge_alert, resolve_alert.
  destruct op as [by_|by_ notes]; rewrite Hok; cbn [fst];
    (rewrite find_update_by_id by reflexivity);
    destruct (find _ table); reflexivity.
Qed.

Lemma apply_operation_fails (env : Env) (alert_id : string) (op : Operation)
    (table : list Alert) :
  update_fails env = true ->
  apply_operation env alert_id op table = (table, false).
Proof.
  intro Hfails. unfold apply_operation, acknowledge_alert, resolve_alert.
  destruct op; now rewrite Hfails.
Qed.

(** No sequence of operations makes an alert active. *)
Lemma active_only_from_active (alert_id : string)
    (ops : list (Env * Operation)) (table : list Alert) :
  status_of alert_id (apply_operations alert_id ops table) = Some Active ->
  status_of alert_id table = Some Active.
Proof.
  revert table. induction ops as [|[env op] rest IH]; intro table;
    cbn [apply_operations]; [trivial|].
  intro H. apply IH in H.
  destruct (update_fails env) eqn:Hupdate.
  - now rewrite apply_operation_fails in H.
  - rewrite status_of_apply_operation in H by assumption.
    destruct (status_of alert_id table); [|discriminate].
    destruct op; discriminate.
Qed.

End Lifecycle.




(** * Further properties of the code *)

(** ** Rounding *)

Lemma round_half_even_comp (x y : Q) :
  x == y -> Py.round_half_even x = Py.round_half_even y.
Proof.
  intro H. unfold Py.round_half_even. rewrite (Qfloor_comp _ _ H).
  set (f := inject_Z (Qfloor y)).
  assert (Hc : Qcompare (x - f) (1 # 2) = Qcompare (y - f) (1 # 2)).
  { apply Qcompare_comp; [|reflexivity]. rewrite H. reflexivity. }
  rewrite Hc. reflexivity.
Qed.

Lemma round_half_even_mono (x y : Q) :
  x <= y -> (Py.round_half_even x <= Py.round_half_even y)%Z.
Proof.
  intro Hxy.
  destruct (Z_le_gt_dec (Py.round_half_even x) (Py.round_half_even y))
    as [|Hgt]; [assumption|exfalso].
  pose proof (round_half_even_near x) as Hx.
  pose proof (round_half_even_near y) as Hy.
  assert (Hz : inject_Z (Py.round_half_even y) + 1
               <= inject_Z (Py.round_half_even x)).
  { change 1 with (inject_Z 1). rewrite <- inject_Z_plus, <- Zle_Qle. lia. }
  assert (Heq : x == y).
  { apply Qabs_Qle_condition in Hx, Hy. lra. }
  rewrite (round_half_even_comp x y Heq) in Hgt. lia.
Qed.

(** [round(x, n)] is monotone. *)
Lemma round_mono (x y : Q) (ndigits : nat) :
  x <= y -> Py.round x ndigits <= Py.round y ndigits.
Proof.
  intro Hxy. unfold Py.round, Qle. cbn [Qnum Qden].
  apply Z.mul_le_mono_nonneg_r; [lia|].
  apply round_half_even_mono.
  apply Qmult_le_compat_r; [assumption|].
  change 0 with (inject_Z 0). rewrite <- Zle_Qle. lia.
Qed.

Lemma round_nonneg (x : Q) (ndigits : nat) :
  0 <= x -> 0 <= Py.round x ndigits.
Proof.
  intro Hx. rewrite <- (round_zero 0 ndigits) by reflexivity.
  now apply round_mono.
Qed.

Lemma round_nonpos (x : Q) (ndigits : nat) :
  x <= 0 -> Py.round x ndigits <= 0.
Proof.
  intro Hx. rewrite <- (round_zero 0 ndigits) by reflexivity.
  now apply round_mono.
Qed.

(** ** The trend analyzer, further *)

Section TrendOutcome.

Import ProcessingHandler.

(** The week-over-week change of a series of exactly seven days raises: the
    days before the last seven are none. *)
Lemma percent_change_of_week (costs : list Q) :
  List.length costs = 7%nat ->
  percent_change_of costs = Py.Raise Py.StatisticsError.
Proof.
  intro Hlen. unfold percent_change_of. rewrite Hlen. cbn [Nat.leb].
  destruct (mean_total (Py.last_n 7 costs)) as [recent ->].
  { intro Hnil. apply (f_equal (@List.length Q)) in Hnil.
    unfold Py.last_n in Hnil. rewrite length_skipn in Hnil. cbn in Hnil. lia. }
  cbn [Py.bind]. unfold Py.drop_last_n. rewrite Hlen. reflexivity.
Qed.

(** What [analyze_cost_trends] computes from, once there are two days. *)
Lemma analyze_cost_trends_steps (cost_data : list CostRecord) :
  (2 <= List.length (daily_costs_of cost_data))%nat ->
  exists costs y_mean,
    List.length costs = List.length (daily_costs_of cost_data)
    /\ Py.mean costs = Py.Ok y_mean
    /\ analyze_cost_trends cost_data
       = (percent_change <- percent_change_of costs ;;
          Py.Ok (Some {|
            trend_direction := direction_of_slope (slope_of costs y_mean);
            daily_change_rate := Py.round (slope_of costs y_mean) 4;
            percent_change_week := Py.round percent_change 2;
            volatility :=
              Py.root_round
                (Py.root_of (Py.sum_sq_dev costs y_mean / Py.len costs)) 2;
            trend_strength := Py.min (Qabs (slope_of costs y_mean) * 10) 100
          |})).
Proof.
  intro H2. unfold analyze_cost_trends.
  destruct (sorted_spec (Py.keys (daily_costs_of cost_data))) as [Hlen Hin].
  unfold Py.keys in Hlen at 2. rewrite length_map in Hlen. rewrite Hlen.
  destruct (Nat.ltb_spec (List.length (daily_costs_of cost_data)) 2) as [|_];
    [lia|].
  destruct (items_of_keys (daily_costs_of cost_data) _ Hin)
    as (costs & -> & Hcl & _).
  rewrite Hlen in Hcl. cbn [Py.bind].
  destruct (mean_total costs) as [y_mean Hm].
  { intros ->. cbn in Hcl. lia. }
  exists costs, y_mean. rewrite Hm. cbn [Py.bind]. repeat split; assumption.
Qed.

Lemma root_round_nonneg (s : Py.Root) (ndigits : nat) :
  0 <= Py.root_round s ndigits.
Proof.
  unfold Py.root_round, Qle. cbn [Qnum Qden].
  pose proof (Z.sqrt_nonneg
                (Qfloor (Py.radicand s
                         * inject_Z (Z.pos (Py.scale ndigits * Py.scale ndigits)))))
    as Hk.
  destruct (Qcompare _ _); [destruct (Z.even _)| |]; lia.
Qed.

End TrendOutcome.

(** X1: the outcome of [analyze_cost_trends] is decided by the number of
    distinct days in the data: the empty result for fewer than two, a
    [StatisticsError] for exactly seven, a trend for every other number. *)
Theorem trend_outcome_by_days (cost_data : list CostRecord) :
  let days := List.length (ProcessingHandler.daily_costs_of cost_data) in
  match ProcessingHandler.analyze_cost_trends cost_data with
  | Py.Ok None => (days < 2)%nat
  | Py.Ok (Some _) => (2 <= days)%nat /\ days <> 7%nat
  | Py.Raise e => days = 7%nat /\ e = Py.StatisticsError
  end.
Proof.
  intro days.
  destruct (Nat.ltb_spec days 2) as [Hlt|Hge].
  - unfold ProcessingHandler.analyze_cost_trends.
    destruct (sorted_spec (Py.keys (ProcessingHandler.daily_costs_of cost_data)))
      as [Hlen _].
    unfold Py.keys in Hlen at 2. rewrite length_map in Hlen. rewrite Hlen.
    fold days. destruct (Nat.ltb_spec days 2); [assumption|lia].
  - destruct (analyze_cost_trends_steps cost_data Hge)
      as (costs & y_mean & Hlen & _ & ->).
    fold days in Hlen.
    destruct (Nat.eq_dec days 7) as [H7|H7].
    + rewrite percent_change_of_week by congruence. cbn [Py.bind]. now split.
    + destruct (percent_change_of_total costs) as [p ->]; [congruence|].
      cbn [Py.bind]. now split.
Qed.

(** X2: in every trend returned, the trend strength lies between 0 and
    100, the volatility is not negative, and the rounded daily change rate
    never contradicts the direction: it is not negative for "increasing",
    not positive for "decreasing", and zero for "stable". *)
Theorem trend_fields_in_range (cost_data : list CostRecord)
    (trend : ProcessingHandler.Trend) :
  ProcessingHandler.analyze_cost_trends cost_data = Py.Ok (Some trend) ->
  0 <= ProcessingHandler.trend_strength trend <= 100
  /\ 0 <= ProcessingHandler.volatility trend
  /\ match ProcessingHandler.trend_direction trend with
     | ProcessingHandler.increasing =>
         0 <= ProcessingHandler.daily_change_rate trend
     | ProcessingHandler.decreasing =>
         ProcessingHandler.daily_change_rate trend <= 0
     | ProcessingHandler.stable =>
         ProcessingHandler.daily_change_rate trend == 0
     end.
Proof.
  intro Htrend.
  assert (H2 : (2 <= List.length (ProcessingHandler.daily_costs_of cost_data))%nat).
  { destruct (Nat.ltb_spec
                (List.length (ProcessingHandler.daily_costs_of cost_data)) 2)
      as [Hlt|]; [|assumption].
    exfalso. unfold ProcessingHandler.analyze_cost_trends in Htrend.
    destruct (sorted_spec (Py.keys (ProcessingHandler.daily_costs_of cost_data)))
      as [Hlen _].
    unfold Py.keys in Hlen at 2. rewrite length_map in Hlen.
    rewrite Hlen in Htrend.
    destruct (Nat.ltb_spec
                (List.length (ProcessingHandler.daily_costs_of cost_data)) 2);
      [discriminate|lia]. }
  destruct (analyze_cost_trends_steps cost_data H2)
    as (costs & y_mean & _ & _ & Heq).
  rewrite Heq in Htrend.
  destruct (ProcessingHandler.percent_change_of costs) as [p|]; [|discriminate].
  cbn [Py.bind] in Htrend. injection Htrend as <-.
  cbn [ProcessingHandler.trend_strength ProcessingHandler.volatility
       ProcessingHandler.trend_direction ProcessingHandler.daily_change_rate].
  set (slope := ProcessingHandler.slope_of costs y_mean).
  split; [|split].
  - unfold Py.min. pose proof (Qabs_nonneg slope) as Habs.
    destruct (Py.Qltb 100 (Qabs slope * 10)) eqn:Hlt.
    + split; [discriminate|apply Qle_refl].
    + apply Qltb_ge in Hlt. split; [lra|assumption].
  - apply root_round_nonneg.
  - destruct (direction_of_slope_sign slope) as (Hinc & Hdec & Hst).
    destruct (ProcessingHandler.direction_of_slope slope).
    + apply round_nonneg. apply Qlt_le_weak. now apply Hinc.
    + apply round_nonpos. apply Qlt_le_weak. now apply Hdec.
    + apply round_zero. now apply Hst.
Qed.

Lemma trend_fields_in_range_witness :
  exists trend,
    ProcessingHandler.analyze_cost_trends flat_eight_days = Py.Ok (Some trend)
    /\ 0 <= ProcessingHandler.trend_strength trend <= 100
    /\ 0 <= ProcessingHandler.volatility trend.
Proof.
  eexists. split; [vm_compute; reflexivity|].
  destruct (trend_fields_in_range flat_eight_days _ eq_refl) as (H1 & H2 & _).
  split; assumption.
Defined.

(** ** The anomaly detector, further *)

Section AnomalyShape.

Lemma sensitivity_threshold_at_least_2 (sensitivity : string) :
  2 <= sensitivity_threshold sensitivity.
Proof.
  unfold sensitivity_threshold.
  destruct (String.eqb sensitivity "low"); [discriminate|].
  destruct (String.eqb sensitivity "medium"); [discriminate|].
  destruct (String.eqb sensitivity "high"); discriminate.
Qed.

(** A z-score above a threshold of at least 2 is above 2. *)
Lemma root_gt_2 (z : Py.Root) (threshold : Q) :
  2 <= threshold -> Py.root_gt z threshold = true -> Py.root_gt z 2 = true.
Proof.
  intros Ht Hz. unfold Py.root_gt in *.
  destruct (Py.Qltb threshold 0) eqn:Hneg.
  - apply Qltb_lt in Hneg. lra.
  - cbn [Py.Qltb]. change (Py.Qltb 2 0) with false. cbn iota.
    apply Qltb_lt in Hz. apply Qltb_lt.
    assert (2 * 2 <= threshold * threshold) by nra. lra.
Qed.

(** What an anomaly of [detect_service_anomalies] says about its service. *)
Lemma service_anomaly_shape (threshold : Q) (service : string)
    (daily_costs : Py.dict Q) (anomaly : ServiceAnomalies.Anomaly) :
  2 <= threshold ->
  ServiceAnomalies.service_anomaly threshold service daily_costs
  = Py.Ok (Some anomaly) ->
  ServiceAnomalies.service anomaly = service
  /\ (7 <= List.length daily_costs)%nat
  /\ Py.max (Py.keys daily_costs) = Some (ServiceAnomalies.date anomaly)
  /\ (ServiceAnomalies.severity anomaly = "critical"
      \/ ServiceAnomalies.severity anomaly = "warning").
Proof.
  intros Ht. unfold ServiceAnomalies.service_anomaly.
  destruct (Nat.ltb_spec (List.length (Py.values daily_costs)) 7) as [|Hlen];
    [discriminate|].
  unfold Py.values in Hlen. rewrite length_map in Hlen.
  destruct (Py.mean _) as [m|]; [|discriminate].
  destruct (stdev_or_zero _) as [sd|]; [|discriminate]. cbn [Py.bind].
  destruct (Py.max (Py.keys daily_costs)) as [latest|]; [|discriminate].
  destruct (Py.get latest daily_costs) as [cost|]; [|discriminate].
  destruct (Py.root_pos sd); [|discriminate].
  destruct (Py.root_gt _ threshold) eqn:Hz; [|discriminate].
  intros [= <-].
  cbn [ServiceAnomalies.service ServiceAnomalies.date ServiceAnomalies.severity].
  repeat split; try assumption.
  rewrite (root_gt_2 _ _ Ht Hz).
  destruct (Py.root_gt _ 3); [now left|now right].
Qed.

End AnomalyShape.

Lemma detect_loop_distinct (threshold : Q) (items : Py.dict (Py.dict Q))
    (anomalies : list ServiceAnomalies.Anomaly) :
  NoDup (Py.keys items) ->
  exists found,
    ServiceAnomalies.detect_loop threshold items anomalies
    = Py.Ok (anomalies ++ found)%list
    /\ NoDup (map ServiceAnomalies.service found)
    /\ (forall a, In a found -> In (ServiceAnomalies.service a) (Py.keys items)).
Proof.
  revert anomalies.
  induction items as [|[service daily_costs] rest IH]; intros anomalies Hnd;
    cbn [ServiceAnomalies.detect_loop].
  - exists []. rewrite app_nil_r. repeat split; [constructor|intros ? []].
  - cbn [Py.keys map fst] in Hnd. inversion Hnd as [|? ? Hnotin Hnd']; subst.
    destruct (service_anomaly_cases threshold service daily_costs)
      as [Hnone|(anomaly & sd & Hsome & Hservice & _)].
    + rewrite Hnone. cbn [Py.bind].
      destruct (IH anomalies Hnd') as (found & Heq & Hdistinct & Hkeys).
      exists found. repeat split; try assumption.
      intros a Ha. right. now apply Hkeys.
    + rewrite Hsome. cbn [Py.bind].
      destruct (IH (anomalies ++ [anomaly])%list Hnd')
        as (found & Heq & Hdistinct & Hkeys).
      exists (anomaly :: found). repeat split.
      * rewrite Heq, <- app_assoc. reflexivity.
      * cbn [map]. constructor; [|assumption].
        rewrite Hservice. intro Hin. apply in_map_iff in Hin.
        destruct Hin as (a & Ha & Hin). apply Hnotin.
        rewrite <- Ha. now apply Hkeys.
      * intros a [<-|Ha]; [left; now rewrite Hservice|right; now apply Hkeys].
Qed.

(** X3: [detect_service_anomalies] never raises.  It reports at most one
    anomaly per service, only for a service with at least seven days of
    data, dated at the latest day of that service, and with severity
    "critical" or "warning": every sensitivity threshold is at least 2, so
    the severity "info" is never given. *)
Theorem service_anomalies_shape (cost_data : list CostRecord)
    (sensitivity : string) :
  exists anomalies,
    ServiceAnomalies.detect_service_anomalies cost_data sensitivity
    = Py.Ok anomalies
    /\ NoDup (map ServiceAnomalies.service anomalies)
    /\ Forall
         (fun a =>
            exists daily_costs,
              Py.get (ServiceAnomalies.service a) (service_daily_costs cost_data)
              = Some daily_costs
              /\ (7 <= List.length daily_costs)%nat
              /\ Py.max (Py.keys daily_costs) = Some (ServiceAnomalies.date a)
              /\ (ServiceAnomalies.severity a = "critical"
                  \/ ServiceAnomalies.severity a = "warning"))
         anomalies.
Proof.
  unfold ServiceAnomalies.detect_service_anomalies.
  pose proof (NoDup_service_daily_costs cost_data) as Hnd.
  destruct (detect_loop_distinct (sensitivity_threshold sensitivity)
              (service_daily_costs cost_data) [] Hnd)
    as (found & Heq & Hdistinct & _).
  destruct (detect_loop_spec (sensitivity_threshold sensitivity)
              (service_daily_costs cost_data) []) as (found' & Heq' & Hfound).
  rewrite Heq in Heq'. injection Heq' as <-.
  exists found. cbn [app] in Heq. repeat split; try assumption.
  apply Forall_forall. intros a Ha.
  destruct (Hfound a Ha) as (daily_costs & Hin & Hsome).
  destruct (service_anomaly_shape _ _ _ _
              (sensitivity_threshold_at_least_2 sensitivity) Hsome)
    as (_ & Hlen & Hmax & Hseverity).
  exists daily_costs. repeat split; try assumption.
  now apply In_get.
Qed.

Lemma In_set {V : Type} (k : string) (v : V) (d : Py.dict V)
    (entry : string * V) :
  In entry (Py.set k v d) -> entry = (k, v) \/ In entry d.
Proof.
  induction d as [|[k' v'] d IH]; cbn [Py.set].
  - intros [<-|[]]. now left.
  - destruct (String.eqb_spec k k') as [->|Hne].
    + intros [<-|Hin]; [now left|right; now right].
    + intros [<-|Hin]; [right; now left|].
      destruct (IH Hin) as [->|H]; [now left|right; now right].
Qed.

Lemma NoDup_add_daily (date : string) (cost : Q) (daily : Py.dict Q) :
  NoDup (Py.keys daily) -> NoDup (Py.keys (add_daily date cost daily)).
Proof.
  intro Hnd. unfold add_daily. apply NoDup_keys_set.
  destruct (Py.get date daily); [assumption|now apply NoDup_keys_set].
Qed.

(** The days of every service are distinct. *)
Lemma NoDup_daily_costs_of_service (cost_data : list CostRecord)
    (service : string) (daily_costs : Py.dict Q) :
  In (service, daily_costs) (service_daily_costs cost_data) ->
  NoDup (Py.keys daily_costs).
Proof.
  unfold service_daily_costs.
  assert (H : forall acc,
             (forall s d, In (s, d) acc -> NoDup (Py.keys d)) ->
             forall s d, In (s, d) (fold_left add_service_daily cost_data acc) ->
                         NoDup (Py.keys d)).
  { induction cost_data as [|r rs IH]; intros acc Hacc; cbn [fold_left];
      [assumption|].
    apply IH. intros s d Hin. unfold add_service_daily in Hin.
    set (acc' := match Py.get (service_of r) acc with
                 | Some _ => acc
                 | None => Py.set (service_of r) [] acc
                 end) in *.
    assert (Hacc' : forall s' d', In (s', d') acc' -> NoDup (Py.keys d')).
    { intros s' d' Hin'. unfold acc' in Hin'.
      destruct (Py.get (service_of r) acc); [now apply (Hacc s')|].
      apply In_set in Hin'. destruct Hin' as [[= _ ->]|Hin'];
        [constructor|now apply (Hacc s')]. }
    apply In_set in Hin. destruct Hin as [[= _ ->]|Hin];
      [|now apply (Hacc' s)].
    apply NoDup_add_daily.
    assert (Hdefault : forall acc0 : Py.dict (Py.dict Q),
               (forall s' d', In (s', d') acc0 -> NoDup (Py.keys d')) ->
               NoDup (Py.keys (Py.get_default (service_of r) acc0 []))).
    { intros acc0 H0. unfold Py.get_default.
      destruct (Py.get (service_of r) acc0) as [d'|] eqn:Hget; [|constructor].
      apply get_In in Hget. now apply (H0 (service_of r)). }
    apply Hdefault. exact Hacc'. }
  apply H. intros s d [].
Qed.

Section CostAnomalies.

Import AnalysisUtils.

Lemma day_anomalies_shape (service : string) (threshold cost_mean : Q)
    (cost_std : Py.Root) (days : Py.dict Q) (a : Anomaly) :
  2 <= threshold ->
  In a (day_anomalies service threshold cost_mean cost_std days) ->
  exists day_cost,
    In (date a, day_cost) days
    /\ cost a = Py.round day_cost 2
    /\ expected_cost a = Py.round cost_mean 2
    /\ (severity a = "high" \/ severity a = "medium")
    /\ type a = direction_of day_cost cost_mean.
Proof.
  intro Ht. induction days as [|[day day_cost] rest IH];
    cbn [day_anomalies]; [intros []|].
  assert (Hrest : In a (day_anomalies service threshold cost_mean cost_std rest) ->
                  exists c, In (date a, c) ((day, day_cost) :: rest)
                            /\ cost a = Py.round c 2
                            /\ expected_cost a = Py.round cost_mean 2
                            /\ (severity a = "high" \/ severity a = "medium")
                            /\ type a = direction_of c cost_mean).
  { intro Hin. destruct (IH Hin) as (c & Hc & H). exists c.
    split; [now right|assumption]. }
  destruct (Py.root_pos cost_std); [|assumption].
  destruct (Py.root_gt _ threshold) eqn:Hz; [|assumption].
  intros [<-|Hin]; [|now apply Hrest].
  exists day_cost. cbn [date cost expected_cost severity type].
  repeat split; [now left|].
  rewrite (root_gt_2 _ _ Ht Hz).
  destruct (Py.root_gt _ 3); [now left|now right].
Qed.

Lemma insert_by_deviation_perm (a : Anomaly) (sorted : list Anomaly) :
  Permutation (insert_by_deviation a sorted) (a :: sorted).
Proof.
  induction sorted as [|b rest IH]; cbn [insert_by_deviation]; [reflexivity|].
  destruct (Py.Qltb _ _); [reflexivity|]. rewrite IH. apply perm_swap.
Qed.

Lemma sorted_by_deviation_perm (anomalies : list Anomaly) :
  Permutation (sorted_by_deviation anomalies) anomalies.
Proof.
  unfold sorted_by_deviation.
  assert (H : forall acc,
             Permutation
               (fold_left (fun acc a => insert_by_deviation a acc) anomalies acc)
               (acc ++ anomalies)).
  { induction anomalies as [|a rest IH]; intro acc; cbn [fold_left].
    - now rewrite app_nil_r.
    - rewrite IH, insert_by_deviation_perm. apply Permutation_middle. }
  apply (H []).
Qed.

Lemma insert_by_deviation_sorted (a : Anomaly) (sorted : list Anomaly) :
  StronglySorted deviation_at_least sorted ->
  StronglySorted deviation_at_least (insert_by_deviation a sorted).
Proof.
  induction 1 as [|b rest Hrest IH Hb]; cbn [insert_by_deviation].
  - repeat constructor.
  - destruct (Py.Qltb (deviation b) (deviation a)) eqn:Hlt.
    + apply Qltb_lt in Hlt. constructor; [now constructor|].
      constructor; [unfold deviation_at_least; lra|].
      rewrite Forall_forall in Hb |- *. intros c Hc.
      specialize (Hb c Hc). unfold deviation_at_least in *. lra.
    + apply Qltb_ge in Hlt. constructor; [assumption|].
      rewrite Forall_forall in Hb |- *. intros c Hc.
      apply (Permutation_in _ (insert_by_deviation_perm a rest)) in Hc.
      destruct Hc as [<-|Hc]; [exact Hlt|now apply Hb].
Qed.

Lemma sorted_by_deviation_sorted (anomalies : list Anomaly) :
  StronglySorted deviation_at_least (sorted_by_deviation anomalies).
Proof.
  unfold sorted_by_deviation.
  assert (H : forall acc, StronglySorted deviation_at_least acc ->
             StronglySorted deviation_at_least
               (fold_left (fun acc a => insert_by_deviation a acc) anomalies acc)).
  { induction anomalies as [|a rest IH]; intros acc Hacc; cbn [fold_left];
      [assumption|].
    apply IH. now apply insert_by_deviation_sorted. }
  apply H. constructor.
Qed.

(** The loop over the services, with what each anomaly found comes from. *)
Lemma analysis_detect_loop_shape (threshold : Q) (items : Py.dict (Py.dict Q))
    (anomalies : list Anomaly) :
  2 <= threshold ->
  exists found,
    detect_loop threshold items anomalies = Py.Ok (anomalies ++ found)%list
    /\ forall a, In a found ->
         exists daily_costs day_cost cost_mean,
           In (service a, daily_costs) items
           /\ (7 <= List.length daily_costs)%nat
           /\ Py.mean (Py.values daily_costs) = Py.Ok cost_mean
           /\ In (date a, day_cost) daily_costs
           /\ cost a = Py.round day_cost 2
           /\ expected_cost a = Py.round cost_mean 2
           /\ (severity a = "high" \/ severity a = "medium")
           /\ type a = direction_of day_cost cost_mean.
Proof.
  intro Ht. revert anomalies.
  induction items as [|[service daily_costs] rest IH]; intro anomalies;
    cbn [detect_loop].
  - exists []. rewrite app_nil_r. split; [reflexivity|intros ? []].
  - assert (Hhere : exists here,
               service_anomalies threshold service daily_costs = Py.Ok here
               /\ forall a, In a here ->
                    exists day_cost cost_mean,
                      AnalysisUtils.service a = service
                      /\ (7 <= List.length daily_costs)%nat
                      /\ Py.mean (Py.values daily_costs) = Py.Ok cost_mean
                      /\ In (date a, day_cost) daily_costs
                      /\ cost a = Py.round day_cost 2
                      /\ expected_cost a = Py.round cost_mean 2
                      /\ (severity a = "high" \/ severity a = "medium")
                      /\ type a = direction_of day_cost cost_mean).
    { unfold service_anomalies.
      destruct (Nat.ltb_spec (List.length (Py.values daily_costs)) 7) as [|Hlen].
      - exists []. split; [reflexivity|intros ? []].
      - unfold Py.values in Hlen at 1. rewrite length_map in Hlen.
        destruct (mean_total (Py.values daily_costs)) as [m Hm].
        { destruct daily_costs; [cbn in Hlen; lia|discriminate]. }
        rewrite Hm.
        destruct (stdev_or_zero_total (Py.values daily_costs)) as [sd ->].
        cbn [Py.bind]. eexists. split; [reflexivity|].
        intros a Ha.
        destruct (day_anomalies_spec _ _ _ _ _ _ Ha) as [Hs _].
        destruct (day_anomalies_shape _ _ _ _ _ _ Ht Ha)
          as (day_cost & Hin & Hrest).
        exists day_cost, m. repeat split; try assumption; apply Hrest. }
    destruct Hhere as (here & -> & Hhere). cbn [Py.bind].
    destruct (IH (anomalies ++ here)%list) as (found & Heq & Hfound).
    exists (here ++ found)%list. split.
    + rewrite Heq, <- app_assoc. reflexivity.
    + intros a Ha. apply in_app_or in Ha as [Ha|Ha].
      * destruct (Hhere a Ha) as (day_cost & m & Hs & Hrest).
        exists daily_costs, day_cost, m. rewrite Hs.
        split; [now left|exact Hrest].
      * destruct (Hfound a Ha) as (d & day_cost & m & Hin & Hrest).
        exists d, day_cost, m. split; [now right|exact Hrest].
Qed.

End CostAnomalies.


(** ** The evaluators, further *)

Section ServiceThresholds.

Import AlertingHandler.

Lemma get_default_set_same {V : Type} (k : string) (v default : V)
    (d : Py.dict V) :
  Py.get_default k (Py.set k v d) default = v.
Proof. unfold Py.get_default. now rewrite get_set_same. Qed.

Lemma get_default_set_other {V : Type} (k k' : string) (v default : V)
    (d : Py.dict V) :
  k <> k' -> Py.get_default k (Py.set k' v d) default = Py.get_default k d default.
Proof. intro H. unfold Py.get_default. now rewrite get_set_other. Qed.

(** The cost summed for a service is the sum of the costs of its records. *)
Lemma service_costs_total (service : string) (daily_costs : list CostRecord) :
  Py.get_default service (service_costs_of daily_costs) 0
  == Py.sum (map cost_of (records_of_service service daily_costs)).
Proof.
  unfold service_costs_of.
  assert (H : forall acc,
             Py.get_default service (fold_left add_service_cost daily_costs acc) 0
             == Py.get_default service acc 0
                + Py.sum (map cost_of (records_of_service service daily_costs))).
  { induction daily_costs as [|r rs IH]; intro acc;
      cbn [fold_left records_of_service filter].
    - unfold Py.sum. cbn. ring.
    - rewrite IH. unfold add_service_cost.
      fold (records_of_service service rs).
      destruct (String.eqb_spec (service_of r) service) as [->|Hne].
      + rewrite get_default_set_same. cbn [map]. rewrite sum_cons. ring.
      + rewrite get_default_set_other by congruence. reflexivity. }
  rewrite H. unfold Py.get_default. cbn. ring.
Qed.

Lemma service_alerts_In (now : Py.Instant) (test_mode : bool)
    (service_thresholds : Py.dict (Py.dict Q)) (service_costs : Py.dict Q)
    (a : Alert) :
  In a (service_alerts now test_mode service_thresholds service_costs) <->
  exists service cost limits limit,
    In (service, cost) service_costs
    /\ Py.get service service_thresholds = Some limits
    /\ Py.get "daily" limits = Some limit
    /\ ~ limit == 0 /\ limit < cost
    /\ a = create_alert now "service_threshold_breach" "warning" service "All"
             cost limit (ServiceExceeded service cost limit) test_mode.
Proof.
  induction service_costs as [|[service cost] rest IH]; cbn [service_alerts].
  - split; [intros []|intros (? & ? & ? & ? & [] & _)].
  - assert (Hskip :
      (forall limits limit,
          Py.get service service_thresholds = Some limits ->
          Py.get "daily" limits = Some limit ->
          ~ (~ limit == 0 /\ limit < cost)) ->
      (In a (service_alerts now test_mode service_thresholds rest) <->
       exists service0 cost0 limits limit,
         In (service0, cost0) ((service, cost) :: rest)
         /\ Py.get service0 service_thresholds = Some limits
         /\ Py.get "daily" limits = Some limit
         /\ ~ limit == 0 /\ limit < cost0
         /\ a = create_alert now "service_threshold_breach" "warning" service0
                  "All" cost0 limit (ServiceExceeded service0 cost0 limit)
                  test_mode)).
    { intro Hno. rewrite IH. split.
      - intros (s & c & ls & l & Hin & H). exists s, c, ls, l.
        split; [now right|exact H].
      - intros (s & c & ls & l & [[= <- <-]|Hin] & Hls & Hl & Hnz & Hlt & Ha).
        + destruct (Hno ls l Hls Hl). now split.
        + exists s, c, ls, l. repeat (split; [assumption|]). assumption. }
    destruct (Py.get service service_thresholds) as [limits|] eqn:Hlimits;
      [|apply Hskip; intros; discriminate].
    destruct (Py.get "daily" limits) as [limit|] eqn:Hlimit;
      [|apply Hskip; intros ls l [= <-] Hl; congruence].
    destruct (negb (Qeq_bool limit 0) && Py.Qgtb cost limit) eqn:Hfire.
    + apply andb_true_iff in Hfire. destruct Hfire as [Hnz Hgt].
      apply negb_true_iff in Hnz. apply Qeq_bool_neq in Hnz.
      apply Qgtb_gt in Hgt. cbn [In]. rewrite IH. split.
      * intros [<-|(s & c & ls & l & Hin & H)].
        -- exists service, cost, limits, limit.
           repeat (split; [(now left) || assumption|]). reflexivity.
        -- exists s, c, ls, l. split; [now right|exact H].
      * intros (s & c & ls & l & [[= <- <-]|Hin] & Hls & Hl & Hnotz & Hlt & Ha).
        -- left. rewrite Hlimits in Hls. injection Hls as <-.
           rewrite Hlimit in Hl. injection Hl as <-. now symmetry.
        -- right. exists s, c, ls, l. repeat (split; [assumption|]). assumption.
    + apply Hskip. intros ls l [= <-] Hl [Hnz Hlt].
      rewrite Hlimit in Hl. injection Hl as <-.
      apply andb_false_iff in Hfire. destruct Hfire as [Hz|Hle].
      * apply negb_false_iff, Qeq_bool_iff in Hz. contradiction.
      * apply Qgtb_le in Hle. lra.
Qed.

Lemma overall_alerts_types (now : Py.Instant) (test_mode : bool) (total : Q)
    (daily_thresholds : Py.dict Q) :
  Forall (fun a => alert_type a = "threshold_breach" /\ service a = "Overall"
                   /\ fresh_candidate now a)
    (overall_alerts now test_mode total daily_thresholds).
Proof.
  apply Forall_forall. intros a Ha. apply overall_alerts_In in Ha.
  destruct Ha as (s & l & _ & _ & ->). repeat split.
Qed.

Lemma service_alerts_types (now : Py.Instant) (test_mode : bool)
    (service_thresholds : Py.dict (Py.dict Q)) (service_costs : Py.dict Q) :
  Forall (fun a => alert_type a = "service_threshold_breach"
                   /\ severity a = "warning" /\ fresh_candidate now a)
    (service_alerts now test_mode service_thresholds service_costs).
Proof.
  apply Forall_forall. intros a Ha. apply service_alerts_In in Ha.
  destruct Ha as (s & c & ls & l & _ & _ & _ & _ & _ & ->). repeat split.
Qed.

End ServiceThresholds.


Section Candidates.

Import AlertingHandler.

Lemma checkpoint_alerts_cases (now : Py.Instant) (test_mode : bool)
    (total limit : Q) :
  checkpoint_alerts now test_mode total limit = []
  \/ (80 <= total / limit * 100
      /\ exists a, checkpoint_alerts now test_mode total limit = [a]).
Proof.
  unfold checkpoint_alerts.
  destruct (Py.Qgeb _ 100) eqn:H100; [|destruct (Py.Qgeb _ 80) eqn:H80].
  - right. apply Qgeb_ge in H100. split; [lra|eauto].
  - right. apply Qgeb_ge in H80. split; [assumption|eauto].
  - now left.
Qed.

(** The outcomes of the budget evaluator. *)
Lemma check_budget_alerts_cases (now : Py.Instant)
    (response : Py.result (option BudgetConfig))
    (monthly_costs : list CostRecord) (test_mode : bool) :
  check_budget_alerts now response monthly_costs test_mode = []
  \/ exists budget_config budget limit total,
       response = Py.Ok (Some budget_config)
       /\ overall_budget budget_config = Some budget
       /\ monthly_limit budget = Some limit
       /\ (forall d, limit <> Py.PyDecimal d)
       /\ ~ Py.value limit == 0
       /\ total = Py.value (Py.sum_floats (map cost_of monthly_costs))
       /\ 80 <= total / Py.value limit * 100
       /\ check_budget_alerts now response monthly_costs test_mode
          = checkpoint_alerts now test_mode total (Py.value limit)
       /\ exists a, checkpoint_alerts now test_mode total (Py.value limit) = [a].
Proof.
  destruct response as [[budget_config|]|e]; [|now left..].
  destruct (overall_budget budget_config) as [budget|] eqn:Hbudget;
    [|left; unfold check_budget_alerts, budget_alerts; now rewrite Hbudget].
  destruct (monthly_limit budget) as [limit|] eqn:Hlimit;
    [|left; unfold check_budget_alerts, budget_alerts;
      now rewrite Hbudget, Hlimit].
  destruct (Qeq_bool (Py.value limit) 0) eqn:Hzero.
  { left. unfold check_budget_alerts, budget_alerts.
    rewrite Hbudget, Hlimit. unfold Py.truthy. now rewrite Hzero. }
  apply Qeq_bool_neq in Hzero.
  assert (Hsame : check_budget_alerts now (Py.Ok (Some budget_config))
                    monthly_costs test_mode
                  = check_budget_alerts now (budget_of limit) monthly_costs
                      test_mode).
  { unfold check_budget_alerts, budget_of, budget_alerts.
    cbn [overall_budget monthly_limit]. now rewrite Hbudget, Hlimit. }
  assert (Husable : (forall d, limit <> Py.PyDecimal d) ->
            check_budget_alerts now (Py.Ok (Some budget_config)) monthly_costs
              test_mode = []
            \/ exists budget_config0 budget0 limit0 total,
                 Py.Ok (Some budget_config) = Py.Ok (Some budget_config0)
                 /\ overall_budget budget_config0 = Some budget0
                 /\ monthly_limit budget0 = Some limit0
                 /\ (forall d, limit0 <> Py.PyDecimal d)
                 /\ ~ Py.value limit0 == 0
                 /\ total = Py.value (Py.sum_floats (map cost_of monthly_costs))
                 /\ 80 <= total / Py.value limit0 * 100
                 /\ check_budget_alerts now (Py.Ok (Some budget_config))
                      monthly_costs test_mode
                    = checkpoint_alerts now test_mode total (Py.value limit0)
                 /\ exists a,
                      checkpoint_alerts now test_mode total (Py.value limit0)
                      = [a]).
  { intro Hkind. rewrite Hsame, (budget_checkpoints now test_mode limit)
      by assumption.
    destruct (checkpoint_alerts_cases now test_mode
                (Py.value (Py.sum_floats (map cost_of monthly_costs)))
                (Py.value limit)) as [Hnone|[H80 Ha]]; [now left|].
    right.
    exists budget_config, budget, limit,
      (Py.value (Py.sum_floats (map cost_of monthly_costs))).
    repeat (split; [assumption || reflexivity|]). exact Ha. }
  destruct limit as [l|l|l]; [apply Husable; discriminate..|].
  left. rewrite Hsame. unfold check_budget_alerts, budget_of, budget_alerts.
  cbn [overall_budget monthly_limit].
  destruct (Py.truthy (Py.PyDecimal l)); [|reflexivity].
  unfold Py.sum_floats. destruct (map cost_of monthly_costs) as [|c cs];
    [|reflexivity].
  cbn [Py.truediv Py.value Py.bind Py.mul].
  assert (Hpct : inject_Z 0 / l * inject_Z 100 == 0)
    by (unfold Qdiv; change (inject_Z 0) with 0; ring).
  assert (H100 : Py.Qgeb (inject_Z 0 / l * inject_Z 100) 100 = false)
    by (apply Qgeb_lt; rewrite Hpct; reflexivity).
  assert (H80 : Py.Qgeb (inject_Z 0 / l * inject_Z 100) 80 = false)
    by (apply Qgeb_lt; rewrite Hpct; reflexivity).
  now rewrite H100, H80.
Qed.

Lemma checkpoint_alerts_types (now : Py.Instant) (test_mode : bool)
    (total limit : Q) :
  Forall (fun a =>
            ((alert_type a = "budget_exceeded" /\ severity a = "critical")
             \/ (alert_type a = "budget_warning" /\ severity a = "warning"))
            /\ service a = "Overall" /\ fresh_candidate now a)
    (checkpoint_alerts now test_mode total limit).
Proof.
  unfold checkpoint_alerts.
  destruct (Py.Qgeb _ 100); [|destruct (Py.Qgeb _ 80)].
  - constructor; [|constructor].
    split; [left; split; reflexivity|]. repeat split.
  - constructor; [|constructor].
    split; [right; split; reflexivity|]. repeat split.
  - constructor.
Qed.

End Candidates.

(** X6: every candidate the three evaluators emit is a fresh alert: active,
    not acknowledged, not resolved, not notified, stamped with the time of
    the evaluation and with region "All".  The candidates of the threshold
    evaluator go to the alerts topic, those of the anomaly evaluator, all of
    type anomaly_detection, to the anomalies topic, and those of the budget
    evaluator, all for the service "Overall", to the budget topic. *)
Theorem candidates_fresh_and_routed (topics : AlertingHandler.Topics)
    (now : Py.Instant) (config : AlertingHandler.Config)
    (budget_response : Py.result (option AlertingHandler.BudgetConfig))
    (daily_costs cost_data monthly_costs : list CostRecord) (test_mode : bool) :
  Forall (fun a =>
            fresh_candidate now a
            /\ AlertingHandler.get_topic_for_alert topics a
               = AlertingHandler.ALERTS_TOPIC_ARN topics)
    (AlertingHandler.check_threshold_alerts now config daily_costs test_mode)
  /\ Forall (fun a =>
               fresh_candidate now a
               /\ AlertingHandler.alert_type a = "anomaly_detection"
               /\ AlertingHandler.get_topic_for_alert topics a
                  = AlertingHandler.ANOMALIES_TOPIC_ARN topics)
       (AlertingHandler.check_cost_anomalies now config cost_data test_mode)
  /\ Forall (fun a =>
               fresh_candidate now a
               /\ AlertingHandler.service a = "Overall"
               /\ AlertingHandler.get_topic_for_alert topics a
                  = AlertingHandler.BUDGET_TOPIC_ARN topics)
       (AlertingHandler.check_budget_alerts now budget_response monthly_costs
          test_mode).
Proof.
  split; [|split].
  - unfold AlertingHandler.check_threshold_alerts. apply Forall_app. split.
    + eapply Forall_impl; [|apply overall_alerts_types].
      cbn beta. intros a (Htype & _ & Hfresh). split; [exact Hfresh|].
      unfold AlertingHandler.get_topic_for_alert. now rewrite Htype.
    + eapply Forall_impl; [|apply service_alerts_types].
      cbn beta. intros a (Htype & _ & Hfresh). split; [exact Hfresh|].
      unfold AlertingHandler.get_topic_for_alert. now rewrite Htype.
  - unfold AlertingHandler.check_cost_anomalies.
    destruct (negb _); [constructor|].
    destruct (ServiceAnomalies.detect_service_anomalies _ _) as [anomalies|];
      [|constructor].
    apply Forall_map, Forall_forall. intros anomaly _. repeat split.
  - destruct (check_budget_alerts_cases now budget_response monthly_costs
                test_mode)
      as [->|(bc & b & limit & total & _ & _ & _ & _ & _ & _ & _ & -> & _)];
      [constructor|].
    eapply Forall_impl; [|apply checkpoint_alerts_types].
    cbn beta. intros a (Htype & Hservice & Hfresh).
    repeat split; try apply Hfresh; try assumption.
    unfold AlertingHandler.get_topic_for_alert.
    destruct Htype as [[-> _]|[-> _]]; reflexivity.
Qed.



Lemma service_alerts_unconfigured (now : Py.Instant) (test_mode : bool)
    (service_costs : Py.dict Q) :
  AlertingHandler.service_alerts now test_mode [] service_costs = [].
Proof.
  induction service_costs as [|[service cost] rest IH];
    cbn [AlertingHandler.service_alerts Py.get]; [reflexivity|assumption].
Qed.


(** ** Alert processing, further *)

Section RunEffects.

Import AlertingHandler.

Variable topics : Topics.

Lemma put_item_length (item : Alert) (table : list Alert) :
  (List.length table <= List.length (put_item item table)
   <= S (List.length table))%nat.
Proof.
  induction table as [|row rest IH]; cbn [put_item List.length]; [lia|].
  destruct (has_key _ _ row); cbn [List.length]; lia.
Qed.

Lemma put_item_keys (item : Alert) (table : list Alert) :
  incl (row_keys table) (row_keys (put_item item table)).
Proof.
  induction table as [|row rest IH]; cbn [put_item]; [intros ? []|].
  destruct (has_key _ _ row) eqn:Hkey.
  - unfold has_key in Hkey. apply andb_true_iff in Hkey.
    destruct Hkey as [Hid Hts]. apply String.eqb_eq in Hid.
    apply Z.eqb_eq in Hts. unfold row_keys. cbn [map].
    rewrite Hid, Hts. apply incl_refl.
  - unfold row_keys in *. cbn [map]. intros k [<-|Hk]; [now left|].
    right. now apply IH.
Qed.

Lemma update_item_keys (alert_id : string) (timestamp : Py.Instant)
    (table : list Alert) :
  row_keys (update_item alert_id timestamp mark_sent table) = row_keys table.
Proof.
  unfold row_keys, update_item. rewrite map_map. apply map_ext.
  intro row. destruct (has_key alert_id timestamp row); reflexivity.
Qed.

Lemma update_item_length (alert_id : string) (timestamp : Py.Instant)
    (update : Alert -> Alert) (table : list Alert) :
  List.length (update_item alert_id timestamp update table) = List.length table.
Proof. unfold update_item. apply length_map. Qed.

Lemma run_effects_refl (alerts : list Alert) (w w' : World) (count : nat) :
  alerts_table w' = alerts_table w -> published w' = published w ->
  run_effects topics alerts w w' count.
Proof.
  intros Ht Hp. unfold run_effects. rewrite Ht, Hp. repeat split.
  - exists []. rewrite app_nil_r. repeat split; [cbn; lia|constructor].
  - lia.
  - lia.
  - apply incl_refl.
Qed.

(** The notification of a stored alert. *)
Lemma send_alert_notification_effects (env : Env) (alert : Alert) (w : World) :
  run_effects topics [alert] w (send_alert_notification topics env alert w) 1
  /\ List.length (alerts_table (send_alert_notification topics env alert w))
     = List.length (alerts_table w).
Proof.
  unfold send_alert_notification.
  destruct (String.eqb_spec (get_topic_for_alert topics alert) "") as [|Htopic];
    [split; [now apply run_effects_refl|reflexivity]|].
  destruct (publish_fails env);
    [split; [now apply run_effects_refl|reflexivity]|].
  assert (Hsent : Forall (fun note =>
                    In (body note) [alert]
                    /\ topic_arn note = get_topic_for_alert topics (body note)
                    /\ topic_arn note <> "")
                    [mkNotification (get_topic_for_alert topics alert)
                       (format_alert_subject alert) alert]).
  { constructor; [|constructor]. cbn [body topic_arn].
    repeat split; [now left|assumption]. }
  cbv zeta. unfold logged.
  destruct (update_fails env); cbn [alerts_table published log].
  - split; [|reflexivity]. unfold run_effects.
    cbn [alerts_table published]. repeat split.
    + eexists. split; [reflexivity|]. split; [cbn; lia|exact Hsent].
    + lia.
    + lia.
    + apply incl_refl.
  - split; [|apply update_item_length]. unfold run_effects.
    cbn [alerts_table published]. rewrite update_item_length, update_item_keys.
    repeat split.
    + eexists. split; [reflexivity|]. split; [cbn; lia|exact Hsent].
    + lia.
    + lia.
    + apply incl_refl.
Qed.

(** One turn of the loop. *)
Lemma process_alert_effects (env : Env) (alert : Alert) (w : World)
    (count : nat) :
  let state := process_alert topics env alert (w, count) in
  (count <= snd state <= count + 1)%nat
  /\ run_effects topics [alert] w (fst state) (snd state - count).
Proof.
  cbn zeta. unfold process_alert.
  assert (Hdup : alerts_table (snd (is_duplicate_alert env alert w))
                 = alerts_table w
                 /\ published (snd (is_duplicate_alert env alert w))
                    = published w).
  { unfold is_duplicate_alert. destruct (scan_fails env); split; reflexivity. }
  destruct (is_duplicate_alert env alert w) as [duplicate w1].
  cbn [snd] in Hdup. destruct Hdup as [Ht Hp].
  destruct duplicate; cbn [negb fst snd].
  - split; [lia|]. apply run_effects_refl; cbn [logged alerts_table published];
      assumption.
  - unfold store_alert. destruct (put_fails env); cbn [fst snd].
    + split; [lia|]. apply run_effects_refl;
        cbn [logged alerts_table published]; assumption.
    + split; [lia|]. replace (count + 1 - count)%nat with 1%nat by lia.
      set (stored := logged (StoredAlert (alert_id alert))
                       (mkWorld (put_item alert (alerts_table w1))
                          (published w1) (log w1))).
      destruct (send_alert_notification_effects env alert stored)
        as [((sent & Hsent & Hlen & Hall) & _ & _ & Hkeys) Hsame].
      unfold run_effects.
      change (alerts_table (logged ?r ?x)) with (alerts_table x).
      change (published (logged ?r ?x)) with (published x).
      assert (Htable : alerts_table stored = put_item alert (alerts_table w))
        by (unfold stored, logged; cbn [alerts_table]; now rewrite Ht).
      assert (Hpublished : published stored = published w)
        by (unfold stored, logged; cbn [published]; exact Hp).
      rewrite Hsame, Htable. rewrite Htable in Hkeys.
      rewrite Hpublished in Hsent.
      pose proof (put_item_length alert (alerts_table w)) as Hput.
      repeat split.
      * exists sent. repeat split; assumption.
      * lia.
      * lia.
      * eapply incl_tran; [apply put_item_keys|exact Hkeys].
Qed.

Lemma run_effects_trans (before : list Alert) (alert : Alert)
    (w w1 w2 : World) (n1 n2 : nat) :
  run_effects topics [alert] w w1 n1 ->
  run_effects topics before w1 w2 n2 ->
  run_effects topics (alert :: before) w w2 (n1 + n2).
Proof.
  intros ((s1 & Hs1 & Hl1 & Ha1) & Hlo1 & Hhi1 & Hk1)
         ((s2 & Hs2 & Hl2 & Ha2) & Hlo2 & Hhi2 & Hk2).
  unfold run_effects. repeat split.
  - exists (s1 ++ s2)%list. repeat split.
    + rewrite Hs2, Hs1. now rewrite app_assoc.
    + rewrite length_app. lia.
    + apply Forall_app. split.
      * eapply Forall_impl; [|exact Ha1]. cbn beta.
        intros note ([<-|[]] & Htopic). split; [now left|assumption].
      * eapply Forall_impl; [|exact Ha2]. cbn beta.
        intros note (Hin & Htopic). split; [now right|assumption].
  - lia.
  - lia.
  - eapply incl_tran; eassumption.
Qed.

Lemma process_loop_effects (envs : nat -> Env) (alerts : list Alert)
    (w : World) (count : nat) :
  let state := process_loop topics envs alerts (w, count) in
  (count <= snd state <= count + List.length alerts)%nat
  /\ run_effects topics alerts w (fst state) (snd state - count).
Proof.
  revert envs w count.
  induction alerts as [|alert rest IH]; intros envs w count;
    cbn [process_loop List.length].
  - cbn zeta. cbn [fst snd]. split; [lia|]. now apply run_effects_refl.
  - pose proof (process_alert_effects (envs O) alert w count) as Hstep.
    destruct (process_alert topics (envs O) alert (w, count)) as [w1 n1].
    cbn zeta in Hstep. cbn [fst snd] in Hstep. destruct Hstep as [Hn1 He1].
    specialize (IH (fun i => envs (S i)) w1 n1). cbn zeta in *.
    destruct IH as [Hn2 He2]. split; [lia|].
    set (final := process_loop topics (fun i => envs (S i)) rest (w1, n1)) in *.
    replace (snd final - count)%nat
      with ((n1 - count) + (snd final - n1))%nat by lia.
    eapply run_effects_trans; eassumption.
Qed.

End RunEffects.

(** X9: a run of [process_alerts] counts at most as many alerts as it was
    given.  It publishes at most one notification per alert counted, each
    for one of the candidates and on the topic of its type, after the
    notifications that were there; the table grows by at most the count, and
    no key of the table is removed. *)
Theorem process_alerts_effects (topics : AlertingHandler.Topics)
    (envs : nat -> AlertingHandler.Env) (alerts : list AlertingHandler.Alert)
    (w : AlertingHandler.World) :
  let result := AlertingHandler.process_alerts topics envs alerts w in
  (snd result <= List.length alerts)%nat
  /\ run_effects topics alerts w (fst result) (snd result).
Proof.
  cbn zeta. rewrite process_alerts_loop.
  pose proof (process_loop_effects topics envs alerts w 0) as H.
  cbn zeta in H. rewrite Nat.sub_0_r in H. destruct H as [Hcount Heffects].
  split; [lia|assumption].
Qed.

(** ** Candidates of one run against each other *)

Section SameRun.

Import AlertingHandler.

Variable topics : Topics.

Lemma process_loop_app (envs : nat -> Env) (before after : list Alert)
    (state : World * nat) :
  process_loop topics envs (before ++ after) state
  = process_loop topics (fun i => envs (List.length before + i)%nat) after
      (process_loop topics envs before state).
Proof.
  revert envs state.
  induction before as [|b bs IH]; intros envs state;
    cbn [app process_loop List.length].
  - reflexivity.
  - rewrite IH. reflexivity.
Qed.

(** Candidates that all have a recent active duplicate in the table leave
    the table, the topics and the count as they are. *)
Lemma process_loop_duplicates (envs : nat -> Env) (alerts : list Alert)
    (row : Alert) (w : World) (count : nat) :
  In row (alerts_table w) ->
  (forall i alert, nth_error alerts i = Some alert ->
     scan_fails (envs i) = false
     /\ recent_active_duplicate alert (now (envs i)) row) ->
  exists w',
    alerts_table w' = alerts_table w /\ published w' = published w
    /\ process_loop topics envs alerts (w, count) = (w', count).
Proof.
  revert envs w.
  induction alerts as [|alert rest IH]; intros envs w Hin Hall;
    cbn [process_loop].
  - exists w. repeat split.
  - destruct (Hall O alert eq_refl) as [Hscan Hdup].
    rewrite (process_alert_duplicate topics (envs O) alert w count Hscan)
      by (exists row; split; assumption).
    destruct (IH (fun i => envs (S i))
                (logged (SkippedDuplicate (alert_id alert)) w))
      as (w' & Ht & Hp & Heq).
    + exact Hin.
    + intros i b Hb. apply (Hall (S i) b Hb).
    + exists w'. repeat split; assumption.
Qed.

End SameRun.

(** X10: the candidates of one run are deduplicated against each other.  The
    overall threshold alerts of a day all have the type threshold_breach, the
    service "Overall" and the region "All": once the first of them is stored,
    the ones after it, for the other severities the day's total exceeds, are
    skipped as its duplicates as long as their scans succeed within the hour
    after the evaluation.  The run continues with the service alerts and the
    other candidates from the table and the topics the first alert left,
    having counted one alert. *)
Theorem later_overall_breaches_skipped (topics : AlertingHandler.Topics)
    (envs : nat -> AlertingHandler.Env) (now : Py.Instant)
    (config : AlertingHandler.Config) (daily_costs : list CostRecord)
    (test_mode : bool) (rest : list AlertingHandler.Alert)
    (w : AlertingHandler.World) (first : AlertingHandler.Alert)
    (others : list AlertingHandler.Alert) :
  AlertingHandler.overall_alerts now test_mode
    (Py.sum (map cost_of daily_costs))
    (AlertingHandler.daily_thresholds_of config)
  = first :: others ->
  fst (AlertingHandler.is_duplicate_alert (envs O) first w) = false ->
  AlertingHandler.put_fails (envs O) = false ->
  (forall i, (i < List.length others)%nat ->
     AlertingHandler.scan_fails (envs (S i)) = false
     /\ (AlertingHandler.now (envs (S i)) - Py.hours 1 < now)%Z) ->
  let stored :=
    fst (AlertingHandler.process_alert topics (envs O) first (w, O)) in
  exists w',
    AlertingHandler.alerts_table w' = AlertingHandler.alerts_table stored
    /\ AlertingHandler.published w' = AlertingHandler.published stored
    /\ (exists row, stored_as first row
                    /\ In row (AlertingHandler.alerts_table w'))
    /\ AlertingHandler.process_alerts topics envs
         (AlertingHandler.check_threshold_alerts now config daily_costs
            test_mode ++ rest) w
       = AlertingHandler.process_loop topics
           (fun i => envs (S (List.length others + i)))
           (AlertingHandler.service_alerts now test_mode
              (service_thresholds_of config) (service_costs_of daily_costs)
            ++ rest)
           (w', 1%nat).
Proof.
  intros Hoverall Hfresh Hput Hlater stored.
  pose proof (overall_alerts_types now test_mode
                (Py.sum (map cost_of daily_costs))
                (AlertingHandler.daily_thresholds_of config)) as Htypes.
  rewrite Hoverall in Htypes.
  apply Forall_cons_iff in Htypes.
  destruct Htypes as [(Htype & Hservice & Hactive & Htime & _ & _ & _ & _
                       & Hregion) Hothers].
  destruct (process_alert_stores topics (envs O) first w O Hfresh Hput)
    as (Hcount & (row & Hrow & Hin) & _).
  fold stored in Hin.
  assert (Hdup : forall b instant,
             In b others -> (instant - Py.hours 1 < now)%Z ->
             recent_active_duplicate b instant row).
  { intros b instant Hb Hrecent.
    rewrite Forall_forall in Hothers.
    destruct (Hothers b Hb) as (Htype' & Hservice' & _ & _ & _ & _ & _ & _
                                & Hregion').
    unfold recent_active_duplicate, same_subject.
    destruct Hrow as [->| ->];
      cbn [AlertingHandler.mark_sent AlertingHandler.alert_type
           AlertingHandler.service AlertingHandler.region
           AlertingHandler.status AlertingHandler.timestamp];
      repeat split; congruence. }
  destruct (process_loop_duplicates topics (fun i => envs (S i)) others row
              stored 1 Hin) as (w' & Ht & Hp & Heq).
  { intros i b Hb. destruct (Hlater i) as [Hscan Hrecent].
    - apply nth_error_Some. congruence.
    - split; [exact Hscan|]. apply Hdup; [|exact Hrecent].
      eapply nth_error_In. exact Hb. }
  exists w'. split; [exact Ht|]. split; [exact Hp|].
  split; [exists row; split; [exact Hrow|now rewrite Ht]|].
  rewrite process_alerts_loop. unfold AlertingHandler.check_threshold_alerts.
  cbv zeta. rewrite Hoverall.
  cbn [app AlertingHandler.process_loop].
  rewrite <- app_assoc, process_loop_app.
  rewrite (surjective_pairing
             (AlertingHandler.process_alert topics (envs O) first (w, O))).
  cbn zeta in Hcount. rewrite Hcount. fold stored. cbn [Nat.add].
  rewrite Heq. reflexivity.
Qed.

Lemma later_overall_breaches_skipped_witness :
  let result :=
    AlertingHandler.process_alerts scenario_topics (fun _ => quiet scenario_now)
      (AlertingHandler.check_threshold_alerts scenario_now scenario_config
         day_of_250 false) empty_world in
  List.length
    (AlertingHandler.check_threshold_alerts scenario_now scenario_config
       day_of_250 false) = 2%nat
  /\ snd result = 1%nat
  /\ map AlertingHandler.severity (AlertingHandler.alerts_table (fst result))
     = ["warning"]
  /\ map (fun note => AlertingHandler.severity (AlertingHandler.body note))
       (AlertingHandler.published (fst result))
     = ["warning"].
Proof.
  cbn zeta.
  destruct (later_overall_breaches_skipped scenario_topics
              (fun _ => quiet scenario_now) scenario_now scenario_config
              day_of_250 false [] empty_world
              (AlertingHandler.create_alert scenario_now "threshold_breach"
                 "warning" "Overall" "All" 250 100
                 (AlertingHandler.DailyExceeded 250 "warning" 100) false)
              [AlertingHandler.create_alert scenario_now "threshold_breach"
                 "critical" "Overall" "All" 250 200
                 (AlertingHandler.DailyExceeded 250 "critical" 200) false])
    as (w' & Ht & Hp & _ & Heq).
  - reflexivity.
  - reflexivity.
  - reflexivity.
  - intros i _. split; [reflexivity|]. vm_compute. reflexivity.
  - rewrite app_nil_r in Heq.
    change (service_thresholds_of scenario_config)
      with (@nil (string * Py.dict Q)) in Heq.
    rewrite service_alerts_unconfigured in Heq. rewrite Heq.
    split; [reflexivity|]. cbn [app AlertingHandler.process_loop fst snd].
    rewrite Ht, Hp. repeat split.
Defined.

(** ** The alerting handler as a whole *)

(** X11: the response of the alerting handler.  It reports at most one
    budget alert, and never more processed alerts than the three evaluators
    produced candidates; the alerts table never shrinks and grows, like the
    list of published notifications, by at most the number of alerts
    reported as processed, which is the number of alerts the run logged as
    stored. *)
Theorem alerting_handler_response (topics : AlertingHandler.Topics)
    (inputs : AlertingHandler.Inputs) (envs : nat -> AlertingHandler.Env)
    (test_mode : bool) (w : AlertingHandler.World) :
  let result := AlertingHandler.lambda_handler topics inputs envs test_mode w in
  let response := snd result in
  (AlertingHandler.budget_alerts_count response <= 1)%nat
  /\ (AlertingHandler.total_alerts response
      <= AlertingHandler.threshold_alerts response
         + AlertingHandler.anomaly_alerts response
         + AlertingHandler.budget_alerts_count response)%nat
  /\ (AlertingHandler.total_alerts response
      + stored_records (AlertingHandler.log w))%nat
     = stored_records (AlertingHandler.log (fst result))
  /\ (List.length (AlertingHandler.alerts_table w)
      <= List.length (AlertingHandler.alerts_table (fst result))
      <= List.length (AlertingHandler.alerts_table w)
         + AlertingHandler.total_alerts response)%nat
  /\ (List.length (AlertingHandler.published w)
      <= List.length (AlertingHandler.published (fst result))
      <= List.length (AlertingHandler.published w)
         + AlertingHandler.total_alerts response)%nat.
Proof.
  cbn zeta. unfold AlertingHandler.lambda_handler. cbv zeta.
  set (threshold_alerts := AlertingHandler.check_threshold_alerts _ _ _ _).
  set (anomaly_alerts := AlertingHandler.check_cost_anomalies _ _ _ _).
  set (budget_alerts := AlertingHandler.check_budget_alerts _ _ _ _).
  assert (Hbudget : (List.length budget_alerts <= 1)%nat).
  { unfold budget_alerts.
    destruct (check_budget_alerts_cases (AlertingHandler.clock inputs)
                (AlertingHandler.budget_response inputs)
                (AlertingHandler.month_costs inputs) test_mode)
      as [->|(bc & b & limit & total & _ & _ & _ & _ & _ & _ & _ & -> & a
              & ->)]; cbn; lia. }
  set (alerts := (threshold_alerts ++ anomaly_alerts ++ budget_alerts)%list).
  pose proof (process_loop_effects topics envs alerts w 0) as Heffects.
  pose proof (process_loop_count topics envs alerts (w, 0%nat)) as Hcount.
  rewrite <- process_alerts_loop in Heffects, Hcount.
  destruct (AlertingHandler.process_alerts topics envs alerts w)
    as [w' total] eqn:Hrun.
  cbn zeta in Heffects, Hcount. cbn [fst snd] in Heffects, Hcount.
  rewrite Nat.sub_0_r in Heffects.
  destruct Heffects as (Htotal & (sent & Hsent & Hlen & _) & Hlo & Hhi & _).
  cbn [fst snd AlertingHandler.budget_alerts_count
       AlertingHandler.total_alerts AlertingHandler.threshold_alerts
       AlertingHandler.anomaly_alerts].
  unfold alerts in Htotal. rewrite !length_app in Htotal.
  rewrite Hsent, length_app.
  repeat split; lia.
Qed.

(** ** The lifecycle attributes *)

Section LifecycleAttributes.

Import AlertingHandler NotificationUtils.

Lemma lifecycle_change_refl (alert_id : string) (row : Alert) :
  lifecycle_change alert_id row row.
Proof. unfold lifecycle_change. destruct row. cbn. tauto. Qed.

Lemma lifecycle_change_trans (alert_id : string) (old mid new : Alert) :
  lifecycle_change alert_id old mid -> lifecycle_change alert_id mid new ->
  lifecycle_change alert_id old new.
Proof.
  intros (Hother1 & Hdata1 & Hack1 & Hres1 & Hcons1)
         (Hother2 & Hdata2 & Hack2 & Hres2 & Hcons2).
  unfold lifecycle_change. split; [|split; [|split; [|split]]]; auto.
  - intro Hne. rewrite Hother2, Hother1; auto.
    rewrite Hother1; auto.
  - rewrite Hdata2 at 1. rewrite Hdata1. reflexivity.
Qed.

Lemma acknowledge_update_change (alert_id by_ : string) (at_ : Py.Instant)
    (row : Alert) :
  lifecycle_change alert_id row
    (if String.eqb alert_id (AlertingHandler.alert_id row)
     then acknowledge_update by_ at_ row else row).
Proof.
  destruct (String.eqb_spec alert_id (AlertingHandler.alert_id row)) as [Heq|Hne];
    [|apply lifecycle_change_refl].
  unfold lifecycle_change, lifecycle_consistent, acknowledge_update.
  cbn [status acknowledged resolved acknowledged_by acknowledged_at
       resolved_at resolved_by resolution_notes].
  repeat split; auto; congruence.
Qed.

Lemma resolve_update_change (alert_id : string)
    (by_ notes : option string) (at_ : Py.Instant) (row : Alert) :
  lifecycle_change alert_id row
    (if String.eqb alert_id (AlertingHandler.alert_id row)
     then resolve_update by_ notes at_ row else row).
Proof.
  destruct (String.eqb_spec alert_id (AlertingHandler.alert_id row)) as [Heq|Hne];
    [|apply lifecycle_change_refl].
  unfold lifecycle_change, lifecycle_consistent, resolve_update.
  cbn [status acknowledged resolved acknowledged_by acknowledged_at
       resolved_at resolved_by resolution_notes].
  repeat split; auto; congruence.
Qed.

Lemma apply_operation_change (env : Env) (alert_id : string) (op : Operation)
    (table : list Alert) :
  Forall2 (lifecycle_change alert_id) table
    (fst (apply_operation env alert_id op table)).
Proof.
  assert (Hrefl : Forall2 (lifecycle_change alert_id) table table).
  { induction table; constructor; [apply lifecycle_change_refl|assumption]. }
  destruct op as [by_|by_ notes]; cbn [apply_operation];
    unfold acknowledge_alert, resolve_alert;
    destruct (update_fails env); cbn [fst]; try exact Hrefl;
    unfold update_by_id; clear Hrefl;
    induction table as [|row rest IH]; cbn [map]; constructor; try assumption.
  - apply acknowledge_update_change.
  - apply resolve_update_change.
Qed.

Lemma Forall2_lifecycle_trans (alert_id : string) (t1 t2 t3 : list Alert) :
  Forall2 (lifecycle_change alert_id) t1 t2 ->
  Forall2 (lifecycle_change alert_id) t2 t3 ->
  Forall2 (lifecycle_change alert_id) t1 t3.
Proof.
  intro H12. revert t3.
  induction H12 as [|a b l1 l2 Hab H12 IH]; intros t3 H23;
    inversion H23; subst; constructor.
  - eapply lifecycle_change_trans; eassumption.
  - now apply IH.
Qed.

End LifecycleAttributes.

(** X12: whatever sequence of acknowledge and resolve operations is applied
    for an alert id, with updates that succeed or fail, the table keeps its
    rows in place: a row of another id is not changed at all, and a row of
    the id changes in its lifecycle attributes only (status, acknowledged,
    resolved and who and when), where an acknowledged or resolved flag that
    was set stays set, and a row whose status agreed with its flags still
    has a status that agrees with them. *)
Theorem operations_change_lifecycle_only (alert_id : string)
    (ops : list (AlertingHandler.Env * NotificationUtils.Operation))
    (table : list AlertingHandler.Alert) :
  Forall2 (lifecycle_change alert_id) table
    (NotificationUtils.apply_operations alert_id ops table).
Proof.
  revert table.
  induction ops as [|[env op] rest IH]; intro table;
    cbn [NotificationUtils.apply_operations].
  - induction table; constructor; [apply lifecycle_change_refl|assumption].
  - eapply Forall2_lifecycle_trans; [apply apply_operation_change|apply IH].
Qed.

(** ** The summary of alerts *)

Section AlertSummary.

Import AlertingHandler NotificationUtils.

Lemma summary_step_counts (summary : Summary) (highest_cost : Q)
    (alert : Alert) :
  let next := fst (summary_step (summary, highest_cost) alert) in
  total_alerts next = total_alerts summary
  /\ by_severity next = count_one (severity alert) (by_severity summary)
  /\ by_service next = count_one (service alert) (by_service summary)
  /\ by_type next = count_one (alert_type alert) (by_type summary).
Proof.
  cbn zeta. unfold summary_step.
  destruct (Py.Qgtb (current_cost alert) highest_cost); repeat split.
Qed.

(** The three dictionaries of counts are filled independently of the
    tracking of the highest cost. *)
Lemma summary_fold_counts (alerts : list Alert) (summary : Summary)
    (highest_cost : Q) :
  let final := fst (fold_left summary_step alerts (summary, highest_cost)) in
  total_alerts final = total_alerts summary
  /\ by_severity final
     = fold_left (fun d a => count_one (severity a) d) alerts
         (by_severity summary)
  /\ by_service final
     = fold_left (fun d a => count_one (service a) d) alerts
         (by_service summary)
  /\ by_type final
     = fold_left (fun d a => count_one (alert_type a) d) alerts
         (by_type summary).
Proof.
  revert summary highest_cost.
  induction alerts as [|alert rest IH]; intros summary highest_cost;
    cbn [fold_left]; [cbn; repeat split|].
  pose proof (summary_step_counts summary highest_cost alert) as Hstep.
  destruct (summary_step (summary, highest_cost) alert) as [next highest].
  cbn zeta in Hstep. cbn [fst] in Hstep.
  destruct Hstep as (Htotal & Hseverity & Hservice & Htype).
  specialize (IH next highest). cbn zeta in *.
  rewrite Htotal, Hseverity, Hservice, Htype in IH. exact IH.
Qed.

Lemma total_count_count_one (key : string) (counts : Py.dict Z) :
  total_count (count_one key counts) = (total_count counts + 1)%Z.
Proof.
  unfold count_one, Py.get_default, total_count.
  induction counts as [|[k v] rest IH]; cbn [Py.get Py.set Py.values map snd
                                             fold_right]; [lia|].
  destruct (String.eqb key k); cbn [Py.values map snd fold_right].
  - lia.
  - unfold Py.values in IH. rewrite IH. lia.
Qed.

Lemma keys_count_one (key value : string) (counts : Py.dict Z) :
  In value (Py.keys (count_one key counts))
  <-> value = key \/ In value (Py.keys counts).
Proof.
  unfold count_one.
  destruct (in_dec string_dec key (Py.keys counts)) as [Hin|Hnotin].
  - rewrite keys_set_present by assumption. split; [now right|].
    intros [->|H]; assumption.
  - rewrite keys_set_absent by assumption. rewrite in_app_iff. cbn [In].
    intuition congruence.
Qed.

(** Counting the alerts one after the other counts them by their key. *)
Lemma fold_count_one (key : Alert -> string) (alerts seen : list Alert)
    (counts : Py.dict Z) :
  counts_by key counts seen ->
  counts_by key (fold_left (fun d a => count_one (key a) d) alerts counts)
    (seen ++ alerts).
Proof.
  revert seen counts.
  induction alerts as [|alert rest IH]; intros seen counts Hcounts;
    cbn [fold_left]; [now rewrite app_nil_r|].
  replace (seen ++ alert :: rest)%list with ((seen ++ [alert]) ++ rest)%list
    by now rewrite <- app_assoc.
  apply IH. destruct Hcounts as (Hnodup & Hkeys & Hget & Htotal).
  unfold counts_by. split; [|split; [|split]].
  - now apply NoDup_keys_set.
  - intro value. rewrite keys_count_one, map_app, in_app_iff, Hkeys.
    cbn [map In]. intuition congruence.
  - intro value. unfold occurrences in *.
    rewrite filter_app, length_app. cbn [filter].
    unfold count_one.
    destruct (String.eqb_spec (key alert) value) as [<-|Hne].
    + rewrite get_default_set_same, Hget. cbn [List.length]. lia.
    + rewrite get_default_set_other by congruence.
      rewrite Hget. cbn [List.length]. lia.
  - rewrite total_count_count_one, Htotal, length_app. cbn [List.length]. lia.
Qed.

(** What the loop knows of the highest cost after the alerts [seen]. *)
Lemma summary_fold_highest (alerts seen : list Alert) (summary : Summary)
    (highest_cost : Q) :
  match highest_cost_alert summary with
  | None => highest_cost = 0 /\ Forall (fun a => current_cost a <= 0) seen
  | Some entry =>
      exists a,
        first_of_highest_cost a seen /\ 0 < current_cost a
        /\ highest_cost = current_cost a
        /\ entry = mkHighestCostAlert (alert_id a) (service a)
                     (current_cost a) (message a)
  end ->
  match highest_cost_alert
          (fst (fold_left summary_step alerts (summary, highest_cost))) with
  | None => Forall (fun a => current_cost a <= 0) (seen ++ alerts)
  | Some entry =>
      exists a,
        first_of_highest_cost a (seen ++ alerts) /\ 0 < current_cost a
        /\ entry = mkHighestCostAlert (alert_id a) (service a)
                     (current_cost a) (message a)
  end.
Proof.
  revert seen summary highest_cost.
  induction alerts as [|alert rest IH]; intros seen summary highest_cost Hseen;
    cbn [fold_left].
  - rewrite app_nil_r. cbn [fst].
    destruct (highest_cost_alert summary) as [entry|].
    + destruct Hseen as (a & Hfirst & Hpos & _ & Hentry). now exists a.
    + apply Hseen.
  - replace (seen ++ alert :: rest)%list with ((seen ++ [alert]) ++ rest)%list
      by now rewrite <- app_assoc.
    unfold summary_step at 2.
    destruct (Py.Qgtb (current_cost alert) highest_cost) eqn:Hgt; cbn zeta;
      apply IH; cbn [highest_cost_alert].
    + apply Qgtb_gt in Hgt. exists alert.
      destruct (highest_cost_alert summary) as [entry|].
      * destruct Hseen as (a & (before & after & -> & Hbefore & Hafter)
                           & Hpos & -> & _).
        split; [|split; [lra|split; reflexivity]].
        exists (before ++ a :: after)%list, []. split; [reflexivity|].
        split; [|constructor].
        apply Forall_app. split; [|constructor; [assumption|]].
        -- eapply Forall_impl; [|exact Hbefore]. cbn beta. intros; lra.
        -- eapply Forall_impl; [|exact Hafter]. cbn beta. intros; lra.
      * destruct Hseen as [-> Hall].
        split; [|split; [assumption|split; reflexivity]].
        exists seen, []. split; [reflexivity|]. split; [|constructor].
        eapply Forall_impl; [|exact Hall]. cbn beta. intros; lra.
    + apply Qgtb_le in Hgt.
      destruct (highest_cost_alert summary) as [entry|].
      * destruct Hseen as (a & (before & after & -> & Hbefore & Hafter)
                           & Hpos & -> & Hentry).
        exists a. split; [|split; [assumption|split; [reflexivity|assumption]]].
        exists before, (after ++ [alert])%list.
        split; [now rewrite <- app_assoc|]. split; [assumption|].
        apply Forall_app. split; [assumption|]. now constructor.
      * destruct Hseen as [-> Hall]. split; [reflexivity|].
        apply Forall_app. split; [assumption|]. now constructor.
Qed.

End AlertSummary.

(** X13: [create_alert_summary] returns no summary for no alerts.  The
    summary of other alerts counts all of them: each of the three
    dictionaries has one entry for each severity, service and type that
    occurs, holding the number of the alerts with it, and its counts add up to
    total_alerts.  The highest cost alert is the first alert with the
    greatest cost when that cost is above zero, and is missing when no alert
    has a cost above zero. *)
Theorem alert_summary_counts (now : Py.Instant)
    (alerts : list AlertingHandler.Alert) :
  match NotificationUtils.create_alert_summary now alerts with
  | None => alerts = []
  | Some summary =>
      alerts <> []
      /\ NotificationUtils.total_alerts summary = List.length alerts
      /\ counts_by AlertingHandler.severity
           (NotificationUtils.by_severity summary) alerts
      /\ counts_by AlertingHandler.service
           (NotificationUtils.by_service summary) alerts
      /\ counts_by AlertingHandler.alert_type
           (NotificationUtils.by_type summary) alerts
      /\ match NotificationUtils.highest_cost_alert summary with
         | None =>
             Forall (fun a => AlertingHandler.current_cost a <= 0) alerts
         | Some entry =>
             exists a,
               first_of_highest_cost a alerts
               /\ 0 < AlertingHandler.current_cost a
               /\ entry
                  = NotificationUtils.mkHighestCostAlert
                      (AlertingHandler.alert_id a) (AlertingHandler.service a)
                      (AlertingHandler.current_cost a)
                      (AlertingHandler.message a)
         end
  end.
Proof.
  destruct alerts as [|first rest]; [reflexivity|].
  set (alerts := first :: rest).
  change (NotificationUtils.create_alert_summary now alerts)
    with (Some (fst (fold_left NotificationUtils.summary_step alerts
                       (NotificationUtils.mkSummary (List.length alerts) [] []
                          [] None now, 0)))).
  cbv iota beta.
  assert (Hempty : forall key, counts_by key [] []).
  { intro key. unfold counts_by, occurrences, total_count. cbn.
    repeat split; try tauto. constructor. }
  destruct (summary_fold_counts alerts
              (NotificationUtils.mkSummary (List.length alerts) [] [] [] None
                 now) 0) as (Htotal & Hseverity & Hservice & Htype).
  split; [discriminate|]. split; [exact Htotal|].
  rewrite Hseverity, Hservice, Htype.
  cbn [NotificationUtils.by_severity NotificationUtils.by_service
       NotificationUtils.by_type].
  split; [apply (fold_count_one _ alerts []), Hempty|].
  split; [apply (fold_count_one _ alerts []), Hempty|].
  split; [apply (fold_count_one _ alerts []), Hempty|].
  apply (summary_fold_highest alerts []).
  cbn [NotificationUtils.highest_cost_alert]. split; [reflexivity|constructor].
Qed.

(** ** The recommendations returned *)

Section Sortedness.

Context {A B : Type}.

Lemma firstn_In (n : nat) (l : list A) (x : A) :
  In x (firstn n l) -> In x l.
Proof.
  revert n. induction l as [|y l IH]; intros n; destruct n; cbn [firstn In];
    try tauto.
  intros [->|Hin]; [now left|right; now apply (IH n)].
Qed.

Lemma StronglySorted_firstn (R : A -> A -> Prop) (n : nat) (l : list A) :
  StronglySorted R l -> StronglySorted R (firstn n l).
Proof.
  intro H. revert n.
  induction H as [|x l Hl IH Hx]; intro n; destruct n; cbn [firstn];
    try constructor.
  - apply IH.
  - rewrite Forall_forall in Hx |- *. intros y Hy. apply Hx.
    eapply firstn_In; eassumption.
Qed.

Lemma StronglySorted_filter_keeps (R : A -> A -> Prop) (keep : A -> bool)
    (l : list A) :
  StronglySorted R l -> StronglySorted R (filter keep l).
Proof.
  induction 1 as [|x l Hl IH Hx]; cbn [filter]; [constructor|].
  destruct (keep x); [|assumption].
  constructor; [assumption|].
  rewrite Forall_forall in Hx |- *. intros y Hy. apply Hx.
  now apply filter_In in Hy.
Qed.

Lemma StronglySorted_map_mono (R : A -> A -> Prop) (S : B -> B -> Prop)
    (f : A -> B) (l : list A) :
  (forall x y, R x y -> S (f x) (f y)) ->
  StronglySorted R l -> StronglySorted S (map f l).
Proof.
  intro Hmono. induction 1 as [|x l Hl IH Hx]; cbn [map]; constructor;
    [assumption|].
  rewrite Forall_forall in Hx |- *. intros y Hy.
  apply in_map_iff in Hy as (z & <- & Hz). apply Hmono. now apply Hx.
Qed.

Lemma NoDup_map_filter (f : A -> B) (keep : A -> bool) (l : list A) :
  NoDup (map f l) -> NoDup (map f (filter keep l)).
Proof.
  induction l as [|x l IH]; cbn [filter map]; [constructor|].
  intro Hnd. inversion Hnd as [|? ? Hnotin Hnd']; subst.
  destruct (keep x); [|now apply IH].
  cbn [map]. constructor; [|now apply IH].
  intro Hin. apply Hnotin. apply in_map_iff in Hin as (y & Hy & Hin).
  apply filter_In in Hin as [Hin _]. rewrite <- Hy. now apply in_map.
Qed.

End Sortedness.

Section RecommendationsReturned.

Import ProcessingHandler.

Lemma resource_total_set_same (rid : string) (data : ResourceCost)
    (d : Py.dict ResourceCost) :
  resource_total rid (Py.set rid data d) = total_cost data.
Proof. unfold resource_total. now rewrite get_set_same. Qed.

Lemma resource_total_set_other (rid rid' : string) (data : ResourceCost)
    (d : Py.dict ResourceCost) :
  rid <> rid' -> resource_total rid (Py.set rid' data d) = resource_total rid d.
Proof. intro H. unfold resource_total. now rewrite get_set_other. Qed.

(** One record adds its cost to the total of its resource, and to no
    other. *)
Lemma add_resource_total (rid : string) (acc : Py.dict ResourceCost)
    (record : CostRecord) :
  rid <> "" ->
  resource_total rid (add_resource acc record)
  == resource_total rid acc
     + Py.sum (map cost_of (records_of_resource rid [record])).
Proof.
  intro Hrid. unfold add_resource, records_of_resource. cbn [filter].
  destruct (resource_id record) as [[|ch id]|].
  1: { destruct (String.eqb_spec "" rid) as [Heq|_]; [congruence|].
       unfold Py.sum. cbn. ring. }
  2: { unfold Py.sum. cbn. ring. }
  set (key := String ch id).
  set (acc' := match Py.get key acc with
               | Some _ => acc
               | None => Py.set key _ acc
               end).
  assert (Htotal : forall r, resource_total r acc' == resource_total r acc).
  { intro r. unfold acc'. destruct (Py.get key acc) as [data|] eqn:Hget;
      [reflexivity|].
    destruct (String.eqb_spec r key) as [->|Hne].
    - rewrite resource_total_set_same. unfold resource_total.
      rewrite Hget. reflexivity.
    - now rewrite resource_total_set_other. }
  assert (Hsome : exists data, Py.get key acc' = Some data).
  { unfold acc'. destruct (Py.get key acc) as [data|] eqn:Hget; [eauto|].
    rewrite get_set_same. eauto. }
  destruct Hsome as [data Hdata]. rewrite Hdata.
  destruct (String.eqb_spec key rid) as [<-|Hne].
  - rewrite resource_total_set_same. cbn [total_cost map].
    rewrite <- Htotal. unfold resource_total at 1. rewrite Hdata.
    unfold Py.sum. cbn [fold_left]. ring.
  - rewrite resource_total_set_other by congruence.
    rewrite Htotal. cbn [map]. unfold Py.sum. cbn [fold_left]. ring.
Qed.

Lemma sum_app (xs ys : list Q) : Py.sum (xs ++ ys) == Py.sum xs + Py.sum ys.
Proof.
  induction xs as [|x xs IH]; cbn [app].
  - unfold Py.sum at 2. cbn [fold_left]. ring.
  - rewrite !sum_cons, IH. ring.
Qed.

Lemma resource_costs_total (rid : string) (cost_data : list CostRecord) :
  rid <> "" ->
  resource_total rid (resource_costs_of cost_data)
  == Py.sum (map cost_of (records_of_resource rid cost_data)).
Proof.
  intro Hrid. unfold resource_costs_of.
  assert (H : forall acc,
             resource_total rid (fold_left add_resource cost_data acc)
             == resource_total rid acc
                + Py.sum (map cost_of (records_of_resource rid cost_data))).
  { induction cost_data as [|r rs IH]; intro acc; cbn [fold_left].
    - unfold Py.sum. cbn. ring.
    - rewrite IH, add_resource_total by assumption.
      change (r :: rs) with ([r] ++ rs)%list.
      unfold records_of_resource. rewrite filter_app, map_app, sum_app.
      ring. }
  rewrite H. unfold resource_total. cbn [Py.get]. ring.
Qed.

(** A resource has an entry only if a record names it, by an id that is
    not empty. *)
Lemma add_resource_keys (rid : string) (acc : Py.dict ResourceCost)
    (record : CostRecord) :
  In rid (Py.keys (add_resource acc record)) ->
  In rid (Py.keys acc)
  \/ (rid <> "" /\ resource_id record = Some rid).
Proof.
  unfold add_resource.
  destruct (resource_id record) as [[|ch id]|]; try (now left).
  set (key := String ch id).
  set (acc' := match Py.get key acc with
               | Some _ => acc
               | None => Py.set key _ acc
               end).
  assert (Hkeys : In rid (Py.keys acc') -> In rid (Py.keys acc) \/ rid = key).
  { unfold acc'. destruct (Py.get key acc) as [data|] eqn:Hget; [now left|].
    rewrite keys_set_absent by now apply get_None_keys.
    rewrite in_app_iff. cbn [In]. intuition. }
  destruct (Py.get key acc') as [data|] eqn:Hdata.
  - rewrite keys_set_present.
    + intro H. destruct (Hkeys H) as [Hold| ->]; [now left|right].
      split; [discriminate|reflexivity].
    + apply get_In in Hdata. apply (in_map fst) in Hdata. exact Hdata.
  - intro H. destruct (Hkeys H) as [Hold| ->]; [now left|right].
    split; [discriminate|reflexivity].
Qed.

Lemma resource_costs_keys (rid : string) (cost_data : list CostRecord) :
  In rid (Py.keys (resource_costs_of cost_data)) ->
  rid <> "" /\ records_of_resource rid cost_data <> [].
Proof.
  unfold resource_costs_of.
  assert (H : forall acc,
             In rid (Py.keys (fold_left add_resource cost_data acc)) ->
             In rid (Py.keys acc)
             \/ (rid <> "" /\ records_of_resource rid cost_data <> [])).
  { induction cost_data as [|r rs IH]; intros acc Hin; cbn [fold_left] in Hin;
      [now left|].
    destruct (IH _ Hin) as [Hacc|[Hne Hrs]].
    - destruct (add_resource_keys rid acc r Hacc) as [|[Hne Hr]]; [now left|].
      right. split; [assumption|].
      unfold records_of_resource. cbn [filter]. rewrite Hr, String.eqb_refl.
      discriminate.
    - right. split; [assumption|].
      unfold records_of_resource in *. cbn [filter].
      destruct (match resource_id r with
                | Some rid0 => String.eqb rid0 rid
                | None => false
                end); [discriminate|assumption]. }
  intro Hin. destruct (H [] Hin) as [[]|]; assumption.
Qed.

Lemma put_recommendation_In (r : Recommendation) (table : list Recommendation) :
  In r (put_recommendation r table).
Proof.
  induction table as [|r' rest IH]; cbn [put_recommendation]; [now left|].
  destruct (_ && _); [now left|now right].
Qed.

Lemma put_recommendation_other (r r' : Recommendation)
    (table : list Recommendation) :
  In r table -> rec_resource_id r <> rec_resource_id r' ->
  In r (put_recommendation r' table).
Proof.
  intros Hin Hne.
  induction table as [|r0 rest IH]; cbn [put_recommendation]; [destruct Hin|].
  destruct (String.eqb_spec (rec_resource_id r') (rec_resource_id r0))
    as [Heq|Hne0]; cbn [andb].
  - destruct (String.eqb _ _).
    + destruct Hin as [->|Hin]; [congruence|now right].
    + destruct Hin as [->|Hin]; [now left|right; now apply IH].
  - destruct Hin as [->|Hin]; [now left|right; now apply IH].
Qed.

Lemma put_recommendation_length (r : Recommendation)
    (table : list Recommendation) :
  (List.length (put_recommendation r table) <= S (List.length table))%nat.
Proof.
  induction table as [|r' rest IH]; cbn [put_recommendation List.length];
    [lia|].
  destruct (_ && _); cbn [List.length]; lia.
Qed.

(** The batch write puts every recommendation of distinct resources. *)
Lemma put_all_In (recommendations table : list Recommendation) :
  NoDup (map rec_resource_id recommendations) ->
  let stored := fold_left (fun t r => put_recommendation r t) recommendations
                  table in
  (forall r, In r recommendations -> In r stored)
  /\ (forall r, In r table ->
                ~ In (rec_resource_id r) (map rec_resource_id recommendations) ->
                In r stored)
  /\ (List.length stored
      <= List.length table + List.length recommendations)%nat.
Proof.
  revert table.
  induction recommendations as [|r rest IH]; intros table Hnd; cbn zeta;
    cbn [fold_left map List.length].
  - split; [intros ? []|]. split; [auto|lia].
  - cbn [map] in Hnd. inversion Hnd as [|? ? Hnotin Hnd']; subst.
    destruct (IH (put_recommendation r table) Hnd') as (Hnew & Hold & Hlen).
    cbn zeta in *. split; [|split].
    + intros r0 [<-|Hin]; [|now apply Hnew].
      apply Hold; [apply put_recommendation_In|assumption].
    + intros r0 Hin Hfresh. apply Hold.
      * apply put_recommendation_other; [assumption|].
        intro Heq. apply Hfresh. left. now rewrite Heq.
      * intro H. apply Hfresh. now right.
    + pose proof (put_recommendation_length r table). lia.
Qed.

End RecommendationsReturned.


(** ** The daily analysis *)

Section OrderStatistics.

Lemma insert_number_perm (x : Q) (sorted : list Q) :
  Permutation (Py.insert_number x sorted) (x :: sorted).
Proof.
  induction sorted as [|y rest IH]; cbn [Py.insert_number]; [reflexivity|].
  destruct (Py.Qltb x y); [reflexivity|].
  rewrite IH. apply perm_swap.
Qed.

Lemma sorted_numbers_perm (xs : list Q) :
  Permutation (Py.sorted_numbers xs) xs.
Proof.
  unfold Py.sorted_numbers.
  assert (H : forall acc,
             Permutation (fold_left (fun acc x => Py.insert_number x acc) xs acc)
               (acc ++ xs)).
  { induction xs as [|x rest IH]; intro acc; cbn [fold_left].
    - now rewrite app_nil_r.
    - rewrite IH, insert_number_perm. apply Permutation_middle. }
  apply (H []).
Qed.

(** The least and the greatest element bound every element. *)
Lemma min_of_spec (xs : list Q) :
  xs <> [] ->
  exists least,
    Py.min_of xs = Py.Ok least /\ In least xs
    /\ Forall (fun x => least <= x) xs.
Proof.
  destruct xs as [|x rest]; [congruence|]. intros _. cbn [Py.min_of].
  eexists. split; [reflexivity|].
  assert (H : forall best,
             let least := fold_left (fun best y => if Py.Qltb y best then y
                                                   else best) rest best in
             (least = best \/ In least rest) /\ least <= best
             /\ Forall (fun y => least <= y) rest).
  { induction rest as [|y rest IH]; intro best; cbn zeta; cbn [fold_left].
    - split; [now left|]. split; [lra|constructor].
    - destruct (Py.Qltb y best) eqn:Hlt.
      + apply Qltb_lt in Hlt. destruct (IH y) as (Hin & Hle & Hall).
        cbn zeta in *. split; [right; destruct Hin as [->|]; [now left|now right]|].
        split; [lra|]. constructor; assumption.
      + apply Qltb_ge in Hlt. destruct (IH best) as (Hin & Hle & Hall).
        cbn zeta in *. split; [destruct Hin; [now left|right; now right]|].
        split; [assumption|]. constructor; [lra|assumption]. }
  destruct (H x) as (Hin & Hle & Hall). cbn zeta in *.
  split; [destruct Hin as [->|]; [now left|now right]|].
  constructor; assumption.
Qed.

Lemma max_of_spec (xs : list Q) :
  xs <> [] ->
  exists greatest,
    Py.max_of xs = Py.Ok greatest /\ In greatest xs
    /\ Forall (fun x => x <= greatest) xs.
Proof.
  destruct xs as [|x rest]; [congruence|]. intros _. cbn [Py.max_of].
  eexists. split; [reflexivity|].
  assert (H : forall best,
             let greatest := fold_left (fun best y => if Py.Qgtb y best then y
                                                      else best) rest best in
             (greatest = best \/ In greatest rest) /\ best <= greatest
             /\ Forall (fun y => y <= greatest) rest).
  { induction rest as [|y rest IH]; intro best; cbn zeta; cbn [fold_left].
    - split; [now left|]. split; [lra|constructor].
    - destruct (Py.Qgtb y best) eqn:Hgt.
      + apply Qgtb_gt in Hgt. destruct (IH y) as (Hin & Hle & Hall).
        cbn zeta in *. split; [right; destruct Hin as [->|]; [now left|now right]|].
        split; [lra|]. constructor; assumption.
      + apply Qgtb_le in Hgt. destruct (IH best) as (Hin & Hle & Hall).
        cbn zeta in *. split; [destruct Hin; [now left|right; now right]|].
        split; [assumption|]. constructor; [lra|assumption]. }
  destruct (H x) as (Hin & Hle & Hall). cbn zeta in *.
  split; [destruct Hin as [->|]; [now left|now right]|].
  constructor; assumption.
Qed.

Lemma len_pos {A : Type} (xs : list A) : xs <> [] -> 0 < Py.len xs.
Proof.
  destruct xs as [|x rest]; [congruence|]. intros _.
  rewrite len_cons. pose proof (len_nonneg rest). lra.
Qed.

Lemma sum_bounds (lo hi : Q) (xs : list Q) :
  Forall (fun x => lo <= x <= hi) xs ->
  lo * Py.len xs <= Py.sum xs <= hi * Py.len xs.
Proof.
  induction 1 as [|x rest Hx _ IH].
  - unfold Py.sum, Py.len. cbn [fold_left List.length Z.of_nat].
    change (inject_Z 0) with 0. lra.
  - rewrite sum_cons, len_cons. lra.
Qed.

(** The mean lies between bounds of the elements. *)
Lemma mean_bounds (lo hi : Q) (xs : list Q) :
  xs <> [] -> Forall (fun x => lo <= x <= hi) xs ->
  exists m, Py.mean xs = Py.Ok m /\ lo <= m <= hi.
Proof.
  intros Hne Hall. pose proof (len_pos xs Hne) as Hlen.
  pose proof (sum_bounds lo hi xs Hall) as [Hlo Hhi].
  destruct xs as [|x rest]; [congruence|]. cbn [Py.mean].
  eexists. split; [reflexivity|]. split.
  - apply Qle_shift_div_l; assumption.
  - apply Qle_shift_div_r; assumption.
Qed.

(** So does the median. *)
Lemma median_bounds (lo hi : Q) (xs : list Q) :
  xs <> [] -> Forall (fun x => lo <= x <= hi) xs ->
  exists m, Py.median xs = Py.Ok m /\ lo <= m <= hi.
Proof.
  intros Hne Hall. unfold Py.median.
  pose proof (sorted_numbers_perm xs) as Hperm.
  set (data := Py.sorted_numbers xs) in *.
  assert (Hlen : List.length data = List.length xs)
    by now apply Permutation_length.
  assert (Hn : (0 < List.length data)%nat).
  { rewrite Hlen. destruct xs; [congruence|cbn; lia]. }
  assert (Hnth : forall i, (i < List.length data)%nat ->
                           lo <= nth i data 0 <= hi).
  { intros i Hi. rewrite Forall_forall in Hall. apply Hall.
    apply (Permutation_in _ Hperm). now apply nth_In. }
  cbv zeta.
  destruct (Nat.eqb_spec (List.length data) 0) as [H0|_]; [lia|].
  pose proof (Nat.div_lt (List.length data) 2 Hn ltac:(lia)) as Hhalf.
  destruct (Nat.eqb_spec (List.length data mod 2) 1) as [_|_].
  - eexists. split; [reflexivity|]. now apply Hnth.
  - eexists. split; [reflexivity|].
    pose proof (Hnth (List.length data / 2)%nat Hhalf) as H1.
    pose proof (Hnth (List.length data / 2 - 1)%nat ltac:(lia)) as H2.
    split.
    + apply Qle_shift_div_l; lra.
    + apply Qle_shift_div_r; lra.
Qed.

End OrderStatistics.

Section DailyAnalysis.

Import ProcessingHandler.

Lemma sum_values_set (k : string) (v : Q) (d : Py.dict Q) :
  Py.sum (Py.values (Py.set k v d))
  == Py.sum (Py.values d) - Py.get_default k d 0 + v.
Proof.
  unfold Py.get_default, Py.values.
  induction d as [|[k' v'] d IH]; cbn [Py.set Py.get map snd].
  - unfold Py.sum. cbn. ring.
  - destruct (String.eqb k k'); cbn [map snd].
    + rewrite !sum_cons. ring.
    + rewrite !sum_cons, IH. ring.
Qed.

Lemma add_daily_sum (date : string) (cost : Q) (d : Py.dict Q) :
  Py.sum (Py.values (add_daily date cost d)) == Py.sum (Py.values d) + cost.
Proof.
  unfold add_daily. rewrite sum_values_set.
  destruct (Py.get date d) as [v|] eqn:Hget; [ring|].
  rewrite sum_values_set, get_default_set_same.
  unfold Py.get_default. rewrite Hget. ring.
Qed.

Lemma add_daily_get (date date' : string) (cost : Q) (d : Py.dict Q) :
  Py.get_default date' (add_daily date cost d) 0
  == Py.get_default date' d 0 + (if String.eqb date date' then cost else 0).
Proof.
  unfold add_daily.
  destruct (String.eqb_spec date date') as [<-|Hne].
  - rewrite get_default_set_same.
    destruct (Py.get date d) as [v|] eqn:Hget; [reflexivity|].
    rewrite get_default_set_same. unfold Py.get_default. rewrite Hget. ring.
  - rewrite get_default_set_other by congruence.
    destruct (Py.get date d) as [v|] eqn:Hget; [ring|].
    rewrite get_default_set_other by congruence. ring.
Qed.

Lemma add_daily_keys (date date' : string) (cost : Q) (d : Py.dict Q) :
  In date' (Py.keys (add_daily date cost d))
  <-> date' = date \/ In date' (Py.keys d).
Proof.
  unfold add_daily.
  assert (Hset : forall (v : Q) (d0 : Py.dict Q),
             In date' (Py.keys (Py.set date v d0))
             <-> date' = date \/ In date' (Py.keys d0)).
  { intros v d0.
    destruct (in_dec string_dec date (Py.keys d0)) as [Hin|Hnotin].
    - rewrite keys_set_present by assumption. split; [now right|].
      intros [->|H]; assumption.
    - rewrite keys_set_absent by assumption. rewrite in_app_iff. cbn [In].
      intuition congruence. }
  rewrite Hset. destruct (Py.get date d); [reflexivity|].
  rewrite Hset. tauto.
Qed.

(** The grouping by day: distinct days, those of the records, each with the
    sum of the costs of its records; nothing of the total is lost. *)
Lemma daily_costs_of_spec (cost_data : list CostRecord) :
  NoDup (Py.keys (daily_costs_of cost_data))
  /\ (forall date, In date (Py.keys (daily_costs_of cost_data))
                   <-> In date (map date_of cost_data))
  /\ (forall date,
        Py.get_default date (daily_costs_of cost_data) 0
        == Py.sum (map cost_of (records_of_day date cost_data)))
  /\ Py.sum (Py.values (daily_costs_of cost_data))
     == Py.sum (map cost_of cost_data).
Proof.
  unfold daily_costs_of.
  assert (H : forall acc,
             NoDup (Py.keys acc) ->
             let d := fold_left add_day cost_data acc in
             NoDup (Py.keys d)
             /\ (forall date, In date (Py.keys d)
                              <-> In date (Py.keys acc)
                                  \/ In date (map date_of cost_data))
             /\ (forall date,
                   Py.get_default date d 0
                   == Py.get_default date acc 0
                      + Py.sum (map cost_of (records_of_day date cost_data)))
             /\ Py.sum (Py.values d)
                == Py.sum (Py.values acc) + Py.sum (map cost_of cost_data)).
  { induction cost_data as [|r rs IH]; intros acc Hacc; cbn zeta;
      cbn [fold_left map records_of_day filter].
    - split; [assumption|]. split; [intro; cbn [In]; tauto|].
      split; [intro|]; unfold Py.sum; cbn; ring.
    - destruct (IH (add_day acc r)) as (Hnd & Hkeys & Hget & Hsum).
      { unfold add_day. now apply NoDup_add_daily. }
      cbn zeta in *. split; [assumption|]. split; [|split].
      + intro date. rewrite Hkeys. unfold add_day.
        rewrite add_daily_keys. cbn [In]. intuition congruence.
      + intro date. rewrite Hget. unfold add_day at 1.
        rewrite add_daily_get. fold (records_of_day date rs).
        destruct (String.eqb (date_of r) date); cbn [map].
        * rewrite sum_cons. ring.
        * ring.
      + rewrite Hsum. unfold add_day at 1. rewrite add_daily_sum, sum_cons.
        ring. }
  destruct (H [] (NoDup_nil _)) as (Hnd & Hkeys & Hget & Hsum).
  cbn zeta in *. split; [assumption|]. split; [|split].
  - intro date. rewrite Hkeys. cbn [Py.keys map In]. tauto.
  - intro date. rewrite Hget. unfold Py.get_default. cbn [Py.get]. ring.
  - rewrite Hsum. unfold Py.sum at 1. cbn. ring.
Qed.

Lemma get_rounded (date : string) (d : Py.dict Q) :
  Py.get date (map (fun entry => (fst entry, Py.round (snd entry) 2)) d)
  = option_map (fun cost => Py.round cost 2) (Py.get date d).
Proof.
  induction d as [|[k v] d IH]; cbn [map Py.get fst snd option_map];
    [reflexivity|].
  destruct (String.eqb date k); [reflexivity|assumption].
Qed.

End DailyAnalysis.


(** ** The analysis by service *)

Section DescendingOrder.

Context {A : Type}.

Variable key : A -> Q.

Lemma insert_desc_perm (x : A) (sorted : list A) :
  Permutation (Py.insert_desc key x sorted) (x :: sorted).
Proof.
  induction sorted as [|y rest IH]; cbn [Py.insert_desc];
    [reflexivity|].
  destruct (Py.Qltb _ _); [reflexivity|].
  rewrite IH. apply perm_swap.
Qed.

Lemma sorted_desc_perm (xs : list A) :
  Permutation (Py.sorted_desc key xs) xs.
Proof.
  unfold Py.sorted_desc.
  assert (H : forall acc,
             Permutation
               (fold_left (fun acc x => Py.insert_desc key x acc)
                  xs acc)
               (acc ++ xs)).
  { induction xs as [|x rest IH]; intro acc; cbn [fold_left].
    - now rewrite app_nil_r.
    - rewrite IH, insert_desc_perm. apply Permutation_middle. }
  apply (H []).
Qed.

Lemma insert_desc_sorted (x : A) (sorted : list A) :
  StronglySorted (fun a b => key b <= key a) sorted ->
  StronglySorted (fun a b => key b <= key a)
    (Py.insert_desc key x sorted).
Proof.
  induction 1 as [|y rest Hrest IH Hy]; cbn [Py.insert_desc].
  - repeat constructor.
  - destruct (Py.Qltb (key y) (key x)) eqn:Hlt.
    + apply Qltb_lt in Hlt. constructor; [now constructor|].
      constructor; [lra|].
      rewrite Forall_forall in Hy |- *. intros z Hz.
      specialize (Hy z Hz). cbn beta in *. lra.
    + apply Qltb_ge in Hlt. constructor; [assumption|].
      rewrite Forall_forall in Hy |- *. intros z Hz.
      apply (Permutation_in _ (insert_desc_perm x rest)) in Hz.
      destruct Hz as [<-|Hz]; [exact Hlt|now apply Hy].
Qed.

Lemma sorted_desc_sorted (xs : list A) :
  StronglySorted (fun a b => key b <= key a)
    (Py.sorted_desc key xs).
Proof.
  unfold Py.sorted_desc.
  assert (H : forall acc,
             StronglySorted (fun a b => key b <= key a) acc ->
             StronglySorted (fun a b => key b <= key a)
               (fold_left (fun acc x => Py.insert_desc key x acc)
                  xs acc)).
  { induction xs as [|x rest IH]; intros acc Hacc; cbn [fold_left];
      [assumption|].
    apply IH. now apply insert_desc_sorted. }
  apply H. constructor.
Qed.

End DescendingOrder.

Section ServiceAnalysis.

Import ProcessingHandler.

Lemma set_add_spec (x : string) (s : list string) :
  NoDup s ->
  NoDup (Py.set_add x s)
  /\ forall y, In y (Py.set_add x s) <-> y = x \/ In y s.
Proof.
  intro Hnd. unfold Py.set_add.
  destruct (existsb (String.eqb x) s) eqn:Hin.
  - split; [assumption|]. intro y. split; [now right|].
    intros [->|H]; [|assumption].
    apply existsb_exists in Hin as (z & Hz & Heq).
    apply String.eqb_eq in Heq. now subst.
  - split.
    + apply NoDup_app; [assumption|repeat constructor; intros []|].
      intros y Hy [Heq|[]]. subst y.
      assert (Hex : existsb (String.eqb x) s = true).
      { apply existsb_exists. exists x. split; [assumption|].
        apply String.eqb_refl. }
      congruence.
    + intro y. rewrite in_app_iff. cbn [In]. intuition congruence.
Qed.

Lemma keys_set (V : Type) (k k' : string) (v : V) (d : Py.dict V) :
  In k' (Py.keys (Py.set k v d)) <-> k' = k \/ In k' (Py.keys d).
Proof.
  destruct (in_dec string_dec k (Py.keys d)) as [Hin|Hnotin].
  - rewrite keys_set_present by assumption. split; [now right|].
    intros [->|H]; assumption.
  - rewrite keys_set_absent by assumption. rewrite in_app_iff. cbn [In].
    intuition congruence.
Qed.

Lemma sum_map_values_set (V : Type) (f : V -> Q) (k : string) (v : V)
    (d : Py.dict V) :
  Py.sum (map f (Py.values (Py.set k v d)))
  == Py.sum (map f (Py.values d))
     - match Py.get k d with Some old => f old | None => 0 end
     + f v.
Proof.
  unfold Py.values.
  induction d as [|[k' v'] d IH]; cbn [Py.set Py.get map snd].
  - unfold Py.sum. cbn. ring.
  - destruct (String.eqb k k'); cbn [map snd].
    + rewrite !sum_cons. ring.
    + rewrite !sum_cons, IH. ring.
Qed.

Lemma records_of_service_app (service : string)
    (seen rest : list CostRecord) :
  records_of_service service (seen ++ rest)
  = (records_of_service service seen ++ records_of_service service rest)%list.
Proof. unfold records_of_service. apply filter_app. Qed.

Lemma records_of_service_none (service : string) (seen : list CostRecord) :
  ~ In service (map service_of seen) -> records_of_service service seen = [].
Proof.
  intro Hnotin. unfold records_of_service.
  induction seen as [|r rs IH]; cbn [filter]; [reflexivity|].
  destruct (String.eqb_spec (service_of r) service) as [Heq|_].
  - exfalso. apply Hnotin. left. exact Heq.
  - apply IH. intro H. apply Hnotin. now right.
Qed.

Lemma add_service_grouped (d : Py.dict ServiceCosts) (seen : list CostRecord)
    (r : CostRecord) :
  services_grouped d seen ->
  services_grouped (add_service d r) (seen ++ [r]).
Proof.
  intros (Hnd & Hkeys & Hdata & Hsum). unfold add_service.
  set (service := service_of r).
  set (d' := match Py.get service d with
             | Some _ => d
             | None => Py.set service (mkServiceCosts 0 0 []) d
             end).
  assert (Hd' : exists data0,
             Py.get service d' = Some data0
             /\ service_grouped data0 (records_of_service service seen)
             /\ NoDup (Py.keys d')
             /\ (forall s, In s (Py.keys d')
                           <-> s = service \/ In s (Py.keys d))
             /\ (forall s, s <> service -> Py.get s d' = Py.get s d)
             /\ Py.sum (map sc_total_cost (Py.values d'))
                == Py.sum (map cost_of seen)).
  { unfold d'. destruct (Py.get service d) as [data|] eqn:Hget.
    - exists data. split; [assumption|]. split; [now apply Hdata|].
      split; [assumption|]. split; [|split; [reflexivity|assumption]].
      intro s. split; [now right|]. intros [->|H]; [|assumption].
      apply get_In in Hget. apply (in_map fst) in Hget. exact Hget.
    - exists (mkServiceCosts 0 0 []). split; [apply get_set_same|].
      split.
      { rewrite records_of_service_none.
        - unfold service_grouped. cbn. split; [reflexivity|].
          split; [reflexivity|]. split; [constructor|tauto].
        - rewrite <- Hkeys. now apply get_None_keys. }
      split; [now apply NoDup_keys_set|].
      split; [intro s; apply keys_set|].
      split; [intros s Hs; now apply get_set_other|].
      rewrite sum_map_values_set, Hget, Hsum. cbn [sc_total_cost]. ring. }
  destruct Hd' as (data0 & Hget0 & (Htotal0 & Hcount0 & Hnd0 & Hregions0)
                   & Hnd' & Hkeys' & Hother' & Hsum').
  rewrite Hget0. unfold services_grouped. split; [|split; [|split]].
  - now apply NoDup_keys_set.
  - intro s. rewrite keys_set, Hkeys', Hkeys, map_app, in_app_iff.
    cbn [map In]. fold service. intuition congruence.
  - intros s data Hget. rewrite records_of_service_app.
    unfold records_of_service at 2. cbn [filter]. fold service.
    destruct (String.eqb_spec service s) as [<-|Hne].
    + rewrite get_set_same in Hget. injection Hget as <-.
      unfold service_grouped.
      cbn [sc_total_cost record_count regions].
      destruct (set_add_spec (region_of r) (regions data0) Hnd0)
        as [Hnd1 Hin1].
      split; [|split; [|split; [exact Hnd1|]]].
      * rewrite map_app, sum_app, Htotal0. cbn [map]. unfold Py.sum at 3.
        cbn [fold_left]. ring.
      * rewrite length_app, Hcount0. reflexivity.
      * intro region. rewrite Hin1, Hregions0, !map_app, in_app_iff.
        cbn [map In]. intuition congruence.
    + rewrite get_set_other in Hget by congruence.
      rewrite Hother' in Hget by congruence.
      rewrite app_nil_r. now apply Hdata.
  - rewrite sum_map_values_set, Hget0, Hsum', map_app, sum_app.
    cbn [sc_total_cost map]. rewrite Htotal0. unfold Py.sum at 5.
    cbn [fold_left]. unfold service_grouped in *. ring.
Qed.

Lemma fold_add_service_grouped (cost_data seen : list CostRecord)
    (d : Py.dict ServiceCosts) :
  services_grouped d seen ->
  services_grouped (fold_left add_service cost_data d) (seen ++ cost_data).
Proof.
  revert seen d.
  induction cost_data as [|r rs IH]; intros seen d Hd; cbn [fold_left];
    [now rewrite app_nil_r|].
  replace (seen ++ r :: rs)%list with ((seen ++ [r]) ++ rs)%list
    by now rewrite <- app_assoc.
  apply IH. now apply add_service_grouped.
Qed.

Lemma service_costs_grouped (cost_data : list CostRecord) :
  services_grouped (fold_left add_service cost_data []) cost_data.
Proof.
  apply (fold_add_service_grouped cost_data [] []).
  unfold services_grouped. cbn [Py.keys Py.values map In Py.get].
  split; [constructor|]. split; [tauto|]. split; [discriminate|reflexivity].
Qed.

Lemma Qgtb_comp (x y z : Q) : x == y -> Py.Qgtb x z = Py.Qgtb y z.
Proof.
  intro H. destruct (Py.Qgtb y z) eqn:Hy.
  - apply Qgtb_gt in Hy. apply Qgtb_gt. now rewrite H.
  - apply Qgtb_le in Hy. apply Qgtb_le. now rewrite H.
Qed.

End ServiceAnalysis.

Lemma records_of_service_some (service : string)
    (cost_data : list CostRecord) :
  In service (map service_of cost_data) ->
  records_of_service service cost_data <> [].
Proof.
  intro Hin. apply in_map_iff in Hin as (r & Hr & Hin).
  assert (H : In r (records_of_service service cost_data)).
  { unfold records_of_service. apply filter_In. split; [assumption|].
    now apply String.eqb_eq. }
  intro Hnil. rewrite Hnil in H. destruct H.
Qed.


(** ** The analysis as a whole *)

Section WholeAnalysis.

Import ProcessingHandler.

Lemma analyze_daily_costs_total (cost_data : list CostRecord) :
  exists analysis, analyze_daily_costs cost_data = Py.Ok analysis.
Proof.
  unfold analyze_daily_costs. cbv zeta.
  destruct (Py.values (daily_costs_of cost_data)) as [|c cs] eqn:Hvalues;
    [eauto|].
  assert (Hne : c :: cs <> []) by discriminate.
  destruct (min_of_spec _ Hne) as (least & Hleast & _ & Hlo).
  destruct (max_of_spec _ Hne) as (greatest & Hgreatest & _ & Hhi).
  assert (Hall : Forall (fun x => least <= x <= greatest) (c :: cs)).
  { rewrite Forall_forall in *. intros x Hx. split; auto. }
  destruct (mean_bounds least greatest _ Hne Hall) as (average & Ha & _).
  destruct (median_bounds least greatest _ Hne Hall) as (middle & Hm & _).
  rewrite Ha, Hm, Hleast, Hgreatest. cbn [Py.bind]. eauto.
Qed.

Lemma put_analysis_In (record : AnalysisRecord) (table : list AnalysisRecord) :
  In record (put_analysis record table).
Proof.
  induction table as [|row rest IH]; cbn [put_analysis]; [now left|].
  destruct (_ && _); [now left|now right].
Qed.

Lemma recommendations_for_length (now : Py.Instant)
    (sorted_resources : list (string * ResourceCost)) :
  (List.length (recommendations_for now sorted_resources) <= 10)%nat.
Proof.
  unfold recommendations_for. rewrite length_map.
  etransitivity; [apply filter_length_le|]. apply firstn_le_length.
Qed.

End WholeAnalysis.


(** ** The forecast *)

Section ForecastShape.

Import AnalysisUtils.

Lemma sum_nonneg (xs : list Q) : Forall (fun x => 0 <= x) xs -> 0 <= Py.sum xs.
Proof.
  induction 1 as [|x rest Hx _ IH].
  - unfold Py.sum. cbn. lra.
  - rewrite sum_cons. lra.
Qed.

Lemma square_nonneg (t : Q) : 0 <= t * t.
Proof.
  destruct (Qlt_le_dec t 0) as [Hneg|Hpos].
  - setoid_replace (t * t) with ((- t) * (- t)) by ring.
    apply Qmult_le_0_compat; lra.
  - now apply Qmult_le_0_compat.
Qed.

Lemma square_pos (t : Q) : ~ t == 0 -> 0 < t * t.
Proof.
  intro Hne. destruct (Qlt_le_dec t 0) as [Hneg|Hpos].
  - setoid_replace (t * t) with ((- t) * (- t)) by ring.
    apply Qmult_lt_0_compat; lra.
  - assert (0 < t).
    { apply Qle_lteq in Hpos as [H|H]; [assumption|].
      exfalso. apply Hne. now symmetry. }
    now apply Qmult_lt_0_compat.
Qed.

(** With two points or more the squares of the distances to any centre
    have a positive sum: [denominator == 0] does not occur. *)
Lemma denominator_pos (n : nat) (x_mean : Q) :
  (2 <= n)%nat -> 0 < denominator n x_mean.
Proof.
  intro Hn. unfold denominator.
  destruct n as [|[|n]]; [lia|lia|].
  cbn [seq map]. rewrite !sum_cons.
  assert (Hrest : 0 <= Py.sum (map (fun i => (index i - x_mean)
                                             * (index i - x_mean))
                                 (seq 2 n))).
  { apply sum_nonneg. rewrite Forall_map, Forall_forall. intros i _.
    apply square_nonneg. }
  pose proof (square_nonneg (index 0 - x_mean)) as H0.
  pose proof (square_nonneg (index 1 - x_mean)) as H1.
  destruct (Qeq_dec (index 0 - x_mean) 0) as [Hzero|Hne].
  - assert (Hone : ~ index 1 - x_mean == 0).
    { intro H. unfold index in Hzero, H. cbn [Z.of_nat] in Hzero, H.
      change (inject_Z 0) with 0 in Hzero.
      change (inject_Z (Z.pos (Pos.of_succ_nat 0))) with 1 in H. lra. }
    pose proof (square_pos _ Hone). lra.
  - pose proof (square_pos _ Hne). lra.
Qed.

Lemma index_mono (i j : nat) : (i <= j)%nat -> index i <= index j.
Proof. intro H. unfold index. rewrite <- Zle_Qle. lia. Qed.

Lemma max_number_mono (x y : Q) :
  x <= y -> Py.max_number 0 x <= Py.max_number 0 y.
Proof.
  intro H. unfold Py.max_number.
  destruct (Py.Qgtb x 0) eqn:Hx; destruct (Py.Qgtb y 0) eqn:Hy;
    try apply Qgtb_gt in Hx; try apply Qgtb_le in Hx;
    try apply Qgtb_gt in Hy; try apply Qgtb_le in Hy; lra.
Qed.

Lemma max_number_nonneg (x : Q) : 0 <= Py.max_number 0 x.
Proof.
  unfold Py.max_number. destruct (Py.Qgtb x 0) eqn:Hx; [|lra].
  apply Qgtb_gt in Hx. lra.
Qed.

Lemma seq_sorted (start len : nat) : StronglySorted le (seq start len).
Proof.
  revert start. induction len as [|len IH]; intro start; cbn [seq];
    constructor; [apply IH|].
  apply Forall_forall. intros i Hi. apply in_seq in Hi. lia.
Qed.

(** The loop returns the days of its steps, or stops at a date that does
    not exist. *)
Lemma forecast_loop_spec (last_date : Z) (n : nat) (slope intercept : Q)
    (steps : list nat) :
  match forecast_loop last_date n slope intercept steps with
  | Returns days => days = map (forecast_day last_date n slope intercept) steps
  | Raises e => e = OverflowError /\ steps <> []
  end.
Proof.
  induction steps as [|i rest IH]; cbn [forecast_loop map]; [reflexivity|].
  cbv zeta. destruct (Z.ltb _ _); [split; [reflexivity|discriminate]|].
  destruct (forecast_loop last_date n slope intercept rest) as [days|e].
  - rewrite IH. reflexivity.
  - split; [apply IH|discriminate].
Qed.

Lemma forecast_day_rising (last_date : Z) (n : nat) (slope intercept : Q)
    (i j : nat) :
  0 <= slope -> (i <= j)%nat ->
  forecast_rising (forecast_day last_date n slope intercept i)
    (forecast_day last_date n slope intercept j).
Proof.
  intros Hslope Hij. unfold forecast_rising, forecast_day.
  cbn [forecasted_cost]. apply max_number_mono, round_mono.
  pose proof (index_mono i j Hij). nra.
Qed.

Lemma forecast_day_falling (last_date : Z) (n : nat) (slope intercept : Q)
    (i j : nat) :
  slope <= 0 -> (i <= j)%nat ->
  forecast_falling (forecast_day last_date n slope intercept i)
    (forecast_day last_date n slope intercept j).
Proof.
  intros Hslope Hij. unfold forecast_falling, forecast_day.
  cbn [forecasted_cost]. apply max_number_mono, round_mono.
  pose proof (index_mono i j Hij). nra.
Qed.

End ForecastShape.


(** ** Insights *)

Section CostGroups.

Variable key : CostRecord -> string.

(** The grouping [d[key] = d.get(key, 0) + cost]: one entry for each value
    of the key, holding the sum of the costs of its records. *)
Lemma grouped_costs_spec (cost_data : list CostRecord) :
  let d := fold_left (fun d r => AnalysisUtils.add_cost (key r) (cost_of r) d)
             cost_data [] in
  NoDup (Py.keys d)
  /\ (forall k, In k (Py.keys d) <-> In k (map key cost_data))
  /\ (forall k, Py.get_default k d 0 == cost_with key k cost_data)
  /\ Py.sum (Py.values d) == Py.sum (map cost_of cost_data).
Proof.
  assert (H : forall acc,
             NoDup (Py.keys acc) ->
             let d := fold_left (fun d r => AnalysisUtils.add_cost (key r)
                                              (cost_of r) d) cost_data acc in
             NoDup (Py.keys d)
             /\ (forall k, In k (Py.keys d)
                           <-> In k (Py.keys acc) \/ In k (map key cost_data))
             /\ (forall k, Py.get_default k d 0
                           == Py.get_default k acc 0
                              + cost_with key k cost_data)
             /\ Py.sum (Py.values d)
                == Py.sum (Py.values acc) + Py.sum (map cost_of cost_data)).
  { induction cost_data as [|r rs IH]; intros acc Hacc; cbn zeta;
      unfold cost_with, records_with; cbn [fold_left map filter].
    - split; [assumption|]. split; [intro; cbn [In]; tauto|].
      split; [intro|]; unfold Py.sum; cbn; ring.
    - destruct (IH (AnalysisUtils.add_cost (key r) (cost_of r) acc))
        as (Hnd & Hkeys & Hget & Hsum).
      { unfold AnalysisUtils.add_cost. now apply NoDup_keys_set. }
      cbn zeta in *. unfold cost_with, records_with in Hget.
      split; [assumption|]. split; [|split].
      + intro k. rewrite Hkeys. unfold AnalysisUtils.add_cost.
        rewrite keys_set. cbn [In]. intuition congruence.
      + intro k. rewrite Hget. unfold AnalysisUtils.add_cost.
        destruct (String.eqb_spec (key r) k) as [<-|Hne]; cbn [map].
        * rewrite get_default_set_same, sum_cons. ring.
        * rewrite get_default_set_other by congruence. ring.
      + rewrite Hsum. unfold AnalysisUtils.add_cost.
        rewrite sum_values_set, sum_cons. ring. }
  destruct (H [] (NoDup_nil _)) as (Hnd & Hkeys & Hget & Hsum).
  cbn zeta in *. split; [assumption|]. split; [|split].
  - intro k. rewrite Hkeys. cbn [Py.keys map In]. tauto.
  - intro k. rewrite Hget. unfold Py.get_default. cbn [Py.get]. ring.
  - rewrite Hsum. unfold Py.sum at 1. cbn. ring.
Qed.

End CostGroups.

Section Insights.

Import AnalysisUtils.

Lemma length_last_n {A : Type} (n : nat) (xs : list A) :
  (n <= List.length xs)%nat -> List.length (Py.last_n n xs) = n.
Proof. intro H. unfold Py.last_n. rewrite length_skipn. lia. Qed.

Lemma length_slice_from_end {A : Type} (m n : nat) (xs : list A) :
  (n <= m <= List.length xs)%nat ->
  List.length (Py.slice_from_end m n xs) = (m - n)%nat.
Proof.
  intro H. unfold Py.slice_from_end, Py.drop_last_n.
  rewrite length_skipn, length_firstn. lia.
Qed.

Lemma mean_of_length (xs : list Q) (n : nat) :
  List.length xs = S n ->
  exists m, Py.mean xs = Py.Ok m /\ (m == 0 <-> Py.sum xs == 0).
Proof.
  intro Hlen. destruct xs as [|x rest]; [discriminate|].
  cbn [Py.mean]. eexists. split; [reflexivity|].
  pose proof (len_pos (x :: rest) ltac:(discriminate)) as Hpos.
  split; intro H.
  - setoid_replace (Py.sum (x :: rest))
      with (Py.sum (x :: rest) / Py.len (x :: rest) * Py.len (x :: rest))
      by (field; lra).
    rewrite H. ring.
  - rewrite H. field. lra.
Qed.

Lemma true_div_spec (a b : Q) :
  match true_div a b with
  | Returns q => ~ b == 0 /\ q = a / b
  | Raises e => b == 0 /\ e = ZeroDivisionError
  end.
Proof.
  unfold true_div. destruct (Qeq_bool b 0) eqn:Hb.
  - apply Qeq_bool_iff in Hb. now split.
  - apply Qeq_bool_neq in Hb. now split.
Qed.

(** The first part: at most one insight, on a rise above ten percent. *)
Lemma trend_insights_spec (cost_data : list CostRecord) :
  let days := List.length (insight_daily_costs cost_data) in
  match trend_insights cost_data with
  | Raises e =>
      e = ZeroDivisionError /\ (14 <= days)%nat
      /\ Py.sum (previous_week cost_data) == 0
  | Returns insights =>
      ((14 <= days)%nat -> ~ Py.sum (previous_week cost_data) == 0)
      /\ (List.length insights <= 1)%nat
      /\ Forall (insight_holds cost_data) insights
  end.
Proof.
  cbn zeta. unfold trend_insights, previous_week. cbv zeta.
  set (daily_costs := insight_daily_costs cost_data).
  assert (Hvalues : List.length (Py.values daily_costs)
                    = List.length daily_costs)
    by (unfold Py.values; apply length_map).
  destruct (Nat.leb_spec 7 (List.length daily_costs)) as [H7|H7].
  2: { split; [lia|]. split; [cbn; lia|constructor]. }
  destruct (mean_of_length (Py.last_n 7 (Py.values daily_costs)) 6)
    as (recent_avg & -> & _).
  { apply length_last_n. lia. }
  rewrite Hvalues.
  destruct (Nat.leb_spec 14 (List.length daily_costs)) as [H14|H14].
  2: { split; [lia|]. split; [cbn; lia|constructor]. }
  destruct (mean_of_length (Py.slice_from_end 14 7 (Py.values daily_costs)) 6)
    as (previous_avg & -> & Hzero).
  { rewrite length_slice_from_end; lia. }
  pose proof (true_div_spec (recent_avg - previous_avg) previous_avg) as Hdiv.
  destruct (true_div (recent_avg - previous_avg) previous_avg)
    as [quotient|e].
  - destruct Hdiv as [Hne _].
    assert (Hprev : (14 <= List.length daily_costs)%nat ->
                    ~ Py.sum (Py.slice_from_end 14 7 (Py.values daily_costs))
                      == 0).
    { intros _ H. apply Hne. now apply Hzero. }
    destruct (Py.Qgtb (quotient * 100) 20) eqn:H20.
    + split; [exact Hprev|]. split; [cbn; lia|].
      constructor; [|constructor]. unfold insight_holds.
      cbn [insight_type about percent insight_severity]. rewrite H20.
      apply Qgtb_gt in H20. repeat split; try assumption. lra.
    + destruct (Py.Qgtb (quotient * 100) 10) eqn:H10.
      * split; [exact Hprev|]. split; [cbn; lia|].
        constructor; [|constructor]. unfold insight_holds.
        cbn [insight_type about percent insight_severity]. rewrite H20.
        apply Qgtb_gt in H10. repeat split; assumption.
      * split; [exact Hprev|]. split; [cbn; lia|constructor].
  - destruct Hdiv as [Hz ->]. split; [reflexivity|]. split; [assumption|].
    now apply Hzero.
Qed.

Lemma max_item_spec (items : list (string * Q)) (top : Q) :
  Py.max_of (Py.values items) = Py.Ok top ->
  exists name, max_item items = Some (name, top) /\ In (name, top) items.
Proof.
  destruct items as [|first rest]; [discriminate|].
  cbn [Py.values map Py.max_of max_item]. intros [= <-].
  assert (H : forall best,
             let found := fold_left (fun best item =>
                                       if Py.Qgtb (snd item) (snd best)
                                       then item else best) rest best in
             snd found
             = fold_left (fun best y => if Py.Qgtb y best then y else best)
                 (map snd rest) (snd best)
             /\ (found = best \/ In found rest)).
  { induction rest as [|item rest IH]; intro best; cbn zeta;
      cbn [fold_left map]; [split; [reflexivity|now left]|].
    destruct (Py.Qgtb (snd item) (snd best)).
    - destruct (IH item) as [Hsnd Hin]. cbn zeta in *.
      split; [assumption|]. right. destruct Hin as [->|Hin];
        [now left|now right].
    - destruct (IH best) as [Hsnd Hin]. cbn zeta in *.
      split; [assumption|]. destruct Hin as [->|Hin];
        [now left|right; now right]. }
  destruct (H first) as [Hsnd Hin]. cbn zeta in *.
  set (found := fold_left _ rest first) in *.
  exists (fst found). rewrite <- Hsnd. rewrite <- surjective_pairing.
  split; [reflexivity|]. destruct Hin as [->|Hin]; [now left|now right].
Qed.

(** The second part: at most one insight, on a service with more than
    seventy percent of the total. *)
Lemma concentration_insights_spec (cost_data : list CostRecord) :
  match concentration_insights cost_data with
  | Raises e =>
      e = ZeroDivisionError /\ cost_data <> []
      /\ Py.sum (map cost_of cost_data) == 0
  | Returns insights =>
      (cost_data <> [] -> ~ Py.sum (map cost_of cost_data) == 0)
      /\ (List.length insights <= 1)%nat
      /\ Forall (insight_holds cost_data) insights
  end.
Proof.
  unfold concentration_insights. cbv zeta.
  destruct (grouped_costs_spec service_of cost_data)
    as (Hnd & Hkeys & Hget & _).
  cbn zeta in Hnd, Hkeys, Hget.
  fold (insight_service_costs cost_data) in Hnd, Hkeys, Hget.
  set (service_costs := insight_service_costs cost_data) in *.
  destruct service_costs as [|first rest] eqn:Hcosts.
  { split; [|split; [cbn; lia|constructor]].
    intros Hne. destruct cost_data as [|r rs]; [congruence|].
    exfalso. apply (proj2 (Hkeys (service_of r))). now left. }
  rewrite <- Hcosts in *.
  assert (Hdata : cost_data <> []).
  { intros ->. unfold service_costs in Hcosts. discriminate. }
  destruct (max_of_spec (Py.values service_costs))
    as (top & Hmax & _ & Hall).
  { rewrite Hcosts. discriminate. }
  rewrite Hmax.
  pose proof (true_div_spec top (Py.sum (map cost_of cost_data))) as Hdiv.
  destruct (true_div top (Py.sum (map cost_of cost_data))) as [share|e].
  2: { destruct Hdiv as [Hz ->]. repeat split; assumption. }
  destruct Hdiv as [Hne ->].
  destruct (Py.Qgtb _ (7 # 10)) eqn:Hshare;
    (split; [intros _; exact Hne|]); [|split; [cbn; lia|constructor]].
  split; [cbn; lia|]. constructor; [|constructor].
  apply Qgtb_gt in Hshare.
  destruct (max_item_spec service_costs top Hmax) as (name & -> & Hin).
  assert (Hcost : forall service cost,
             In (service, cost) service_costs ->
             cost == cost_with service_of service cost_data).
  { intros service cost Hsc. rewrite <- Hget. unfold Py.get_default.
    rewrite (In_get _ _ _ Hnd Hsc). reflexivity. }
  unfold insight_holds.
  cbn [insight_type about percent insight_severity option_map fst].
  split; [reflexivity|]. split; [lra|].
  exists name. split; [reflexivity|]. split.
  { apply Hkeys. apply (in_map fst) in Hin. exact Hin. }
  split.
  { rewrite (Hcost name top Hin). reflexivity. }
  intros other Hother. apply Hkeys in Hother.
  apply get_keys in Hother as [cost Hc].
  apply get_In in Hc. rewrite <- (Hcost other cost Hc).
  rewrite <- (Hcost name top Hin).
  rewrite Forall_forall in Hall. apply Hall.
  apply (in_map snd) in Hc. exact Hc.
Qed.

End Insights.


(** ** Cost drivers *)

Section CostDrivers.

Import AnalysisUtils.

Lemma StronglySorted_app_between {A : Type} (R : A -> A -> Prop)
    (l1 l2 : list A) :
  StronglySorted R (l1 ++ l2) ->
  forall x y, In x l1 -> In y l2 -> R x y.
Proof.
  induction l1 as [|a l1 IH]; cbn [app]; intros Hsorted x y Hx Hy;
    [destruct Hx|].
  inversion Hsorted as [|? ? Hrest Hall]; subst.
  destruct Hx as [->|Hx].
  - rewrite Forall_forall in Hall. apply Hall. apply in_or_app. now right.
  - now apply IH.
Qed.

(** The loop fills each dictionary as a loop of its own would. *)
Lemma fold_add_driver_costs (cost_data : list CostRecord)
    (init : DriverCosts) :
  let final := fold_left add_driver_costs cost_data init in
  services final
  = fold_left (fun d r => add_cost (service_of r) (cost_of r) d) cost_data
      (services init)
  /\ regions final
     = fold_left (fun d r => add_cost (region_of r) (cost_of r) d) cost_data
         (regions init)
  /\ resources final
     = fold_left (fun d r => add_cost (resource_of r) (cost_of r) d)
         (with_resource cost_data) (resources init)
  /\ running_total final
     = fold_left Qplus (map cost_of cost_data) (running_total init).
Proof.
  revert init.
  induction cost_data as [|r rs IH]; intro init; cbn zeta;
    cbn [fold_left map with_resource filter]; [repeat split|].
  destruct (IH (add_driver_costs init r)) as (Hs & Hg & Hr & Ht).
  cbn zeta in *. rewrite Hs, Hg, Hr, Ht.
  cbn [add_driver_costs services regions resources running_total].
  repeat split. fold (with_resource rs).
  assert (Hresource : resource_of r
                      = match resource_id r with
                        | Some resource => resource
                        | None => ""
                        end) by reflexivity.
  destruct (resource_id r) as [[|ch id]|]; rewrite Hresource;
    cbn [String.eqb negb fold_left]; try reflexivity.
  now rewrite Hresource.
Qed.

Lemma slice_to_firstn {A : Type} (n : Z) (xs : list A) :
  exists m, Py.slice_to n xs = firstn m xs
            /\ ((0 <= n)%Z -> m = Z.to_nat n).
Proof.
  unfold Py.slice_to. destruct (Z.leb_spec 0 n) as [Hn|Hn].
  - exists (Z.to_nat n). split; [reflexivity|trivial].
  - eexists. split; [reflexivity|lia].
Qed.

(** The greatest entries of a grouping, as drivers. *)
Lemma top_drivers_spec (key : CostRecord -> string)
    (records : list CostRecord) (total : Q) (top_n : Z) (d : Py.dict Q) :
  NoDup (Py.keys d) ->
  (forall k, In k (Py.keys d) <-> In k (map key records)) ->
  (forall k, Py.get_default k d 0 == cost_with key k records) ->
  drivers_of key records total top_n (top_drivers top_n total d).
Proof.
  intros Hnd Hkeys Hget. unfold top_drivers.
  pose proof (sorted_desc_perm snd d) as Hperm.
  pose proof (sorted_desc_sorted snd d) as Hsorted.
  set (sorted := Py.sorted_desc snd d) in *.
  destruct (slice_to_firstn top_n sorted) as (m & -> & Hm).
  set (driver := fun item : string * Q =>
                   mkDriver (fst item) (Py.round (snd item) 2)
                     (Py.round (if Py.Qgtb total 0
                                then snd item / total * 100 else 0) 2)).
  assert (Hcost : forall item, In item sorted ->
                    snd item == cost_with key (fst item) records
                    /\ In (fst item) (map key records)).
  { intros [k c] Hin. apply (Permutation_in _ Hperm) in Hin. cbn [fst snd].
    split.
    - rewrite <- Hget. unfold Py.get_default.
      now rewrite (In_get _ _ _ Hnd Hin).
    - apply Hkeys. apply (in_map fst) in Hin. exact Hin. }
  assert (Hnames : map name (map driver (firstn m sorted))
                   = map fst (firstn m sorted)).
  { rewrite map_map. reflexivity. }
  assert (Hnd_sorted : NoDup (map fst sorted)).
  { eapply Permutation_NoDup; [|exact Hnd].
    symmetry. now apply Permutation_map. }
  unfold drivers_of. split; [|split; [|split; [|split]]].
  - rewrite Hnames, <- firstn_map.
    rewrite <- (firstn_skipn m (map fst sorted)) in Hnd_sorted.
    now apply NoDup_app_remove_r in Hnd_sorted.
  - intro H0. rewrite length_map, (Hm H0). apply firstn_le_length.
  - apply StronglySorted_map_mono
      with (R := fun a b : string * Q => snd b <= snd a).
    + intros x y Hxy. unfold driver_cost_at_least, driver.
      cbn [driver_cost]. now apply round_mono.
    + now apply StronglySorted_firstn.
  - rewrite Forall_map, Forall_forall. intros item Hitem. cbn zeta.
    apply firstn_In in Hitem. destruct (Hcost item Hitem) as [Hc Hin].
    unfold driver. cbn [name driver_cost percentage].
    split; [exact Hin|]. split; [now apply round_comp|].
    apply round_comp. destruct (Py.Qgtb total 0); [|reflexivity].
    now rewrite Hc.
  - intros other Hother Hnot. rewrite Hnames in Hnot.
    apply Hkeys in Hother. apply get_keys in Hother as [c Hc].
    apply get_In in Hc.
    apply (Permutation_in _ (Permutation_sym Hperm)) in Hc.
    rewrite <- (firstn_skipn m sorted) in Hc, Hsorted.
    apply in_app_or in Hc as [Hc|Hc].
    { exfalso. apply Hnot. apply (in_map fst) in Hc. exact Hc. }
    split.
    + intros [H0 Hshort]. rewrite length_map, length_firstn in Hshort.
      assert (Hlen : (List.length (skipn m sorted) <> 0)%nat).
      { intro Hz. apply length_zero_iff_nil in Hz. rewrite Hz in Hc.
        destruct Hc. }
      rewrite length_skipn in Hlen. specialize (Hm H0). lia.
    + rewrite Forall_map, Forall_forall. intros item Hitem.
      unfold driver. cbn [name].
      pose proof (StronglySorted_app_between _ _ _ Hsorted item (other, c)
                    Hitem Hc) as Hle.
      cbn [snd] in Hle.
      assert (Hitem' : In item sorted).
      { rewrite <- (firstn_skipn m sorted). apply in_or_app. now left. }
      assert (Hother' : In (other, c) sorted).
      { rewrite <- (firstn_skipn m sorted). apply in_or_app. now right. }
      destruct (Hcost item Hitem') as [<- _].
      destruct (Hcost (other, c) Hother') as [Ho _]. cbn [fst snd] in Ho.
      now rewrite <- Ho.
Qed.

End CostDrivers.

